(** * exgdas_global_marine_analysis_prep.py: staging script of the marine analysis

    A shallow embedding of [scripts/exgdas_global_marine_analysis_prep.py]
    and the properties of its background manifest, its metadata repair, its
    bump C loop and the environment it needs.

    - Python strings are [string]: sequences of characters compared by their
      ordinal, as [str] is; the characters are the 256 values of [ascii].
      Python integers are [Z]; a dict whose key order matters is an
      association list; [os.environ] is a [gmap].
    - A statement of the script is a function from a state ([os.environ]
      and the world outside) to an exception or a value, a new state and
      the events emitted: log records, shell commands, calls of external
      collaborators, assignments to [os.environ], YAML dumps.
    - The [ufsda] package, [f90nml], [glob], the shell and the parsers
      [int] and [strptime] are the outside: a record of functions over an
      arbitrary world.  The functions of [os.path], [datetime] and [bytes]
      the statements depend on are written out after their library sources.
    - Left out: [print], [sys.path] and the [import] of [ufsda].  The write
      of the manifest is the event [EDump]: [open(yaml_name, 'w')] raises
      what the outside decides, and [yaml.dump] to the open file is taken
      to succeed. *)

From Stdlib Require Import ZArith Ascii String List Lia Sorted Permutation.
From stdpp Require Import base tactics option list sorting gmap strings.

Local Open Scope Z_scope.

(** ** Python [str] primitives *)

Module Str.

(** [c in s] for a single character. *)
Fixpoint has_char (c : ascii) (s : string) : bool :=
  match s with
  | EmptyString => false
  | String a r => Ascii.eqb a c || has_char c r
  end.

(** [len(s)] *)
Fixpoint len (s : string) : Z :=
  match s with
  | EmptyString => 0
  | String _ r => 1 + len r
  end.

(** Scan of [s] from index [i]; [acc] is the last index of [c] seen. *)
Fixpoint rfind_from (c : ascii) (s : string) (i acc : Z) : Z :=
  match s with
  | EmptyString => acc
  | String a r => rfind_from c r (i + 1) (if Ascii.eqb a c then i else acc)
  end.

(** [s.rfind(c)]: the highest index of [c] in [s], or [-1]. *)
Definition rfind (c : ascii) (s : string) : Z := rfind_from c s 0 (-1).

Fixpoint drop (n : nat) (s : string) : string :=
  match n, s with
  | O, _ => s
  | S n', String _ r => drop n' r
  | S _, EmptyString => EmptyString
  end.

Fixpoint take (n : nat) (s : string) : string :=
  match n, s with
  | O, _ => EmptyString
  | S n', String a r => String a (take n' r)
  | S _, EmptyString => EmptyString
  end.

(** [s[i:]] and [s[:i]] for [i >= 0]. *)
Definition slice_from (i : Z) (s : string) : string := drop (Z.to_nat i) s.
Definition slice_to (i : Z) (s : string) : string := take (Z.to_nat i) s.
(** [s[i:j]] for [0 <= i]. *)
Definition slice (i j : Z) (s : string) : string := slice_to (j - i) (slice_from i s).

(** [s.startswith(c)], [s.endswith(c)] for a single character. *)
Definition startswith (c : ascii) (s : string) : bool :=
  match s with
  | String a _ => Ascii.eqb a c
  | EmptyString => false
  end.

Fixpoint endswith (c : ascii) (s : string) : bool :=
  match s with
  | EmptyString => false
  | String a EmptyString => Ascii.eqb a c
  | String _ r => endswith c r
  end.

(** [s.split(c)] for a one-character separator: the pieces between the
    occurrences of [c]; [cur] is the piece being read, reversed. *)
Fixpoint split_from (c : ascii) (s : string) (cur : string) : list string :=
  match s with
  | EmptyString => [cur]
  | String a r =>
      if Ascii.eqb a c then cur :: split_from c r EmptyString
      else split_from c r (cur +:+ String a EmptyString)
  end.
Definition split (c : ascii) (s : string) : list string := split_from c s EmptyString.

End Str.

(** ** [os.path] (posixpath) *)

Module Path.

Definition sep : ascii := "/"%char.
Definition extsep : ascii := "."%char.

(** [os.path.basename(p)]: [i = p.rfind(sep) + 1; return p[i:]]. *)
Definition basename (p : string) : string :=
  let i := Str.rfind sep p + 1 in
  Str.slice_from i p.

(** The [while] of [genericpath._splitext]: is there a character other
    than [extsep] in [p[filenameIndex:dotIndex]]? *)
Fixpoint has_non_dot (s : string) : bool :=
  match s with
  | EmptyString => false
  | String a r => negb (Ascii.eqb a extsep) || has_non_dot r
  end.

(** [os.path.splitext(p)] ([genericpath._splitext] with no [altsep]). *)
Definition splitext (p : string) : string * string :=
  let sepIndex := Str.rfind sep p in
  let dotIndex := Str.rfind extsep p in
  if dotIndex >? sepIndex then
    if has_non_dot (Str.slice (sepIndex + 1) dotIndex p)
    then (Str.slice_to dotIndex p, Str.slice_from dotIndex p)
    else (p, EmptyString)
  else (p, EmptyString).

(** One round of the loop of [posixpath.join]. *)
Definition join_step (path b : string) : string :=
  if Str.startswith sep b then b
  else if (String.eqb path EmptyString || Str.endswith sep path)%bool then path +:+ b
  else path +:+ "/" +:+ b.

(** [os.path.join(a, *p)] on [str] arguments. *)
Definition join (a : string) (p : list string) : string := fold_left join_step p a.

End Path.

(** ** [datetime] *)

Module Datetime.

(** [_is_leap(year)] *)
Definition is_leap (year : Z) : bool :=
  (year mod 4 =? 0) && (negb (year mod 100 =? 0) || (year mod 400 =? 0)).

(** [_days_before_year(year)]: days before January 1st of [year]. *)
Definition days_before_year (year : Z) : Z :=
  let y := year - 1 in
  y * 365 + y / 4 - y / 100 + y / 400.

(** [_DAYS_IN_MONTH] and [_DAYS_BEFORE_MONTH], indexed from 1. *)
Definition DAYS_IN_MONTH : list Z := [-1; 31; 28; 31; 30; 31; 30; 31; 31; 30; 31; 30; 31].
Definition DAYS_BEFORE_MONTH : list Z :=
  [-1; 0; 31; 59; 90; 120; 151; 181; 212; 243; 273; 304; 334].

Definition table (t : list Z) (i : Z) : Z := nth (Z.to_nat i) t (-1).

(** [_days_before_month(year, month)] *)
Definition days_before_month (year month : Z) : Z :=
  table DAYS_BEFORE_MONTH month + (if (month >? 2) && is_leap year then 1 else 0).

(** [_days_in_month(year, month)] *)
Definition days_in_month (year month : Z) : Z :=
  if (month =? 2) && is_leap year then 29 else table DAYS_IN_MONTH month.

(** [_ymd2ord(year, month, day)]: ordinal, with 0001-01-01 as day 1. *)
Definition ymd2ord (year month day : Z) : Z :=
  days_before_year year + days_before_month year month + day.

Definition DI400Y : Z := Eval cbv in days_before_year 401.
Definition DI100Y : Z := Eval cbv in days_before_year 101.
Definition DI4Y : Z := Eval cbv in days_before_year 5.

(** [_ord2ymd(n)]: [(year, month, day)] of the ordinal [n]. *)
Definition ord2ymd (n : Z) : Z * Z * Z :=
  let n := n - 1 in
  let n400 := n / DI400Y in
  let n := n mod DI400Y in
  let year := n400 * 400 + 1 in
  let n100 := n / DI100Y in
  let n := n mod DI100Y in
  let n4 := n / DI4Y in
  let n := n mod DI4Y in
  let n1 := n / 365 in
  let n := n mod 365 in
  let year := year + n100 * 100 + n4 * 4 + n1 in
  if (n1 =? 4) || (n100 =? 4) then (year - 1, 12, 31)
  else
    let leapyear := (n1 =? 3) && (negb (n4 =? 24) || (n100 =? 3)) in
    let month := Z.shiftr (n + 50) 5 in
    let preceding :=
      table DAYS_BEFORE_MONTH month + (if (month >? 2) && leapyear then 1 else 0) in
    if preceding >? n then
      let month := month - 1 in
      let preceding :=
        preceding - (table DAYS_IN_MONTH month + (if (month =? 2) && leapyear then 1 else 0)) in
      (year, month, n - preceding + 1)
    else (year, month, n - preceding + 1).

(** [_MAXORDINAL]: the ordinal of 9999-12-31. *)
Definition MAXORDINAL : Z := 3652059.

Definition US_PER_SECOND : Z := 1000000.
Definition US_PER_HOUR : Z := 3600 * US_PER_SECOND.
Definition US_PER_DAY : Z := 24 * US_PER_HOUR.

(** A naive [datetime] is a point of the proleptic Gregorian time line with
    microsecond resolution.  It is kept as the number of microseconds
    since 0001-01-01T00:00:00 ([datetime.min]); the calendar fields are
    read off with [ord2ymd], as [datetime.__add__] itself goes through
    [toordinal]. *)
Record datetime := mk_datetime { micros : Z }.

(** The values a [datetime] object can hold: [datetime.min .. datetime.max]. *)
Definition valid (t : datetime) : Prop := 0 <= micros t < MAXORDINAL * US_PER_DAY.

(** A [timedelta], as its total number of microseconds. *)
Definition timedelta := Z.
Definition hours (h : Z) : timedelta := h * US_PER_HOUR.

(** [t + delta]: [OverflowError] (here [None]) when the result leaves
    [0 < days <= _MAXORDINAL]. *)
Definition add (t : datetime) (delta : timedelta) : option datetime :=
  let r := micros t + delta in
  if (0 <=? r) && (r <? MAXORDINAL * US_PER_DAY) then Some (mk_datetime r) else None.

(** [datetime(year, month, day, hour, minute, second)] for fields in range. *)
Definition of_fields (year month day hour minute second : Z) : datetime :=
  mk_datetime ((ymd2ord year month day - 1) * US_PER_DAY
               + ((hour * 60 + minute) * 60 + second) * US_PER_SECOND).

Definition toordinal (t : datetime) : Z := micros t / US_PER_DAY + 1.
Definition year (t : datetime) : Z := fst (fst (ord2ymd (toordinal t))).
Definition month (t : datetime) : Z := snd (fst (ord2ymd (toordinal t))).
Definition day (t : datetime) : Z := snd (ord2ymd (toordinal t)).
Definition hour (t : datetime) : Z := (micros t mod US_PER_DAY) / US_PER_HOUR.
Definition minute (t : datetime) : Z := (micros t mod US_PER_HOUR) / (60 * US_PER_SECOND).
Definition second (t : datetime) : Z := (micros t mod (60 * US_PER_SECOND)) / US_PER_SECOND.

(** Decimal digit and the zero padded two digit fields of [strftime]. *)
Definition digit (d : Z) : ascii := ascii_of_nat (48 + Z.to_nat (d mod 10)).
Definition pad2 (n : Z) : string :=
  String (digit (n / 10)) (String (digit n) EmptyString).

(** The field [%Y].  [strftime] hands the format to the C library, which
    on Linux writes the year (1 to 9999) as a decimal number without
    leading zeros: year 999 is [999], not [0999]. *)
Definition year_field (y : Z) : string :=
  if y <? 10 then String (digit y) EmptyString
  else if y <? 100 then pad2 y
  else if y <? 1000 then String (digit (y / 100)) (pad2 y)
  else String (digit (y / 1000)) (String (digit (y / 100)) (pad2 y)).

(** [t.strftime('%Y-%m-%dT%H:%M:%SZ')] *)
Definition strftime_iso (t : datetime) : string :=
  year_field (year t) +:+ "-" +:+ pad2 (month t) +:+ "-" +:+ pad2 (day t) +:+ "T" +:+
  pad2 (hour t) +:+ ":" +:+ pad2 (minute t) +:+ ":" +:+ pad2 (second t) +:+ "Z".

(** [t.strftime('%Y-%m-%d-%H-%M-%S')] *)
Definition strftime_dashes (t : datetime) : string :=
  year_field (year t) +:+ "-" +:+ pad2 (month t) +:+ "-" +:+ pad2 (day t) +:+ "-" +:+
  pad2 (hour t) +:+ "-" +:+ pad2 (minute t) +:+ "-" +:+ pad2 (second t).

(** [[int(s) for s in t.strftime('%Y,%m,%d,%H,%M,%S').split(',')]]: [int]
    reads each field back as the number it renders, padded or not. *)
Definition ymdhms (t : datetime) : list Z :=
  [year t; month t; day t; hour t; minute t; second t].

(** [timedelta.max.days]: a [timedelta] outside of it is an [OverflowError]. *)
Definition MAX_DELTA_DAYS : Z := 999999999.
Definition timedelta_in_range (d : timedelta) : bool :=
  (- MAX_DELTA_DAYS <=? d / US_PER_DAY) && (d / US_PER_DAY <=? MAX_DELTA_DAYS).

End Datetime.

(** ** Python values, exceptions and what the script does to the outside *)

(** The values the script handles.  [VObj] is an object owned by an external
    collaborator (a parsed configuration, a namelist, an open file). *)
#[local] Unset Elimination Schemes.
Inductive pyval :=
| VNone
| VBool (b : bool)
| VInt (n : Z)
| VStr (s : string)
| VDatetime (t : Datetime.datetime)
| VList (l : list pyval)
| VDict (d : list (string * pyval))
| VObj (id : nat).
#[local] Set Elimination Schemes.

Inductive exn :=
| TypeError
| AttributeError
| ValueError
| OverflowError
| UnicodeDecodeError
| OSError (name : string)
| Raised (callee : string).

(** What a run leaves behind, in order: log records, shell commands (by the
    call that ran them), calls of external collaborators with their
    arguments (keyword arguments in the order they are written),
    assignments to [os.environ], and documents dumped as YAML. *)
Inductive event :=
| ELog (msg : list pyval)
| ESystem (cmd : string)
| ERun (cmd : string)
| ECall (callee : string) (args : list pyval)
| ESetenv (key value : string)
| EDump (file : string) (doc : pyval).

(** [bytes.decode('utf-8')] raises on anything but well-formed UTF-8. *)
Module Utf8.

Definition between (lo hi b : Z) : bool := (lo <=? b) && (b <=? hi).
Definition cont (b : Z) : bool := between 128 191 b.

Fixpoint valid (l : list Z) : bool :=
  match l with
  | [] => true
  | b0 :: r =>
      if between 0 127 b0 then valid r
      else if between 194 223 b0 then
        match r with
        | b1 :: r1 => cont b1 && valid r1
        | _ => false
        end
      else if between 224 239 b0 then
        match r with
        | b1 :: b2 :: r2 =>
            (if b0 =? 224 then between 160 191 b1
             else if b0 =? 237 then between 128 159 b1
             else cont b1) && cont b2 && valid r2
        | _ => false
        end
      else if between 240 244 b0 then
        match r with
        | b1 :: b2 :: b3 :: r3 =>
            (if b0 =? 240 then between 144 191 b1
             else if b0 =? 244 then between 128 143 b1
             else cont b1) && cont b2 && cont b3 && valid r3
        | _ => false
        end
      else false
  end.

End Utf8.

(** The outside of the script, over a world [W] (file system, R2D2
    database, collaborator objects): the [ufsda], [f90nml] and file calls,
    [glob.glob], the two ways a shell command is run, and the two parsers of
    the standard library the script applies to environment text.  An
    external call sees [os.environ] but does not assign to it: only the
    script does. *)
Record collaborators (W : Type) := {
  call_ext : string -> list pyval -> gmap string string -> W -> (exn + pyval) * W;
  glob_glob : string -> W -> list string;
  (** [os.system(c)]: the exit status. *)
  os_system : string -> W -> Z * W;
  (** [subprocess.run(c, stdout=PIPE, shell=True)]: [returncode] and [stdout]. *)
  subprocess_run : string -> W -> (Z * list Z) * W;
  (** [datetime.strptime(s, '%Y%m%d%H')]; [None] is its [ValueError]. *)
  strptime_YmdH : string -> option Datetime.datetime;
  (** [int(s)] on a [str]; [None] is its [ValueError]. *)
  int_of_str : string -> option Z;
  (** [open(name, 'w')]: the exception it raises, if any
      ([FileNotFoundError], [PermissionError], ...). *)
  open_w : string -> W -> option exn * W
}.
Arguments call_ext {W}.
Arguments glob_glob {W}.
Arguments os_system {W}.
Arguments subprocess_run {W}.
Arguments strptime_YmdH {W}.
Arguments int_of_str {W}.
Arguments open_w {W}.

Record state (W : Type) := mk_state {
  environ : gmap string string;
  world : W
}.
Arguments mk_state {W}.
Arguments environ {W}.
Arguments world {W}.

(** A statement runs from a state to an exception or a value, a new state
    and the events it emitted. *)
Definition M (W A : Type) : Type := state W -> (exn + A) * state W * list event.

Definition ret {W A} (a : A) : M W A := fun s => (inr a, s, []).
Definition raise {W A} (e : exn) : M W A := fun s => (inl e, s, []).
Definition bind {W A B} (m : M W A) (k : A -> M W B) : M W B :=
  fun s =>
    match m s with
    | (inl e, s1, t1) => (inl e, s1, t1)
    | (inr a, s1, t1) =>
        match k a s1 with
        | (r, s2, t2) => (r, s2, t1 ++ t2)
        end
    end.

Declare Scope py_scope.
Delimit Scope py_scope with py.
Notation "x <- m ; k" := (bind m (fun x => k))
  (at level 100, m at next level, right associativity) : py_scope.
Notation "m ;; k" := (bind m (fun _ => k))
  (at level 100, right associativity) : py_scope.
Local Open Scope py_scope.

(** [for x in l: body x] *)
Fixpoint for_each {W A} (l : list A) (body : A -> M W unit) : M W unit :=
  match l with
  | [] => ret tt
  | x :: r => body x ;; for_each r body
  end.

(** A [for] loop that updates local variables [acc]. *)
Fixpoint for_fold {W A S} (l : list A) (body : S -> A -> M W S) (acc : S) : M W S :=
  match l with
  | [] => ret acc
  | x :: r => acc' <- body acc x ; for_fold r body acc'
  end.

(** [files.sort()]: ascending for the order of [str], which compares
    character ordinals and puts a proper prefix first ([String.le]). *)
Definition sort (l : list string) : list string := merge_sort String.le l.

(** ** The statements of the script *)

Section Script.
Context {W : Type} (C : collaborators W).

(** [logging.info(f"...")]: the record, as the pieces of its f-string. *)
Definition logging_info (msg : list pyval) : M W unit :=
  fun s => (inr tt, s, [ELog msg]).

(** [os.getenv(k)]: [None] when unset. *)
Definition os_getenv (k : string) : M W pyval :=
  fun s => (inr (match environ s !! k with Some v => VStr v | None => VNone end), s, []).

(** [os.environ[k] = v]: [v] has to be a [str] without a NUL. *)
Definition environ_set (k : string) (v : pyval) : M W unit :=
  match v with
  | VStr x =>
      if Str.has_char Ascii.zero x then raise ValueError
      else fun s => (inr tt, mk_state (<[k := x]> (environ s)) (world s), [ESetenv k x])
  | _ => raise TypeError
  end.

(** A call of an external collaborator. *)
Definition call (callee : string) (args : list pyval) : M W pyval :=
  fun s =>
    match call_ext C callee args (environ s) (world s) with
    | (r, w) => (r, mk_state (environ s) w, [ECall callee args])
    end.

(** [obj[key]] and [obj[key] = v] on an object of a collaborator: the
    object lives in the world, so both are requests to it. *)
Definition getitem (obj : pyval) (key : string) : M W pyval :=
  call "__getitem__" [obj; VStr key].
Definition setitem (obj : pyval) (key : string) (v : pyval) : M W unit :=
  call "__setitem__" [obj; VStr key; v] ;; ret tt.

(** [os.fspath(v)] as [os.path.join] applies it: a [str], or [TypeError]. *)
Definition fspath (v : pyval) : M W string :=
  match v with
  | VStr x => ret x
  | _ => raise TypeError
  end.

Fixpoint fspaths (l : list pyval) : M W (list string) :=
  match l with
  | [] => ret []
  | v :: r => x <- fspath v ; xs <- fspaths r ; ret (x :: xs)
  end.

(** [os.path.join(a, *p)] on values. *)
Definition os_path_join (a : pyval) (p : list pyval) : M W string :=
  a' <- fspath a ;
  p' <- fspaths p ;
  ret (Path.join a' p').

(** The left operand of [v + '...']: a [str], or the [TypeError] of [+]. *)
Definition str_operand (v : pyval) : M W string :=
  match v with
  | VStr x => ret x
  | _ => raise TypeError
  end.

(** [a + b] on two values read from the environment. *)
Definition add_vals (a b : pyval) : M W string :=
  match a, b with
  | VStr x, VStr y => ret (x +:+ y)
  | _, _ => raise TypeError
  end.

(** [v + timedelta] on the values of [pyval]: a [datetime] gives a
    [datetime] or overflows; [None], a [bool], an [int], a [str], a [list]
    and a [dict] raise [TypeError].  The other values Python adds a
    [timedelta] to, a [date] and a [timedelta], are not values of [pyval]:
    the script passes a [datetime] (line 218).  The object of a
    collaborator is taken not to define the sum. *)
Definition add_timedelta (v : pyval) (d : Datetime.timedelta) : M W Datetime.datetime :=
  match v with
  | VDatetime t =>
      match Datetime.add t d with
      | Some t' => ret t'
      | None => raise OverflowError
      end
  | _ => raise TypeError
  end.

(** [int(v)] on a value read from the environment. *)
Definition py_int (v : pyval) : M W Z :=
  match v with
  | VStr x =>
      match int_of_str C x with
      | Some n => ret n
      | None => raise ValueError
      end
  | _ => raise TypeError
  end.

(** [os.system(c)]; the status is the value of the expression statement. *)
Definition system (c : string) : M W Z :=
  fun s =>
    match os_system C c (world s) with
    | (status, w) => (inr status, mk_state (environ s) w, [ESystem c])
    end.

(** [subprocess.run(c, stdout=subprocess.PIPE, shell=True)] *)
Definition run (c : string) : M W (Z * list Z) :=
  fun s =>
    match subprocess_run C c (world s) with
    | (result, w) => (inr result, mk_state (environ s) w, [ERun c])
    end.

(** [b.decode('utf-8')]; the text is dropped by the script. *)
Definition decode (b : list Z) : M W unit :=
  if Utf8.valid b then ret tt else raise UnicodeDecodeError.

(** *** [gen_bkg_list] *)

Definition repair_vars : list string := ["Temp"; "Salt"; "ave_ssh"; "h"; "MLD"].
Definition repair_atts : list string := ["_FillValue"; "missing_value"].

(** The two [ncatted] commands of a variable, an attribute and a file. *)
Definition ch_job (att v bkg : string) : string :=
  "ncatted -h -a " +:+ att +:+ "," +:+ v +:+ ",o,d,9999.0 " +:+ bkg.
Definition d_job (att v bkg : string) : string :=
  "ncatted -h -a " +:+ att +:+ "," +:+ v +:+ ",d,d,1.0 " +:+ bkg.

(** The body of [for c in fix_diag_ch_jobs] and of [for c in fix_diag_d_jobs]. *)
Definition run_job (c : string) : M W unit :=
  logging_info [VStr c] ;;
  system c ;;
  result <- run c ;
  decode (snd result).

(** "Fix missing value in diag files" *)
Definition fix_diag (files : list string) : M W unit :=
  for_each repair_vars (fun v =>
    for_each repair_atts (fun att =>
      let fix_diag_ch_jobs := map (ch_job att v) files in
      let fix_diag_d_jobs := map (d_job att v) files in
      for_each fix_diag_ch_jobs run_job ;;
      for_each fix_diag_d_jobs run_job)).

(** [os.path.splitext(os.path.basename(bkg))[0]+'.nc'] *)
Definition ocn_filename (bkg : string) : string :=
  fst (Path.splitext (Path.basename bkg)) +:+ ".nc".

Definition bkg_dict (bkg_date : Datetime.datetime) (bkg_path bkg : string) : pyval :=
  VDict [("date", VStr (Datetime.strftime_iso bkg_date));
         ("basename", VStr (bkg_path +:+ "/"));
         ("ocn_filename", VStr (ocn_filename bkg));
         ("read_from_file", VInt 1)].

(** The body of [for bkg in files], on [(bkg_date, bkg_list)]. *)
Definition bkg_step (bkg_path : string) (acc : Datetime.datetime * list pyval) (bkg : string)
  : M W (Datetime.datetime * list pyval) :=
  let '(bkg_date, bkg_list) := acc in
  let d := bkg_dict bkg_date bkg_path bkg in
  bkg_date' <- add_timedelta (VDatetime bkg_date) (Datetime.hours 1) ;
  ret (bkg_date', bkg_list ++ [d]).

(** Lines 90-91: [f = open(yaml_name, 'w')] and [yaml.dump(dict, f, ...)].
    When [open] raises nothing is written. *)
Definition open_dump (yaml_name : string) (dict : pyval) : M W unit :=
  fun s =>
    match open_w C yaml_name (world s) with
    | (Some e, w) => (inl e, mk_state (environ s) w, [])
    | (None, w) => (inr tt, mk_state (environ s) w, [EDump yaml_name dict])
    end.

(** [gen_bkg_list(window_begin, bkg_path, file_type, yaml_name)]. *)
Definition gen_bkg_list (window_begin bkg_path : pyval) (file_type yaml_name : string)
  : M W unit :=
  path <- str_operand bkg_path ;
  files <- (fun s => (inr (sort (glob_glob C (path +:+ "/*" +:+ file_type +:+ "*") (world s))), s, [])) ;
  fix_diag files ;;
  bkg_date <- add_timedelta window_begin (Datetime.hours 1) ;
  acc <- for_fold files (bkg_step path) (bkg_date, []) ;
  let dict := VDict [("states", VList (snd acc))] in
  open_dump yaml_name dict.

(** *** The script, block by block *)

(** Lines 36-39: [gdas_home]. *)
Definition get_gdas_home : M W string :=
  homegfs <- os_getenv "HOMEgfs" ;
  os_path_join homegfs [VStr "sorc"; VStr "gdas.cd"].

(** "runtime environment variables, create directories": the values of
    [comout], [comin_obs], [anl_dir] and [diags]. *)
Definition setup_runtime : M W (pyval * pyval * string * string) :=
  logging_info [VStr "---------------- Setup runtime environement"] ;;
  comout <- os_getenv "COMOUT" ;
  comin_obs <- os_getenv "COMIN_OBS" ;
  staticsoca_dir <- os_getenv "SOCA_INPUT_FIX_DIR" ;
  anl_dir <- os_path_join comout [VStr "analysis"] ;
  call "ufsda.mkdir" [VStr anl_dir] ;;
  diags <- os_path_join comout [VStr "analysis"; VStr "diags"] ;
  call "ufsda.mkdir" [VStr diags] ;;
  data <- os_path_join comout [VStr "analysis"; VStr "Data"] ;
  call "ufsda.mkdir" [VStr data] ;;
  ret (comout, comin_obs, anl_dir, diags).

(** "fetch observations": the value of [stage_cfg]. *)
Definition stage_observations (gdas_home : string) (comin_obs : pyval) (diags : string)
  : M W pyval :=
  logging_info [VStr "---------------- Stage observations"] ;;
  call "ufsda.r2d2.setup" [VStr "r2d2_config.yaml"; comin_obs] ;;
  envconfig <- call "ufsda.misc_utils.get_env_config" [VStr "notatm"] ;
  obs_date <- getitem envconfig "OBS_DATE" ;
  environ_set "OBS_DATE" obs_date ;;
  obs_dir <- getitem envconfig "OBS_DIR" ;
  environ_set "OBS_DIR" obs_dir ;;
  obs_prefix <- getitem envconfig "OBS_PREFIX" ;
  environ_set "OBS_PREFIX" obs_prefix ;;
  environ_set "DIAG_DIR" (VStr diags) ;;
  let templateyaml := Path.join gdas_home ["parm"; "templates"; "stage.yaml"] in
  stage_cfg <- call "ufsda.parse_config" [VStr templateyaml; VBool true] ;
  call "ufsda.stage.obs" [stage_cfg] ;;
  ret stage_cfg.

(** "stage backgrounds from COMIN_GES to analysis subdir" and "stage static files" *)
Definition stage_backgrounds (stage_cfg : pyval) : M W unit :=
  logging_info [VStr "---------------- Stage backgrounds"] ;;
  comin_ges <- os_getenv "COMIN_GES" ;
  setitem stage_cfg "background_dir" comin_ges ;;
  call "ufsda.stage.background" [stage_cfg] ;;
  logging_info [VStr "---------------- Stage static files"] ;;
  call "ufsda.stage.soca_fix" [stage_cfg] ;;
  ret tt.

(** [os.environ.get("SOCA_VARS").split(",")]: [None] has no [split]. *)
Definition get_soca_vars : M W (list string) :=
  v <- os_getenv "SOCA_VARS" ;
  match v with
  | VStr x => ret (Str.split ","%char x)
  | _ => raise AttributeError
  end.

(** "prepare JEDI yamls", up to the bump C loop: the value of [soca_vars]. *)
Definition prepare_yamls (gdas_home anl_dir : string) (stage_cfg : pyval)
  : M W (list string) :=
  logging_info [VStr "---------------- Generate JEDI yaml files"] ;;
  soca_vars <- get_soca_vars ;
  let gridgen_yaml := Path.join gdas_home ["parm"; "soca"; "gridgen"; "gridgen.yaml"] in
  stage_dir <- getitem stage_cfg "stage_dir" ;
  dst <- os_path_join stage_dir [VStr "gridgen.yaml"] ;
  call "ufsda.disk_utils.symlink" [VStr gridgen_yaml; VStr dst] ;;
  let berr_yaml := Path.join anl_dir ["parametric_stddev_b.yaml"] in
  let berr_yaml_template :=
    Path.join gdas_home ["parm"; "soca"; "berror"; "parametric_stddev_b.yaml"] in
  let config := VDict [] in
  call "ufsda.yamltools.genYAML" [config; VStr berr_yaml; VStr berr_yaml_template] ;;
  let corscales_yaml :=
    Path.join gdas_home ["parm"; "soca"; "berror"; "soca_setcorscales.yaml"] in
  stage_dir <- getitem stage_cfg "stage_dir" ;
  dst <- os_path_join stage_dir [VStr "soca_setcorscales.yaml"] ;
  call "ufsda.disk_utils.symlink" [VStr corscales_yaml; VStr dst] ;;
  ret soca_vars.

(** "generate yaml for bump C" *)
Definition vars3d : list string := ["tocn"; "socn"; "uocn"; "vocn"; "chl"; "biop"].
Definition vars2d : list string :=
  ["ssh"; "cicen"; "hicen"; "hsnon"; "swh"; "sw"; "lw"; "lw_rad"; "lhf"; "shf"; "us"].

(** [vars]: the names the loop runs over. *)
Definition vars : list string := ["ssh"; "tocn"; "socn"].

(** [if v in vars2d: dim = '2d' else: dim = '3d'] *)
Definition dim_of (v : string) : string :=
  if bool_decide (v ∈ vars2d) then "2d" else "3d".

Definition bumpC_yaml_of (anl_dir v : string) : string :=
  Path.join anl_dir ["soca_bump" +:+ dim_of v +:+ "_C_" +:+ v +:+ ".yaml"].
Definition bumpC_yaml_template (gdas_home : string) : string :=
  Path.join gdas_home ["parm"; "soca"; "berror"; "soca_bump_C_split.yaml"].
Definition bumpdir_of (v : string) : string := "bump" +:+ dim_of v +:+ "_" +:+ v.

(** The body of [for v in vars]. *)
Definition bumpC_body (gdas_home anl_dir v : string) : M W unit :=
  let bumpC_yaml := bumpC_yaml_of anl_dir v in
  let bumpdir := bumpdir_of v in
  call "ufsda.disk_utils.mkdir" [VStr (Path.join anl_dir [bumpdir])] ;;
  let config := VDict [("datadir", VStr bumpdir)] in
  environ_set "CVAR" (VStr v) ;;
  call "ufsda.yamltools.genYAML"
       [config; VStr bumpC_yaml; VStr (bumpC_yaml_template gdas_home)] ;;
  ret tt.

Definition bump_C (soca_vars : list string) (gdas_home anl_dir : string) : M W unit :=
  logging_info [VStr "over-writting "; VList (map VStr soca_vars);
                VStr " with "; VList (map VStr vars)] ;;
  for_each vars (bumpC_body gdas_home anl_dir).

(** [timedelta(hours=n/2)]: exact for every [n] it accepts. *)
Definition half_hours (n : Z) : M W Datetime.timedelta :=
  let d := n * (Datetime.US_PER_HOUR / 2) in
  if Datetime.timedelta_in_range d then ret d else raise OverflowError.

(** [datetime.strptime(v, '%Y%m%d%H')] on a value read from the environment. *)
Definition strptime (v : pyval) : M W Datetime.datetime :=
  match v with
  | VStr x =>
      match strptime_YmdH C x with
      | Some t => ret t
      | None => raise ValueError
      end
  | _ => raise TypeError
  end.

(** "generate yaml for soca_var": the value of [window_begin]. *)
Definition variational_yaml (gdas_home anl_dir : string) : M W Datetime.datetime :=
  let var_yaml := Path.join anl_dir ["var.yaml"] in
  let var_yaml_template :=
    Path.join gdas_home ["parm"; "soca"; "variational"; "3dvarfgat.yaml"] in
  assim_freq <- os_getenv "assim_freq" ;
  n <- py_int assim_freq ;
  half_assim_freq <- half_hours n ;
  cdate <- os_getenv "CDATE" ;
  t <- strptime cdate ;
  window_begin <- add_timedelta (VDatetime t) (- half_assim_freq) ;
  comin_ges <- os_getenv "COMIN_GES" ;
  gen_bkg_list (VDatetime window_begin) comin_ges "gdas.t*.ocnf00[4-9]" "bkg_list.yaml" ;;
  soca_ninner <- os_getenv "SOCA_NINNER" ;
  pdy <- os_getenv "PDY" ;
  cyc <- os_getenv "cyc" ;
  obs_date <- add_vals pdy cyc ;
  let config :=
    VDict [("OBS_DATE", VStr obs_date);
           ("BKG_LIST", VStr "bkg_list.yaml");
           ("COVARIANCE_MODEL", VStr "SABER");
           ("NINNER", soca_ninner);
           ("SABER_BLOCKS_YAML",
            VStr (Path.join gdas_home ["parm"; "soca"; "berror"; "saber_blocks.yaml"]))] in
  logging_info [config] ;;
  call "ufsda.yamltools.genYAML" [config; VStr var_yaml; VStr var_yaml_template] ;;
  ret window_begin.

(** "link of convenience" *)
Definition link_restart (comout stage_cfg : pyval) (window_begin : Datetime.datetime)
  : M W unit :=
  let bkg_rst := "MOM.res." +:+ Datetime.strftime_dashes window_begin +:+ ".nc" in
  background_dir <- getitem stage_cfg "background_dir" ;
  src <- os_path_join background_dir [VStr "RESTART"; VStr bkg_rst] ;
  dst <- os_path_join comout [VStr "analysis"; VStr "INPUT"; VStr "MOM.res.nc"] ;
  call "ufsda.disk_utils.symlink" [VStr src; VStr dst] ;;
  ret tt.

(** "prepare input.nml" *)
Definition prepare_input_nml (gdas_home : string) (stage_cfg : pyval)
           (window_begin : Datetime.datetime) : M W unit :=
  let mom_input_nml_src := Path.join gdas_home ["parm"; "soca"; "fms"; "input.nml"] in
  stage_dir <- getitem stage_cfg "stage_dir" ;
  mom_input_nml_tmpl <- os_path_join stage_dir [VStr "mom_input.nml.tmpl"] ;
  stage_dir <- getitem stage_cfg "stage_dir" ;
  mom_input_nml <- os_path_join stage_dir [VStr "mom_input.nml"] ;
  call "ufsda.disk_utils.copyfile" [VStr mom_input_nml_src; VStr mom_input_nml_tmpl] ;;
  domain_stack_size <- os_getenv "DOMAIN_STACK_SIZE" ;
  let ymdhms := VList (map VInt (Datetime.ymdhms window_begin)) in
  nml_file <- call "open" [VStr mom_input_nml_tmpl; VStr "r"] ;
  nml <- call "f90nml.read" [nml_file] ;
  ocean_solo_nml <- getitem nml "ocean_solo_nml" ;
  setitem ocean_solo_nml "date_init" ymdhms ;;
  size <- py_int domain_stack_size ;
  fms_nml <- getitem nml "fms_nml" ;
  setitem fms_nml "domains_stack_size" (VInt size) ;;
  call "ufsda.disk_utils.removefile" [VStr mom_input_nml] ;;
  call "f90nml.Namelist.write" [nml; VStr mom_input_nml] ;;
  ret tt.

(** The whole script, top to bottom. *)
Definition script : M W unit :=
  gdas_home <- get_gdas_home ;
  r <- setup_runtime ;
  let '(comout, comin_obs, anl_dir, diags) := r in
  stage_cfg <- stage_observations gdas_home comin_obs diags ;
  stage_backgrounds stage_cfg ;;
  soca_vars <- prepare_yamls gdas_home anl_dir stage_cfg ;
  bump_C soca_vars gdas_home anl_dir ;;
  window_begin <- variational_yaml gdas_home anl_dir ;
  link_restart comout stage_cfg window_begin ;;
  prepare_input_nml gdas_home stage_cfg window_begin.

End Script.

(** ** Vocabulary of the statements *)

(** [d[k]] on a dict value. *)
Definition dict_get (k : string) (v : pyval) : option pyval :=
  match v with
  | VDict d => snd <$> find (fun kv => String.eqb (fst kv) k) d
  | _ => None
  end.

(** [root] and [ext] split the file name [b] at its extension: the last dot
    and what follows it, provided a character other than a dot comes before;
    a name without such a dot has the empty extension. *)
Definition extension_split (b root ext : string) : Prop :=
  b = root +:+ ext /\
  ((exists e, ext = "." +:+ e /\ Str.has_char "."%char e = false
              /\ Path.has_non_dot root = true)
   \/ (ext = "" /\ forall r e, b = r +:+ "." +:+ e -> Path.has_non_dot r = false)).

(** The repair commands in the order the loops build them: for each
    variable and attribute, the overwrite command of every file, then the
    delete command of every file. *)
Definition all_jobs (files : list string) : list string :=
  flat_map (fun v =>
    flat_map (fun att => map (ch_job att v) files ++ map (d_job att v) files)
             repair_atts)
    repair_vars.

(** What one round of a job loop leaves in the trace. *)
Definition job_events (c : string) : list event := [ELog [VStr c]; ESystem c; ERun c].

(** The executions of a shell command in a trace. *)
Definition is_shell (e : event) : bool :=
  match e with
  | ESystem _ | ERun _ => true
  | _ => false
  end.

(** The records the loop over [files] appends when it is entered with
    [bkg_date = t]. *)
Definition loop_records (path : string) (t : Datetime.datetime) (files : list string)
  : list pyval :=
  imap (fun i bkg =>
          bkg_dict (Datetime.mk_datetime
                      (Datetime.micros t + Z.of_nat i * Datetime.US_PER_HOUR)) path bkg)
       files.

(** The records of the manifest of [files] for a window that begins at [T]. *)
Definition manifest_states (bkg_path : string) (T : Datetime.datetime) (files : list string)
  : list pyval :=
  imap (fun i bkg =>
          bkg_dict (Datetime.mk_datetime
                      (Datetime.micros T + (Z.of_nat i + 1) * Datetime.US_PER_HOUR))
                   bkg_path bkg)
       files.

Definition manifest (bkg_path : string) (T : Datetime.datetime) (files : list string) : pyval :=
  VDict [("states", VList (manifest_states bkg_path T files))].

(** The world after the rounds of the commands [cs], each passed to
    [os.system] and then to [subprocess.run]; [None] when the output
    captured from one of them is not well-formed UTF-8. *)
Fixpoint jobs_world {W} (C : collaborators W) (cs : list string) (w : W) : option W :=
  match cs with
  | [] => Some w
  | c :: r =>
      let res := subprocess_run C c (snd (os_system C c w)) in
      if Utf8.valid (snd (fst res)) then jobs_world C r (snd res) else None
  end.

(** The repair of [files] goes through from the world [w] and leaves the
    world [w1]: the outputs captured on the way decode. *)
Definition repaired {W} (C : collaborators W) (files : list string) (w w1 : W) : Prop :=
  jobs_world C (all_jobs files) w = Some w1.

(** [open(name, 'w')] raises nothing in the world [w] and leaves [w2]. *)
Definition opens {W} (C : collaborators W) (name : string) (w w2 : W) : Prop :=
  open_w C name w = (None, w2).

(** [m] is the rounds of the commands [cs]: when their outputs decode it
    returns in the world after them with their rounds as trace, else it
    raises [UnicodeDecodeError]. *)
Definition goes_through {W} (C : collaborators W) (m : M W unit) (cs : list string) : Prop :=
  forall s,
    match jobs_world C cs (world s) with
    | Some w => m s = (inr tt, mk_state (environ s) w, flat_map job_events cs)
    | None => fst (fst (m s)) = inl UnicodeDecodeError
    end.

(** The repair as its description has it.  An edit of [ncatted] is
    [-a attribute,variable,mode,type,value]: the mode [o] overwrites the
    attribute with the value, the mode [d] deletes it; [-h] keeps the edit
    out of the history of the file.  The sentinel is [9999.0]. *)
Inductive edit_mode := Overwrite | Delete.
Definition mode_letter (m : edit_mode) : string :=
  match m with
  | Overwrite => "o"
  | Delete => "d"
  end.
Definition ncatted_edit (att var : string) (m : edit_mode) (value file : string) : string :=
  "ncatted -h -a " +:+ att +:+ "," +:+ var +:+ "," +:+ mode_letter m +:+ ",d," +:+ value
  +:+ " " +:+ file.
Definition overwrite_to_sentinel (att var file : string) : string :=
  ncatted_edit att var Overwrite "9999.0" file.
Definition delete_attribute (att var file : string) : string :=
  ncatted_edit att var Delete "1.0" file.

(** The two passes over [files] for one variable and one attribute: the
    overwrite of every file, then the delete of every file; and the passes
    of the five variables and the two attributes. *)
Definition two_passes (att var : string) (files : list string) : list string :=
  map (overwrite_to_sentinel att var) files ++ map (delete_attribute att var) files.
Definition repair_plan (files : list string) : list string :=
  flat_map (fun var =>
    flat_map (fun att => two_passes att var files) ["_FillValue"; "missing_value"])
    ["Temp"; "Salt"; "ave_ssh"; "h"; "MLD"].

(** A command is logged, passed to [os.system] and passed to
    [subprocess.run]. *)
Definition logged_and_run_twice (c : string) : list event :=
  [ELog [VStr c]; ESystem c; ERun c].

(** The path [glob] gives for the file [n] of the directory [dir]; [dir]
    is [bkg_path], without its last [/] when it has one. *)
Definition in_dir (dir n : string) : string := dir +:+ "/" +:+ n.


(** Collaborators for the examples: every external call answers [None],
    [glob] answers [listing], every shell command exits with [status] and
    prints nothing, every file can be opened for writing. *)
Definition quiet (listing : list string) (status : Z) : collaborators unit :=
  {| call_ext := fun _ _ _ w => (inr VNone, w);
     glob_glob := fun _ _ => listing;
     os_system := fun _ w => (status, w);
     subprocess_run := fun _ w => ((status, []), w);
     strptime_YmdH := fun _ => None;
     int_of_str := fun _ => None;
     open_w := fun _ w => (None, w) |}.


Definition state0 : state unit := mk_state ∅ tt.

(** The inputs of the examples: a background directory with two files,
    listed out of order, and the window that begins on 2022-03-28 at 00Z. *)
Definition ges : string := "/com/ges".
Definition two_listed : list string :=
  [in_dir ges "gdas.t00z.ocnf005.nc"; in_dir ges "gdas.t00z.ocnf004.nc"].
Definition window_0328 : Datetime.datetime := Datetime.of_fields 2022 3 28 0 0 0.
Definition default_file_type : string := "gdas.t*.ocnf00[4-9]".

(** Collaborators that accept what they are given: an item of an object is
    the text [stage], any other call answers an object; no background file
    is listed; every file can be opened for writing; the two parsers know
    the texts of [cycle_env]. *)
Definition permissive : collaborators unit :=
  {| call_ext := fun callee _ _ w =>
       (inr (if String.eqb callee "__getitem__" then VStr "stage" else VObj 0), w);
     glob_glob := fun _ _ => [];
     os_system := fun _ w => (0, w);
     subprocess_run := fun _ w => ((0, []), w);
     strptime_YmdH := fun x =>
       if String.eqb x "2022032806" then Some (Datetime.of_fields 2022 3 28 6 0 0)
       else None;
     int_of_str := fun x =>
       if String.eqb x "6" then Some 6
       else if String.eqb x "2000000" then Some 2000000
       else None;
     open_w := fun _ w => (None, w) |}.

(** An environment of one cycle in which [COMIN_OBS], [SOCA_INPUT_FIX_DIR]
    and [SOCA_NINNER] are not set. *)
Definition cycle_env : gmap string string :=
  list_to_map [("HOMEgfs", "/home/gfs"); ("COMOUT", "/com/out"); ("COMIN_GES", "/com/ges");
               ("CDATE", "2022032806"); ("PDY", "20220328"); ("cyc", "06");
               ("assim_freq", "6"); ("SOCA_VARS", "tocn,socn,ssh");
               ("DOMAIN_STACK_SIZE", "2000000")].

(** The statement ends in an exception that nothing catches. *)
Definition fails {W A} (m : M W A) (s : state W) : Prop :=
  exists e s' tr, m s = (inl e, s', tr).

(** [m] fails from every state in which the variable [v] is unset. *)
Definition dies {W A} (v : string) (m : M W A) : Prop :=
  forall s, environ s !! v = None -> fails m s.

(** [m] fails from every state. *)
Definition doomed {W A} (m : M W A) : Prop := forall s, fails m s.

(** [m] does not set the variable [v]. *)
Definition keeps {W A} (v : string) (m : M W A) : Prop :=
  forall s a s1 t1, m s = (inr a, s1, t1) -> environ s !! v = None -> environ s1 !! v = None.

(** The requests for a bump C configuration in a trace: the calls of
    [genYAML] whose overlay has the key [datadir]. *)
Definition bumpC_documents (tr : list event) : list (list pyval) :=
  flat_map (fun e =>
              match e with
              | ECall c args =>
                  if String.eqb c "ufsda.yamltools.genYAML" then
                    match args with
                    | VDict d :: _ =>
                        if existsb (fun kv => String.eqb (fst kv) "datadir") d
                        then [args] else []
                    | _ => []
                    end
                  else []
              | _ => []
              end) tr.

(** [m] requests no bump C configuration, however it ends. *)
Definition calm {W A} (m : M W A) : Prop :=
  forall s, bumpC_documents (snd (m s)) = [].

(** The request for the bump C configuration of the variable [v] with the
    dimension tag [dim]. *)
Definition bumpC_request (gdas_home anl_dir dim v : string) : list pyval :=
  [VDict [("datadir", VStr ("bump" +:+ dim +:+ "_" +:+ v))];
   VStr (Path.join anl_dir ["soca_bump" +:+ dim +:+ "_C_" +:+ v +:+ ".yaml"]);
   VStr (Path.join gdas_home ["parm"; "soca"; "berror"; "soca_bump_C_split.yaml"])].

(** The documents a trace dumps, in order. *)
Definition dumps (tr : list event) : list (string * pyval) :=
  flat_map (fun e => match e with EDump file doc => [(file, doc)] | _ => [] end) tr.

(** The two executions of one command. *)
Definition twice (c : string) : list event := [ESystem c; ERun c].



(** The files [gen_bkg_list] works on: the sorted answer of [glob]. *)
Definition files_of {W} (C : collaborators W) (path file_type : string) (s : state W)
  : list string :=
  sort (glob_glob C (path +:+ "/*" +:+ file_type +:+ "*") (world s)).


(** ** Vocabulary of the properties of the whole run *)

(** What a statement does to the outside, without the values: a request to
    a collaborator, an assignment to [os.environ], the write of a
    document. *)
Inductive action :=
| Request (callee : string)
| Export (name : string)
| Dump (file : string).

(** The actions of a trace, in order; log records and shell commands are
    not counted. *)
Definition actions (tr : list event) : list action :=
  flat_map (fun e =>
              match e with
              | ECall c _ => [Request c]
              | ESetenv k _ => [Export k]
              | EDump f _ => [Dump f]
              | _ => []
              end) tr.

(** The actions of the blocks of the script, as the source lists them. *)
Definition setup_runtime_actions : list action :=
  [Request "ufsda.mkdir"; Request "ufsda.mkdir"; Request "ufsda.mkdir"].
Definition stage_observations_actions : list action :=
  [Request "ufsda.r2d2.setup"; Request "ufsda.misc_utils.get_env_config";
   Request "__getitem__"; Export "OBS_DATE";
   Request "__getitem__"; Export "OBS_DIR";
   Request "__getitem__"; Export "OBS_PREFIX";
   Export "DIAG_DIR";
   Request "ufsda.parse_config"; Request "ufsda.stage.obs"].
Definition stage_backgrounds_actions : list action :=
  [Request "__setitem__"; Request "ufsda.stage.background"; Request "ufsda.stage.soca_fix"].
Definition prepare_yamls_actions : list action :=
  [Request "__getitem__"; Request "ufsda.disk_utils.symlink";
   Request "ufsda.yamltools.genYAML";
   Request "__getitem__"; Request "ufsda.disk_utils.symlink"].
Definition bumpC_body_actions : list action :=
  [Request "ufsda.disk_utils.mkdir"; Export "CVAR"; Request "ufsda.yamltools.genYAML"].
Definition bump_C_actions : list action := flat_map (fun _ => bumpC_body_actions) vars.
Definition variational_yaml_actions : list action :=
  [Dump "bkg_list.yaml"; Request "ufsda.yamltools.genYAML"].
Definition link_restart_actions : list action :=
  [Request "__getitem__"; Request "ufsda.disk_utils.symlink"].
Definition prepare_input_nml_actions : list action :=
  [Request "__getitem__"; Request "__getitem__"; Request "ufsda.disk_utils.copyfile";
   Request "open"; Request "f90nml.read";
   Request "__getitem__"; Request "__setitem__";
   Request "__getitem__"; Request "__setitem__";
   Request "ufsda.disk_utils.removefile"; Request "f90nml.Namelist.write"].

Definition script_actions : list action :=
  setup_runtime_actions ++ stage_observations_actions ++ stage_backgrounds_actions
  ++ prepare_yamls_actions ++ bump_C_actions ++ variational_yaml_actions
  ++ link_restart_actions ++ prepare_input_nml_actions.

(** [m] goes through the actions [l] in order: however it ends it has done
    a prefix of [l], and all of [l] when it does not raise. *)
Definition performs {W A} (m : M W A) (l : list action) : Prop :=
  forall s, actions (snd (m s)) `prefix_of` l
            /\ (forall a, fst (fst (m s)) = inr a -> actions (snd (m s)) = l).

(** A property of traces that the empty trace has and that two traces hand
    on to their concatenation. *)
Class Closed (P : list event -> Prop) : Prop := {
  closed_nil : P [];
  closed_app : forall a b, P a -> P b -> P (a ++ b)
}.

(** [P] holds of the trace of [m], however [m] ends. *)
Definition always {W A} (P : list event -> Prop) (m : M W A) : Prop :=
  forall s, P (snd (m s)).

(** A trace without an action. *)
Definition inert (tr : list event) : Prop := actions tr = [].

(** A trace that requests none of the collaborators [F]. *)
Definition spares (F : list string) (tr : list event) : Prop :=
  forall c, c ∈ F -> Request c ∉ actions tr.

(** The two requests that replace [mom_input.nml]. *)
Definition namelist_requests : list string :=
  ["ufsda.disk_utils.removefile"; "f90nml.Namelist.write"].

(** The shell commands a trace executes, in order. *)
Definition shell_commands (tr : list event) : list string :=
  flat_map (fun e =>
              match e with
              | ESystem c | ERun c => [c]
              | _ => []
              end) tr.

(** [c] is one of the two repair commands of a variable, an attribute and
    a file that [glob] gives for the backgrounds under [ges]. *)
Definition repair_command_of {W} (C : collaborators W) (ges c : string) : Prop :=
  exists att v bkg w,
    att ∈ repair_atts /\ v ∈ repair_vars
    /\ bkg ∈ glob_glob C (ges +:+ "/*" +:+ default_file_type +:+ "*") w
    /\ (c = ch_job att v bkg \/ c = d_job att v bkg).

(** Every shell command of the trace is a repair command for the
    directory that [a] names. *)
Definition confined {W} (C : collaborators W) (a : pyval) (tr : list event) : Prop :=
  forall c, c ∈ shell_commands tr -> exists ges, a = VStr ges /\ repair_command_of C ges c.

(** A trace that writes no document. *)
Definition dumpless (tr : list event) : Prop := dumps tr = [].

(** A trace of log records only. *)
Definition only_logs (tr : list event) : Prop :=
  forall e, e ∈ tr -> exists msg, e = ELog msg.

(** A trace made of rounds of the job loops. *)
Definition rounds (tr : list event) : Prop :=
  exists cs, tr = flat_map job_events cs.

(** [m] leaves [os.environ] as it is, however it ends. *)
Definition fixed {W A} (m : M W A) : Prop :=
  forall s, environ (snd (fst (m s))) = environ s.

(** [m] leaves the variable [v] as it is, however it ends. *)
Definition untouched {W A} (v : string) (m : M W A) : Prop :=
  forall s, environ (snd (fst (m s))) !! v = environ s !! v.

(** When [m] does not raise, the variable [v] holds [x] afterwards. *)
Definition leaves {W A} (v x : string) (m : M W A) : Prop :=
  forall s a s1 t, m s = (inr a, s1, t) -> environ s1 !! v = Some x.

(** The value [os.getenv(v)] has in [env]. *)
Definition getenv_value (env : gmap string string) (v : string) : pyval :=
  match env !! v with Some x => VStr x | None => VNone end.

(** [P] holds of the trace of [m], however [m] ends, from every state in
    which the value of the variable [v] satisfies [Q]. *)
Definition guarded {W A} (v : string) (Q : pyval -> Prop) (P : list event -> Prop)
           (m : M W A) : Prop :=
  forall s, Q (getenv_value (environ s) v) -> P (snd (m s)).

(** [int(v)] raises: [v] is [None] or a text [int] does not read. *)
Definition not_an_int {W} (C : collaborators W) (v : pyval) : Prop :=
  match v with
  | VStr x => int_of_str C x = None
  | VNone => True
  | _ => False
  end.

(** The values of [pyval] that Python does not add a [timedelta] to:
    [None], a [bool], an [int], a [str], a [list], a [dict]. *)
Definition plain_value (v : pyval) : Prop :=
  match v with
  | VNone | VBool _ | VInt _ | VStr _ | VList _ | VDict _ => True
  | VDatetime _ | VObj _ => False
  end.

(** The output of the command [c] decodes in some state of the world. *)
Definition job_decodes {W} (C : collaborators W) (c : string) : Prop :=
  exists w, Utf8.valid (snd (fst (subprocess_run C c w))) = true.

(** [m] runs the commands [l] in order and stops at the first output that
    does not decode: its trace is the rounds of the commands it ran, all
    of [l] when it does not raise, and [UnicodeDecodeError] is all it
    raises. *)
Definition runs_jobs {W} (C : collaborators W) (m : M W unit) (l : list string) : Prop :=
  forall s, exists cs,
    snd (m s) = flat_map job_events cs
    /\ ((fst (fst (m s)) = inr tt /\ cs = l /\ Forall (job_decodes C) l)
        \/ (fst (fst (m s)) = inl UnicodeDecodeError /\ cs `prefix_of` l)).

(** The log records of a trace. *)
Definition is_log (e : event) : bool :=
  match e with
  | ELog _ => true
  | _ => false
  end.

(** The overlay of the variational configuration. *)
Definition var_config (gdas_home obs_date : string) (ninner : pyval) : pyval :=
  VDict [("OBS_DATE", VStr obs_date);
         ("BKG_LIST", VStr "bkg_list.yaml");
         ("COVARIANCE_MODEL", VStr "SABER");
         ("NINNER", ninner);
         ("SABER_BLOCKS_YAML",
          VStr (Path.join gdas_home ["parm"; "soca"; "berror"; "saber_blocks.yaml"]))].

(** Collaborators whose shell commands print a byte that is not UTF-8;
    [glob] answers [listing]. *)
Definition garbled (listing : list string) : collaborators unit :=
  {| call_ext := fun _ _ _ w => (inr VNone, w);
     glob_glob := fun _ _ => listing;
     os_system := fun _ w => (0, w);
     subprocess_run := fun _ w => ((0, [255]), w);
     strptime_YmdH := fun _ => None;
     int_of_str := fun _ => None;
     open_w := fun _ w => (None, w) |}.


(** The collaborators [permissive] with two background files listed, out
    of order. *)
Definition stocked : collaborators unit :=
  {| call_ext := call_ext permissive;
     glob_glob := fun _ _ => two_listed;
     os_system := os_system permissive;
     subprocess_run := subprocess_run permissive;
     strptime_YmdH := strptime_YmdH permissive;
     int_of_str := int_of_str permissive;
     open_w := open_w permissive |}.

(** The state of the examples of the whole script, and the paths it
    derives. *)
Definition cycle_state : state unit := mk_state cycle_env tt.
Definition cycle_gdas_home : string := "/home/gfs/sorc/gdas.cd".
Definition cycle_anl_dir : string := "/com/out/analysis".

(* ===================================================================== *)
(** * Properties *)

(** ** Strings *)

Lemma append_nil_l (b : string) : "" +:+ b = b.
Proof. reflexivity. Qed.

Lemma append_cons x (a b : string) : String x a +:+ b = String x (a +:+ b).
Proof. reflexivity. Qed.

Ltac sapp := rewrite ?append_cons, ?append_nil_l.

Lemma append_assoc (a b c : string) : (a +:+ b) +:+ c = a +:+ (b +:+ c).
Proof. induction a as [|x a IH]; sapp; [done | by f_equal]. Qed.

Lemma append_nil_r (a : string) : a +:+ "" = a.
Proof. induction a as [|x a IH]; sapp; [done | by f_equal]. Qed.

Lemma has_char_app c (a b : string) :
  Str.has_char c (a +:+ b) = Str.has_char c a || Str.has_char c b.
Proof.
  induction a as [|x a IH]; sapp; simpl; [done |].
  rewrite IH. by rewrite orb_assoc.
Qed.

Lemma len_nonneg (s : string) : 0 <= Str.len s.
Proof. induction s; simpl; lia. Qed.

Lemma len_app (a b : string) : Str.len (a +:+ b) = Str.len a + Str.len b.
Proof. induction a as [|x a IH]; sapp; simpl; lia. Qed.

Lemma rfind_from_app c (a b : string) i acc :
  Str.rfind_from c (a +:+ b) i acc
  = Str.rfind_from c b (i + Str.len a) (Str.rfind_from c a i acc).
Proof.
  revert i acc. induction a as [|x a IH]; intros i acc; sapp; simpl.
  - by rewrite Z.add_0_r.
  - rewrite IH. f_equal. lia.
Qed.

Lemma rfind_from_absent c (s : string) i acc :
  Str.has_char c s = false -> Str.rfind_from c s i acc = acc.
Proof.
  revert i acc. induction s as [|x s IH]; intros i acc H; simpl in *; [done |].
  apply orb_false_iff in H as [Hx Hs]. rewrite Hx. by apply IH.
Qed.

(** The last occurrence: [c] followed by a tail without [c]. *)
Lemma rfind_last c (a b : string) :
  Str.has_char c b = false ->
  Str.rfind c (a +:+ String c b) = Str.len a.
Proof.
  intros Hb. unfold Str.rfind. rewrite rfind_from_app. simpl.
  rewrite Ascii.eqb_refl. by rewrite rfind_from_absent.
Qed.

Lemma rfind_absent c (s : string) : Str.has_char c s = false -> Str.rfind c s = -1.
Proof. apply rfind_from_absent. Qed.

(** A scan that meets [c] answers an index it has passed. *)
Lemma rfind_from_present c (t : string) k acc :
  Str.has_char c t = true -> acc < k -> k <= Str.rfind_from c t k acc.
Proof.
  revert k acc. induction t as [|y t IHt]; intros k acc Ht Hlt; simpl in *; [done |].
  destruct (Ascii.eqb y c) eqn:Hy.
  - destruct (Str.has_char c t) eqn:Ht'.
    + specialize (IHt (k + 1) k eq_refl). lia.
    + rewrite rfind_from_absent by done. lia.
  - simpl in Ht. specialize (IHt (k + 1) acc Ht). lia.
Qed.

(** [rfind_from] either keeps [acc] or stops at a last occurrence. *)
Lemma rfind_from_split c (s : string) i acc :
  acc < i ->
  (Str.has_char c s = false /\ Str.rfind_from c s i acc = acc) \/
  exists a b, s = a +:+ String c b /\ Str.has_char c b = false
              /\ Str.rfind_from c s i acc = i + Str.len a.
Proof.
  revert i acc. induction s as [|x s IH]; intros i acc Hi; simpl; [by left |].
  destruct (Ascii.eqb x c) eqn:Hx.
  - apply Ascii.eqb_eq in Hx. subst x. right.
    destruct (IH (i + 1) i ltac:(lia)) as [[Hs Hr] | (a & b & -> & Hb & Hr)].
    + exists "", s. sapp. simpl. split; [done |]. split; [done |]. lia.
    + exists (String c a), b. sapp. simpl. split; [done |]. split; [done |]. lia.
  - destruct (IH (i + 1) acc ltac:(lia)) as [[Hs Hr] | (a & b & -> & Hb & Hr)]; [by left |].
    right. exists (String x a), b. sapp. simpl. split; [done |]. split; [done |]. lia.
Qed.

Lemma drop_app_len (a b : string) : Str.drop (Z.to_nat (Str.len a)) (a +:+ b) = b.
Proof.
  induction a as [|x a IH]; sapp; simpl; [done |].
  pose proof (len_nonneg a).
  replace (Z.to_nat (1 + Str.len a)) with (S (Z.to_nat (Str.len a))) by lia.
  simpl. apply IH.
Qed.

Lemma take_app_len (a b : string) : Str.take (Z.to_nat (Str.len a)) (a +:+ b) = a.
Proof.
  induction a as [|x a IH]; sapp; simpl; [done |].
  pose proof (len_nonneg a).
  replace (Z.to_nat (1 + Str.len a)) with (S (Z.to_nat (Str.len a))) by lia.
  simpl. by rewrite IH.
Qed.

Lemma take_drop n (s : string) : Str.take n s +:+ Str.drop n s = s.
Proof.
  revert s. induction n as [|n IH]; intros [|x s]; simpl; sapp; try done.
  by rewrite IH.
Qed.

(** ** Paths *)

Lemma sep_not_extsep : Ascii.eqb Path.extsep Path.sep = false.
Proof. reflexivity. Qed.

Lemma basename_in_dir (dir b : string) :
  Str.has_char Path.sep b = false ->
  Path.basename (dir +:+ "/" +:+ b) = b.
Proof.
  intros Hb. unfold Path.basename.
  change (dir +:+ "/" +:+ b) with (dir +:+ String Path.sep b).
  rewrite rfind_last by done. unfold Str.slice_from.
  change (dir +:+ String Path.sep b) with (dir +:+ "/" +:+ b).
  rewrite <- append_assoc.
  replace (Str.len dir + 1) with (Str.len (dir +:+ "/")) by (rewrite len_app; reflexivity).
  apply drop_app_len.
Qed.

Lemma splitext_with_ext (root e : string) :
  Str.has_char Path.sep root = false ->
  Str.has_char Path.sep e = false ->
  Str.has_char Path.extsep e = false ->
  Path.has_non_dot root = true ->
  Path.splitext (root +:+ "." +:+ e) = (root, "." +:+ e).
Proof.
  intros Hr He Hd Hn. unfold Path.splitext.
  assert (Hsep : Str.rfind Path.sep (root +:+ "." +:+ e) = -1).
  { apply rfind_absent. rewrite has_char_app, Hr.
    change ("." +:+ e) with (String Path.extsep e). simpl.
    by rewrite ?sep_not_extsep, He. }
  assert (Hdot : Str.rfind Path.extsep (root +:+ "." +:+ e) = Str.len root).
  { change ("." +:+ e) with (String Path.extsep e). by apply rfind_last. }
  rewrite Hsep, Hdot. pose proof (len_nonneg root).
  destruct (Z.gtb_spec (Str.len root) (-1)); [| lia].
  unfold Str.slice, Str.slice_from, Str.slice_to.
  replace (Z.to_nat (-1 + 1)) with O by lia. simpl Str.drop.
  rewrite Z.sub_0_r, take_app_len, Hn, drop_app_len. done.
Qed.

Lemma splitext_without_ext (b : string) :
  Str.has_char Path.sep b = false ->
  (forall r e, b = r +:+ "." +:+ e -> Path.has_non_dot r = false) ->
  Path.splitext b = (b, "").
Proof.
  intros Hb Hno. unfold Path.splitext.
  rewrite (rfind_absent Path.sep b Hb).
  unfold Str.rfind.
  destruct (rfind_from_split Path.extsep b 0 (-1) ltac:(lia))
    as [[_ ->] | (a & t & Hab & Ht & ->)]; [done |].
  pose proof (len_nonneg a).
  destruct (Z.gtb_spec (0 + Str.len a) (-1)); [| done].
  unfold Str.slice, Str.slice_from, Str.slice_to.
  replace (Z.to_nat (-1 + 1)) with O by lia. simpl Str.drop.
  replace (0 + Str.len a - (-1 + 1)) with (Str.len a) by lia.
  rewrite Hab at 1. rewrite take_app_len.
  by rewrite (Hno a t Hab).
Qed.

Lemma ocn_filename_split (dir b root ext : string) :
  Str.has_char Path.sep b = false ->
  extension_split b root ext ->
  ocn_filename (dir +:+ "/" +:+ b) = root +:+ ".nc".
Proof.
  intros Hb [Heq Hext]. unfold ocn_filename. rewrite basename_in_dir by done.
  destruct Hext as [(e & -> & He & Hn) | [-> Hno]].
  - subst b. rewrite has_char_app in Hb. apply orb_false_iff in Hb as [Hr Hb].
    change ("." +:+ e) with (String Path.extsep e) in Hb. simpl in Hb.
    by rewrite splitext_with_ext.
  - rewrite append_nil_r in Heq. subst root.
    by rewrite splitext_without_ext.
Qed.

(** ** Sorting of file names *)




Lemma sort_sorted (l : list string) : Sorted String.le (sort l).
Proof. apply Sorted_merge_sort. apply _. Qed.

Lemma sort_perm (l : list string) : sort l ≡ₚ l.
Proof. apply merge_sort_Permutation. Qed.


(** The sorted list depends on the set of files only, not on the order in
    which [glob] lists them. *)
Lemma sort_proper (l1 l2 : list string) : l1 ≡ₚ l2 -> sort l1 = sort l2.
Proof.
  intros H. apply (Sorted_unique String.le); try apply sort_sorted.
  by rewrite !sort_perm.
Qed.


(** ** Running statements *)

Section Run.
Context {W : Type} (C : collaborators W).

Lemma bind_inr {A B} (m : M W A) (k : A -> M W B) s a s1 t1 :
  m s = (inr a, s1, t1) ->
  bind m k s = (fst (fst (k a s1)), snd (fst (k a s1)), t1 ++ snd (k a s1)).
Proof. intros H. unfold bind. rewrite H. by destruct (k a s1) as [[r s2] t2]. Qed.

Lemma bind_inl {A B} (m : M W A) (k : A -> M W B) s e s1 t1 :
  m s = (inl e, s1, t1) -> bind m k s = (inl e, s1, t1).
Proof. intros H. unfold bind. by rewrite H. Qed.

Lemma bind_ret_l {A B} (a : A) (k : A -> M W B) s : bind (ret a) k s = k a s.
Proof. unfold bind, ret. by destruct (k a s) as [[r s2] t2]. Qed.

(** What [bind] gives when it does not raise. *)
Lemma bind_ok_inv {A B} (m : M W A) (k : A -> M W B) s b s2 t :
  bind m k s = (inr b, s2, t) ->
  exists a s1 t1 t2, m s = (inr a, s1, t1) /\ k a s1 = (inr b, s2, t2) /\ t = t1 ++ t2.
Proof.
  unfold bind. destruct (m s) as [[[e | a] s1] t1]; [done |].
  destruct (k a s1) as [[r s2'] t2] eqn:Hk. intros [= -> -> <-].
  by exists a, s1, t1, t2.
Qed.

(** One round of a job loop: both executions happen, whatever the first
    one returns, and only the captured output can stop the run. *)
Lemma run_job_eq (c : string) (s : state W) :
  run_job C c s =
  let w1 := snd (os_system C c (world s)) in
  let r := subprocess_run C c w1 in
  (if Utf8.valid (snd (fst r)) then inr tt else inl UnicodeDecodeError,
   mk_state (environ s) (snd r), job_events c).
Proof.
  unfold run_job, bind, logging_info, system, run, decode, job_events. simpl.
  destruct (os_system C c (world s)) as [st w1]. simpl.
  destruct (subprocess_run C c w1) as [[rc out] w2]. simpl.
  by destruct (Utf8.valid out).
Qed.

(** A [for] loop that does not raise has run every round. *)
Lemma for_each_ok_inv {A} (body : A -> M W unit) (ev : A -> list event) (l : list A) :
  (forall x s s' tr, body x s = (inr tt, s', tr) -> environ s' = environ s /\ tr = ev x) ->
  forall s s' tr, for_each l body s = (inr tt, s', tr) ->
                  environ s' = environ s /\ tr = flat_map ev l.
Proof.
  intros Hbody. induction l as [|x l IH]; intros s s' tr; simpl.
  - by intros [= <- <-].
  - intros (u & s1 & t1 & t2 & H1 & H2 & ->)%bind_ok_inv. destruct u.
    apply Hbody in H1 as [He1 ->]. apply IH in H2 as [He2 ->].
    split; [congruence | done].
Qed.

(** A [for] loop whose rounds do not raise does not raise. *)
Lemma for_each_total {A} (body : A -> M W unit) (ev : A -> list event) (l : list A) :
  (forall x s, exists w, body x s = (inr tt, mk_state (environ s) w, ev x)) ->
  forall s, exists w, for_each l body s = (inr tt, mk_state (environ s) w, flat_map ev l).
Proof.
  intros Hbody. induction l as [|x l IH]; intros s; simpl.
  - exists (world s). by destruct s.
  - destruct (Hbody x s) as [w1 H1]. destruct (IH (mk_state (environ s) w1)) as [w2 H2].
    exists w2. rewrite (bind_inr _ _ _ _ _ _ H1), H2. done.
Qed.

(** A property of traces that holds of every round holds of the loop,
    however the loop ends. *)
Lemma for_each_trace {A} (P : list event -> Prop) (body : A -> M W unit) (l : list A) :
  P [] -> (forall a b, P a -> P b -> P (a ++ b)) ->
  (forall x s, P (snd (body x s))) ->
  forall s, P (snd (for_each l body s)).
Proof.
  intros Hnil Happ Hbody. induction l as [|x l IH]; intros s; simpl; [done |].
  unfold bind. specialize (Hbody x s).
  destruct (body x s) as [[[e | u] s1] t1]; simpl in *; [done |].
  specialize (IH s1). destruct (for_each l body s1) as [[r s2] t2]. simpl in *. auto.
Qed.

(** The same for a sequence of two statements. *)
Lemma bind_trace {A B} (P : list event -> Prop) (m : M W A) (k : A -> M W B) s :
  P [] -> (forall a b, P a -> P b -> P (a ++ b)) ->
  P (snd (m s)) -> (forall a s1, P (snd (k a s1))) ->
  P (snd (bind m k s)).
Proof.
  intros Hnil Happ Hm Hk. unfold bind.
  destruct (m s) as [[[e | a] s1] t1]; simpl in *; [done |].
  specialize (Hk a s1). destruct (k a s1) as [[r s2] t2]. simpl in *. auto.
Qed.



End Run.

(** ** [gen_bkg_list] *)

Lemma add_Some (t t' : Datetime.datetime) (d : Datetime.timedelta) :
  Datetime.add t d = Some t' <->
  0 <= Datetime.micros t + d < Datetime.MAXORDINAL * Datetime.US_PER_DAY
  /\ t' = Datetime.mk_datetime (Datetime.micros t + d).
Proof.
  unfold Datetime.add.
  destruct (Z.leb_spec 0 (Datetime.micros t + d)),
           (Z.ltb_spec (Datetime.micros t + d) (Datetime.MAXORDINAL * Datetime.US_PER_DAY));
    simpl; split; try (intros [= <-]); try (intros [? ->]); try done; try lia.
Qed.


Lemma flat_map_flat_map {A B D} (f : B -> list D) (g : A -> list B) (l : list A) :
  flat_map f (flat_map g l) = flat_map (fun x => flat_map f (g x)) l.
Proof. induction l as [|x l IH]; simpl; [done |]. by rewrite flat_map_app, IH. Qed.

Section GenBkgList.
Context {W : Type} (C : collaborators W).

Lemma pass_ok_inv (jobs : list string) s s' tr :
  for_each jobs (run_job C) s = (inr tt, s', tr) ->
  environ s' = environ s /\ tr = flat_map job_events jobs.
Proof.
  apply for_each_ok_inv. intros c s0 s1 t. rewrite run_job_eq. simpl.
  by intros [= _ <- <-].
Qed.

Lemma fix_diag_events (files : list string) :
  flat_map (fun v =>
    flat_map (fun att =>
      flat_map job_events (map (ch_job att v) files)
      ++ flat_map job_events (map (d_job att v) files)) repair_atts) repair_vars
  = flat_map job_events (all_jobs files).
Proof.
  unfold all_jobs. rewrite flat_map_flat_map. apply flat_map_ext. intros v.
  rewrite flat_map_flat_map. apply flat_map_ext. intros att.
  by rewrite flat_map_app.
Qed.

Lemma fix_diag_ok_inv (files : list string) s s' tr :
  fix_diag C files s = (inr tt, s', tr) ->
  environ s' = environ s /\ tr = flat_map job_events (all_jobs files).
Proof.
  intros H. rewrite <- fix_diag_events. revert s s' tr H.
  apply for_each_ok_inv. intros v. apply for_each_ok_inv. intros att s s' tr.
  intros (u & s1 & t1 & t2 & H1 & H2 & ->)%bind_ok_inv. destruct u.
  apply pass_ok_inv in H1 as [He1 ->]. apply pass_ok_inv in H2 as [He2 ->].
  split; [congruence | done].
Qed.

(** *** The worlds the repair goes through *)

Lemma jobs_world_app (cs cs' : list string) (w : W) :
  jobs_world C (cs ++ cs') w
  = match jobs_world C cs w with
    | Some w1 => jobs_world C cs' w1
    | None => None
    end.
Proof.
  revert w. induction cs as [|c cs IH]; intros w; simpl; [done |].
  destruct (Utf8.valid _); [apply IH | done].
Qed.

Lemma goes_through_nil : goes_through C (ret tt) [].
Proof. intros s. simpl. unfold ret. by destruct s. Qed.

Lemma goes_through_run_job (c : string) : goes_through C (run_job C c) [c].
Proof.
  intros s. rewrite run_job_eq. simpl.
  by destruct (Utf8.valid _).
Qed.

Lemma goes_through_seq (m m' : M W unit) (cs cs' : list string) :
  goes_through C m cs -> goes_through C m' cs' -> goes_through C (m ;; m') (cs ++ cs').
Proof.
  intros Hm Hm' s. rewrite jobs_world_app. specialize (Hm s). unfold bind.
  destruct (jobs_world C cs (world s)) as [w |].
  - rewrite Hm. specialize (Hm' (mk_state (environ s) w)). simpl in Hm'.
    destruct (jobs_world C cs' w) as [w' |].
    + by rewrite Hm', flat_map_app.
    + by destruct (m' _) as [[r s2] t2].
  - by destruct (m s) as [[[e | a] s1] t1]; simpl in *; simplify_eq.
Qed.

Lemma goes_through_for_each {A} (body : A -> M W unit) (jobs : A -> list string)
      (l : list A) :
  (forall x, goes_through C (body x) (jobs x)) ->
  goes_through C (for_each l body) (flat_map jobs l).
Proof.
  intros Hbody. induction l as [|x l IH]; simpl.
  - apply goes_through_nil.
  - by apply goes_through_seq.
Qed.

Lemma goes_through_pass (jobs : list string) :
  goes_through C (for_each jobs (run_job C)) jobs.
Proof.
  assert (Hjobs : flat_map (fun c => [c]) jobs = jobs).
  { induction jobs as [|c jobs IH]; simpl; [done |]. by rewrite IH. }
  rewrite <- Hjobs at 2.
  apply goes_through_for_each, goes_through_run_job.
Qed.

Lemma goes_through_fix_diag (files : list string) :
  goes_through C (fix_diag C files) (all_jobs files).
Proof.
  unfold fix_diag, all_jobs.
  apply goes_through_for_each. intros v. apply goes_through_for_each. intros att.
  apply goes_through_seq; apply goes_through_pass.
Qed.

(** The repair returns exactly when the outputs it captures decode. *)
Lemma fix_diag_repaired (files : list string) s w1 :
  repaired C files (world s) w1 ->
  fix_diag C files s
  = (inr tt, mk_state (environ s) w1, flat_map job_events (all_jobs files)).
Proof.
  intros Hrep. pose proof (goes_through_fix_diag files s) as H.
  unfold repaired in Hrep. by rewrite Hrep in H.
Qed.

Lemma fix_diag_ok_world (files : list string) s s' tr :
  fix_diag C files s = (inr tt, s', tr) ->
  exists w1, repaired C files (world s) w1 /\ s' = mk_state (environ s) w1.
Proof.
  intros Hrun. pose proof (goes_through_fix_diag files s) as H. unfold repaired.
  destruct (jobs_world C (all_jobs files) (world s)) as [w1 |].
  - exists w1. split; [done |]. congruence.
  - by rewrite Hrun in H.
Qed.

(** *** The dated records *)

Lemma bkg_step_eq (path : string) t acc bkg (s : state W) :
  bkg_step path (t, acc) bkg s =
  match Datetime.add t (Datetime.hours 1) with
  | Some t' => (inr (t', acc ++ [bkg_dict t path bkg]), s, [])
  | None => (inl OverflowError, s, [])
  end.
Proof.
  unfold bkg_step, bind, add_timedelta.
  by destruct (Datetime.add t (Datetime.hours 1)).
Qed.

Lemma loop_records_cons path t bkg files :
  loop_records path t (bkg :: files)
  = bkg_dict t path bkg
    :: loop_records path
         (Datetime.mk_datetime (Datetime.micros t + Datetime.hours 1)) files.
Proof.
  unfold loop_records. rewrite imap_cons. f_equal.
  - destruct t as [m]. simpl. do 2 f_equal. lia.
  - apply imap_ext. intros i x _. simpl. do 2 f_equal. unfold Datetime.hours. lia.
Qed.


Lemma bkg_loop_ok_inv (path : string) (files : list string) t acc (s s' : state W) r tr :
  Datetime.valid t ->
  for_fold files (bkg_step path) (t, acc) s = (inr r, s', tr) ->
  snd r = acc ++ loop_records path t files /\ s' = s /\ tr = []
  /\ Datetime.micros t + Z.of_nat (length files) * Datetime.US_PER_HOUR
     < Datetime.MAXORDINAL * Datetime.US_PER_DAY.
Proof.
  unfold Datetime.valid.
  revert t acc tr. induction files as [|bkg files IH]; intros t acc tr H0.
  - simpl. unfold ret. intros [= <- <- <-]. simpl. rewrite app_nil_r.
    repeat split; try done. lia.
  - cbn [for_fold]. intros (a & s1 & t1 & t2 & H1 & H2 & ->)%bind_ok_inv.
    rewrite bkg_step_eq in H1.
    destruct (Datetime.add t (Datetime.hours 1)) as [t' |] eqn:Ht'; [| done].
    injection H1 as <- <- <-.
    apply add_Some in Ht' as [Hr ->].
    apply IH in H2 as (Hl & -> & -> & Hmax); [| simpl; lia].
    rewrite loop_records_cons, Hl, <- app_assoc. repeat split; try done.
    simpl Datetime.micros in Hmax. simpl length.
    assert (Hh : Datetime.hours 1 = Datetime.US_PER_HOUR) by reflexivity. lia.
Qed.


Lemma manifest_states_loop (path : string) T (files : list string) :
  loop_records path (Datetime.mk_datetime (Datetime.micros T + Datetime.hours 1)) files
  = manifest_states path T files.
Proof.
  unfold loop_records, manifest_states. apply imap_ext. intros i x _. simpl.
  do 2 f_equal. unfold Datetime.hours. lia.
Qed.

(** *** The run *)

(** The run from the repair on. *)
Lemma gen_bkg_list_unfold window_begin path file_type yaml_name s :
  gen_bkg_list C window_begin (VStr path) file_type yaml_name s
  = bind (fix_diag C (files_of C path file_type s))
         (fun _ =>
            bkg_date <- add_timedelta window_begin (Datetime.hours 1) ;
            acc <- for_fold (files_of C path file_type s) (bkg_step path) (bkg_date, []) ;
            open_dump C yaml_name (VDict [("states", VList (snd acc))]))
         s.
Proof.
  unfold gen_bkg_list. simpl str_operand. rewrite bind_ret_l.
  unfold bind at 1. cbv beta iota. fold (files_of C path file_type s).
  by destruct (bind _ _ s) as [[r s2] t2].
Qed.

Lemma bind_inr_inl {A B} (m : M W A) (k : A -> M W B) s a s1 t1 e s2 t2 :
  m s = (inr a, s1, t1) -> k a s1 = (inl e, s2, t2) ->
  bind m k s = (inl e, s2, t1 ++ t2).
Proof. intros H1 H2. unfold bind. by rewrite H1, H2. Qed.







(** A run that does not raise: its arguments, the worlds it went through,
    its trace and the range of its dates. *)
Lemma gen_bkg_list_ok_world window_begin bkg_path file_type yaml_name s s' tr :
  gen_bkg_list C window_begin bkg_path file_type yaml_name s = (inr tt, s', tr) ->
  exists T path w1 w2,
    window_begin = VDatetime T /\ bkg_path = VStr path /\
    repaired C (files_of C path file_type s) (world s) w1 /\
    opens C yaml_name w1 w2 /\
    s' = mk_state (environ s) w2 /\
    tr = flat_map job_events (all_jobs (files_of C path file_type s))
         ++ [EDump yaml_name (manifest path T (files_of C path file_type s))] /\
    0 <= Datetime.micros T + Datetime.US_PER_HOUR /\
    Datetime.micros T
      + (Z.of_nat (length (files_of C path file_type s)) + 1) * Datetime.US_PER_HOUR
      < Datetime.MAXORDINAL * Datetime.US_PER_DAY.
Proof.
  unfold gen_bkg_list.
  intros (path & s1 & t1 & t2 & H1 & H2 & ->)%bind_ok_inv.
  destruct bkg_path as [| | | p | | | |]; try done. injection H1 as -> <- <-.
  apply bind_ok_inv in H2 as (files & s2 & t2' & t3 & H2 & H3 & ->).
  injection H2 as <- <- <-. fold (files_of C path file_type s) in H3.
  apply bind_ok_inv in H3 as (u & s3 & t3' & t4 & H3 & H4 & ->). destruct u.
  pose proof (fix_diag_ok_world _ _ _ _ H3) as (w1 & Hrep & ->).
  apply fix_diag_ok_inv in H3 as [_ ->].
  apply bind_ok_inv in H4 as (bkg_date & s4 & t4' & t5 & H4 & H5 & ->).
  destruct window_begin as [| | | | T | | |]; try done. simpl in H4.
  destruct (Datetime.add T (Datetime.hours 1)) as [d |] eqn:Hadd; [| done].
  injection H4 as <- <- <-. apply add_Some in Hadd as [Hr ->].
  apply bind_ok_inv in H5 as (acc & s5 & t5' & t6 & H5 & H6 & ->).
  apply bkg_loop_ok_inv in H5 as (Hl & -> & -> & Hmax); [| done].
  unfold open_dump in H6. simpl in H6.
  destruct (open_w C yaml_name w1) as [[e |] w2] eqn:Hopen; [done |].
  injection H6 as <- <-. rewrite Hl, manifest_states_loop. simpl.
  exists T, path, w1, w2. simpl in Hmax. unfold Datetime.hours in *.
  repeat split; try done; lia.
Qed.

Lemma gen_bkg_list_ok_inv window_begin bkg_path file_type yaml_name s s' tr :
  gen_bkg_list C window_begin bkg_path file_type yaml_name s = (inr tt, s', tr) ->
  exists T path,
    window_begin = VDatetime T /\ bkg_path = VStr path /\
    environ s' = environ s /\
    tr = flat_map job_events (all_jobs (files_of C path file_type s))
         ++ [EDump yaml_name (manifest path T (files_of C path file_type s))] /\
    0 <= Datetime.micros T + Datetime.US_PER_HOUR /\
    Datetime.micros T
      + (Z.of_nat (length (files_of C path file_type s)) + 1) * Datetime.US_PER_HOUR
      < Datetime.MAXORDINAL * Datetime.US_PER_DAY.
Proof.
  intros (T & path & w1 & w2 & -> & -> & _ & _ & -> & -> & Hlo & Hhi)%gen_bkg_list_ok_world.
  by exists T, path.
Qed.


Lemma job_events_plan (files : list string) :
  flat_map job_events (all_jobs files)
  = flat_map logged_and_run_twice (repair_plan files).
Proof. reflexivity. Qed.

End GenBkgList.




(** C4: the [ocn_filename] field of the record of a matched file is the base
    name of the file with its extension, whatever it is, replaced by [.nc]
    (and [.nc] added to a name that has none). *)
Theorem ocn_filename_replaces_extension
    (t : Datetime.datetime) (bkg_path dir b root ext : string) :
  Str.has_char "/"%char b = false ->
  extension_split b root ext ->
  dict_get "ocn_filename" (bkg_dict t bkg_path (in_dir dir b)) = Some (VStr (root +:+ ".nc")).
Proof.
  intros Hb Hsplit. unfold bkg_dict, in_dir. simpl.
  by rewrite (ocn_filename_split dir b root ext).
Qed.



(** ** The metadata repair *)

Section Repair.
Context {W : Type} (C : collaborators W).



Lemma filter_job_events (cs : list string) :
  List.filter is_shell (flat_map job_events cs) = flat_map twice cs.
Proof. induction cs as [|c cs IH]; simpl; [done |]. by rewrite IH. Qed.

Lemma bkg_loop_silent (path : string) (files : list string) acc (s : state W) :
  snd (for_fold files (bkg_step path) acc s) = [].
Proof.
  revert acc. induction files as [|bkg files IH]; intros [t acc]; cbn [for_fold];
    [done |].
  unfold bind. rewrite bkg_step_eq.
  destruct (Datetime.add t (Datetime.hours 1)) as [t' |]; [| done].
  specialize (IH (t', acc ++ [bkg_dict t path bkg])).
  destruct (for_fold files (bkg_step path) (t', acc ++ [bkg_dict t path bkg]) s)
    as [[r s2] t2]. simpl in *. by subst.
Qed.

Lemma add_timedelta_silent (v : pyval) d (s : state W) :
  snd (add_timedelta v d s) = [].
Proof.
  destruct v as [| | | | t | | |]; try done. simpl.
  by destruct (Datetime.add t d).
Qed.

(** A property of traces that holds of the rounds of the job loops and of
the dump holds of the trace of [gen_bkg_list], however it ends. *)
Lemma gen_bkg_list_trace (P : list event -> Prop)
      window_begin bkg_path file_type yaml_name s :
  P [] -> (forall a b, P a -> P b -> P (a ++ b)) ->
  (forall c, P (job_events c)) -> (forall file doc, P [EDump file doc]) ->
  P (snd (gen_bkg_list C window_begin bkg_path file_type yaml_name s)).
Proof.
  intros Hnil Happ Hjob Hdump.
  assert (Hpass : forall jobs s0, P (snd (for_each jobs (run_job C) s0))).
  { intros jobs. apply for_each_trace; [done | done |].
    intros c s0. rewrite run_job_eq. apply Hjob. }
  assert (Hfix : forall files s0, P (snd (fix_diag C files s0))).
  { intros files. unfold fix_diag.
    apply for_each_trace; [done | done |]. intros v.
    apply for_each_trace; [done | done |]. intros att s0.
    apply bind_trace; [done | done | |]; intros; apply Hpass. }
  unfold gen_bkg_list.
  apply bind_trace; [done | done | |].
  { by destruct bkg_path. }
  intros path s1.
  apply bind_trace; [done | done | done |]. intros files s2.
  apply bind_trace; [done | done | apply Hfix |]. intros _ s3.
  apply bind_trace; [done | done | |].
  { by rewrite add_timedelta_silent. }
  intros d s4.
  apply bind_trace; [done | done | |].
  { by rewrite bkg_loop_silent. }
  intros acc s5. unfold open_dump.
  destruct (open_w C yaml_name (world s5)) as [[e |] w]; [apply Hnil | apply Hdump].
Qed.



End Repair.







(** ** The bump C loop *)

Lemma dim_of_2d (v : string) : In v vars2d -> dim_of v = "2d".
Proof.
  intros H. unfold dim_of. rewrite bool_decide_eq_true_2; [done |].
  by apply list_elem_of_In.
Qed.

Lemma dim_of_3d (v : string) : ~ In v vars2d -> dim_of v = "3d".
Proof.
  intros H. unfold dim_of. rewrite bool_decide_eq_false_2; [done |].
  by rewrite list_elem_of_In.
Qed.

(** C5: the round of the bump C loop for a name [v] uses the tag [2d] in the
    directory and in the file name of the configuration when [v] is in
    [vars2d], and the tag [3d] for every other name, in [vars3d] or not. *)
Theorem bump_dim_classification
    {W} (C : collaborators W) (gdas_home anl_dir v : string) (s s' : state W) tr :
  bumpC_body C gdas_home anl_dir v s = (inr tt, s', tr) ->
  let dim := if bool_decide (In v vars2d) then "2d" else "3d" in
  tr = [ECall "ufsda.disk_utils.mkdir" [VStr (Path.join anl_dir ["bump" +:+ dim +:+ "_" +:+ v])];
        ESetenv "CVAR" v;
        ECall "ufsda.yamltools.genYAML"
              [VDict [("datadir", VStr ("bump" +:+ dim +:+ "_" +:+ v))];
               VStr (Path.join anl_dir ["soca_bump" +:+ dim +:+ "_C_" +:+ v +:+ ".yaml"]);
               VStr (Path.join gdas_home ["parm"; "soca"; "berror"; "soca_bump_C_split.yaml"])]]
  /\ (In v vars2d -> dim = "2d")
  /\ (~ In v vars2d -> dim = "3d")
  /\ (~ In v vars2d -> ~ In v vars3d -> dim = "3d").
Proof.
  intros Hrun dim.
  assert (Hdim : dim_of v = dim).
  { unfold dim. destruct (bool_decide_reflect (In v vars2d)) as [H | H];
      [by apply dim_of_2d | by apply dim_of_3d]. }
  split; [| split; [| split]].
  - unfold bumpC_body in Hrun.
    apply bind_ok_inv in Hrun as (a1 & s1 & t1 & t2 & H1 & H2 & ->).
    apply bind_ok_inv in H2 as (a2 & s2 & t2' & t3 & H2 & H3 & ->).
    apply bind_ok_inv in H3 as (a3 & s3 & t3' & t4 & H3 & H4 & ->).
    unfold ret in H4. injection H4 as <- <-.
    unfold call in H1, H3.
    destruct (call_ext C _ _ (environ s) (world s)) as [r1 w1]. injection H1 as _ _ <-.
    destruct (call_ext C _ _ (environ s2) (world s2)) as [r3 w3]. injection H3 as _ _ <-.
    unfold environ_set in H2.
    destruct (Str.has_char zero v); [done |]. injection H2 as _ _ <-.
    unfold bumpdir_of, bumpC_yaml_of, bumpC_yaml_template. rewrite Hdim. done.
  - intros H. unfold dim. by rewrite bool_decide_eq_true_2.
  - intros H. unfold dim. by rewrite bool_decide_eq_false_2.
  - intros H _. unfold dim. by rewrite bool_decide_eq_false_2.
Qed.

(** ** The environment the script needs *)

Section Environment.
Context {W : Type} (C : collaborators W).

Lemma keeps_bind {A B} v (m : M W A) (k : A -> M W B) :
  keeps v m -> (forall a, keeps v (k a)) -> keeps v (bind m k).
Proof.
  intros Hm Hk s b s2 t (a & s1 & t1 & t2 & H1 & H2 & ->)%bind_ok_inv Hv.
  eapply Hk; [exact H2 |]. eapply Hm; [exact H1 | exact Hv].
Qed.

(** A statement that leaves [os.environ] as it is. *)
Lemma keeps_same_env {A} v (m : M W A) :
  (forall s a s1 t1, m s = (inr a, s1, t1) -> environ s1 = environ s) -> keeps v m.
Proof. intros H s a s1 t1 Hm Hv. by rewrite (H s a s1 t1 Hm). Qed.

Lemma keeps_ret {A} v (a : A) : keeps v (@ret W A a).
Proof. apply keeps_same_env. by intros s a' s1 t1 [= _ <- _]. Qed.

Lemma keeps_raise {A} v e : keeps v (@raise W A e).
Proof. by intros s a s1 t1 H. Qed.

Lemma keeps_logging_info v msg : keeps v (@logging_info W msg).
Proof. apply keeps_same_env. by intros s a' s1 t1 [= _ <- _]. Qed.

Lemma keeps_os_getenv v k : keeps v (@os_getenv W k).
Proof. apply keeps_same_env. by intros s a' s1 t1 [= _ <- _]. Qed.

Lemma keeps_call v callee args : keeps v (call C callee args).
Proof.
  apply keeps_same_env. intros s a s1 t1. unfold call.
  destruct (call_ext C callee args (environ s) (world s)) as [r w].
  by intros [= _ <- _].
Qed.

Lemma keeps_getitem v obj key : keeps v (getitem C obj key).
Proof. apply keeps_call. Qed.

Lemma keeps_setitem v obj key x : keeps v (setitem C obj key x).
Proof. apply keeps_bind; [apply keeps_call | intros; apply keeps_ret]. Qed.

Lemma keeps_environ_set v k x : k <> v -> keeps v (@environ_set W k x).
Proof.
  intros Hk s a s1 t1. unfold environ_set.
  destruct x as [| | | y | | | |]; try done.
  destruct (Str.has_char zero y); [done |].
  intros [= _ <- _] Hv. simpl. by rewrite lookup_insert_ne.
Qed.

Lemma keeps_fspath v x : keeps v (@fspath W x).
Proof. destruct x; try apply keeps_raise. apply keeps_ret. Qed.

Lemma keeps_fspaths v l : keeps v (@fspaths W l).
Proof.
  induction l as [|x l IH]; simpl; [apply keeps_ret |].
  apply keeps_bind; [apply keeps_fspath | intros a].
  apply keeps_bind; [apply IH | intros; apply keeps_ret].
Qed.

Lemma keeps_os_path_join v a p : keeps v (@os_path_join W a p).
Proof.
  apply keeps_bind; [apply keeps_fspath | intros].
  apply keeps_bind; [apply keeps_fspaths | intros; apply keeps_ret].
Qed.

Lemma keeps_py_int v x : keeps v (py_int C x).
Proof.
  destruct x as [| | | y | | | |]; try apply keeps_raise. simpl.
  destruct (int_of_str C y); [apply keeps_ret | apply keeps_raise].
Qed.

Lemma keeps_strptime v x : keeps v (strptime C x).
Proof.
  destruct x as [| | | y | | | |]; try apply keeps_raise. simpl.
  destruct (strptime_YmdH C y); [apply keeps_ret | apply keeps_raise].
Qed.

Lemma keeps_half_hours v n : keeps v (@half_hours W n).
Proof.
  unfold half_hours.
  destruct (Datetime.timedelta_in_range _); [apply keeps_ret | apply keeps_raise].
Qed.

Lemma keeps_add_timedelta v x d : keeps v (@add_timedelta W x d).
Proof.
  destruct x as [| | | | t | | |]; try apply keeps_raise. simpl.
  destruct (Datetime.add t d); [apply keeps_ret | apply keeps_raise].
Qed.

Lemma keeps_add_vals v a b : keeps v (@add_vals W a b).
Proof. destruct a, b; try apply keeps_raise. apply keeps_ret. Qed.

Lemma keeps_get_soca_vars v : keeps v (@get_soca_vars W).
Proof.
  apply keeps_bind; [apply keeps_os_getenv | intros x].
  destruct x; try apply keeps_raise. apply keeps_ret.
Qed.

Lemma keeps_for_each {A} v (l : list A) (body : A -> M W unit) :
  (forall x, keeps v (body x)) -> keeps v (for_each l body).
Proof.
  intros Hbody. induction l as [|x l IH]; simpl; [apply keeps_ret |].
  apply keeps_bind; [apply Hbody | intros; apply IH].
Qed.

Lemma keeps_gen_bkg_list v window_begin bkg_path file_type yaml_name :
  keeps v (gen_bkg_list C window_begin bkg_path file_type yaml_name).
Proof.
  apply keeps_same_env. intros s [] s1 t1 H.
  by apply gen_bkg_list_ok_inv in H as (T & path & _ & _ & He & _).
Qed.

End Environment.

Ltac keep :=
  repeat first
    [ apply keeps_ret | apply keeps_raise | apply keeps_logging_info
    | apply keeps_os_getenv | apply keeps_call | apply keeps_getitem
    | apply keeps_setitem | apply keeps_os_path_join | apply keeps_py_int
    | apply keeps_strptime | apply keeps_half_hours | apply keeps_add_timedelta
    | apply keeps_add_vals | apply keeps_get_soca_vars | apply keeps_gen_bkg_list
    | (apply keeps_environ_set; discriminate)
    | (apply keeps_for_each; intros ?)
    | (apply keeps_bind; [| intros ?]) ].

Section Phases.
Context {W : Type} (C : collaborators W).

Lemma keeps_get_gdas_home v : keeps v (get_gdas_home (W := W)).
Proof. unfold get_gdas_home. keep. Qed.

Lemma keeps_setup_runtime v : keeps v (setup_runtime C).
Proof. unfold setup_runtime. keep. Qed.

Lemma keeps_stage_observations v gdas_home comin_obs diags :
  v <> "OBS_DATE" -> v <> "OBS_DIR" -> v <> "OBS_PREFIX" -> v <> "DIAG_DIR" ->
  keeps v (stage_observations C gdas_home comin_obs diags).
Proof.
  intros H1 H2 H3 H4. unfold stage_observations.
  repeat first [ (apply keeps_environ_set; congruence)
               | apply keeps_call | apply keeps_getitem | apply keeps_ret
               | apply keeps_logging_info
               | (apply keeps_bind; [| intros ?]) ].
Qed.

Lemma keeps_stage_backgrounds v stage_cfg : keeps v (stage_backgrounds C stage_cfg).
Proof. unfold stage_backgrounds. keep. Qed.

Lemma keeps_prepare_yamls v gdas_home anl_dir stage_cfg :
  keeps v (prepare_yamls C gdas_home anl_dir stage_cfg).
Proof. unfold prepare_yamls. keep. Qed.

Lemma keeps_bump_C v soca_vars gdas_home anl_dir :
  v <> "CVAR" -> keeps v (bump_C C soca_vars gdas_home anl_dir).
Proof.
  intros Hv. unfold bump_C, bumpC_body.
  repeat first [ (apply keeps_environ_set; congruence)
               | apply keeps_call | apply keeps_ret | apply keeps_logging_info
               | (apply keeps_for_each; intros ?)
               | (apply keeps_bind; [| intros ?]) ].
Qed.

Lemma keeps_variational_yaml v gdas_home anl_dir :
  keeps v (variational_yaml C gdas_home anl_dir).
Proof. unfold variational_yaml. keep. Qed.

Lemma keeps_link_restart v comout stage_cfg window_begin :
  keeps v (link_restart C comout stage_cfg window_begin).
Proof. unfold link_restart. keep. Qed.

End Phases.

Section Failure.
Context {W : Type} (C : collaborators W).

Lemma fails_bind_now {A B} (m : M W A) (k : A -> M W B) s :
  fails m s -> fails (bind m k) s.
Proof. intros (e & s' & tr & H). exists e, s', tr. by apply bind_inl. Qed.

Lemma fails_bind {A B} (m : M W A) (k : A -> M W B) s :
  (forall a s1 t1, m s = (inr a, s1, t1) -> fails (k a) s1) -> fails (bind m k) s.
Proof.
  intros Hk. unfold fails, bind in *.
  destruct (m s) as [[[e | a] s1] t1]; [by eauto |].
  destruct (Hk a s1 t1 eq_refl) as (e & s2 & t2 & ->). eauto.
Qed.

Lemma doomed_raise {A} e : doomed (@raise W A e).
Proof. intros s. by exists e, s, []. Qed.

Lemma doomed_bind_now {A B} (m : M W A) (k : A -> M W B) :
  doomed m -> doomed (bind m k).
Proof. intros Hm s. by apply fails_bind_now. Qed.

Lemma doomed_bind {A B} (m : M W A) (k : A -> M W B) :
  (forall a, doomed (k a)) -> doomed (bind m k).
Proof. intros Hk s. apply fails_bind. intros a s1 _ _. apply Hk. Qed.

Lemma dies_bind_now {A B} v (m : M W A) (k : A -> M W B) :
  dies v m -> dies v (bind m k).
Proof. intros Hm s Hv. by apply fails_bind_now, Hm. Qed.

Lemma dies_bind_keep {A B} v (m : M W A) (k : A -> M W B) :
  keeps v m -> (forall a, dies v (k a)) -> dies v (bind m k).
Proof.
  intros Hm Hk s Hv. apply fails_bind. intros a s1 t1 H1.
  apply Hk. by eapply Hm.
Qed.

(** Reading the unset variable gives [None]. *)
Lemma dies_getenv {B} v (k : pyval -> M W B) :
  doomed (k VNone) -> dies v (bind (os_getenv v) k).
Proof.
  intros Hk s Hv. apply fails_bind. intros a s1 t1. unfold os_getenv. rewrite Hv.
  intros [= <- <- _]. apply Hk.
Qed.

(** What [None] cannot be given to. *)
Lemma doomed_os_path_join_None p : doomed (@os_path_join W VNone p).
Proof. apply doomed_bind_now, doomed_raise. Qed.

Lemma doomed_py_int_None : doomed (py_int C VNone).
Proof. apply doomed_raise. Qed.

Lemma doomed_strptime_None : doomed (strptime C VNone).
Proof. apply doomed_raise. Qed.

Lemma doomed_add_vals_l b : doomed (@add_vals W VNone b).
Proof. apply doomed_raise. Qed.

Lemma doomed_add_vals_r a : doomed (@add_vals W a VNone).
Proof. destruct a; apply doomed_raise. Qed.

Lemma doomed_gen_bkg_list_None window_begin file_type yaml_name :
  doomed (gen_bkg_list C window_begin VNone file_type yaml_name).
Proof. apply doomed_bind_now, doomed_raise. Qed.

Lemma dies_get_soca_vars : dies "SOCA_VARS" (@get_soca_vars W).
Proof. apply dies_getenv, doomed_raise. Qed.

End Failure.

(** Walks down a statement to one that cannot take [None]. *)
Ltac doom :=
  first
    [ apply doomed_raise
    | apply doomed_bind_now;
      first [ apply doomed_os_path_join_None | apply doomed_py_int_None
            | apply doomed_strptime_None | apply doomed_add_vals_l
            | apply doomed_add_vals_r | apply doomed_gen_bkg_list_None
            | apply doomed_raise ]
    | apply doomed_bind; intros ?; doom ].

(** Walks down a statement to the read of the variable [v]. *)
Ltac die v :=
  lazymatch goal with
  | |- dies v (bind (os_getenv v) _) => apply dies_getenv; doom
  | |- dies v (bind get_soca_vars _) => apply dies_bind_now, dies_get_soca_vars
  | |- dies v (bind _ _) => apply dies_bind_keep; [solve [keep] | intros ?; die v]
  end.

Section Required.
Context {W : Type} (C : collaborators W).

Lemma dies_setup_runtime : dies "COMOUT" (setup_runtime C).
Proof. unfold setup_runtime. die "COMOUT". Qed.

Lemma dies_prepare_yamls gdas_home anl_dir stage_cfg :
  dies "SOCA_VARS" (prepare_yamls C gdas_home anl_dir stage_cfg).
Proof. unfold prepare_yamls. die "SOCA_VARS". Qed.

Lemma dies_variational_yaml v gdas_home anl_dir :
  In v ["assim_freq"; "CDATE"; "COMIN_GES"; "PDY"; "cyc"] ->
  dies v (variational_yaml C gdas_home anl_dir).
Proof.
  intros Hv. unfold variational_yaml. simpl in Hv.
  destruct Hv as [<- | [<- | [<- | [<- | [<- | []]]]]].
  - die "assim_freq".
  - die "CDATE".
  - die "COMIN_GES".
  - die "PDY".
  - die "cyc".
Qed.

Lemma dies_prepare_input_nml gdas_home stage_cfg window_begin :
  dies "DOMAIN_STACK_SIZE" (prepare_input_nml C gdas_home stage_cfg window_begin).
Proof. unfold prepare_input_nml. die "DOMAIN_STACK_SIZE". Qed.

End Required.

(** The variables the script cannot do without. *)
Lemma script_dies {W} (C : collaborators W) (v : string) :
  In v ["COMOUT"; "COMIN_GES"; "CDATE"; "PDY"; "cyc"; "assim_freq"; "SOCA_VARS";
        "DOMAIN_STACK_SIZE"] ->
  dies v (script C).
Proof.
  intros Hv. unfold script.
  apply dies_bind_keep; [apply keeps_get_gdas_home | intros gdas_home].
  destruct (decide (v = "COMOUT")) as [-> | Hcomout].
  { apply dies_bind_now, dies_setup_runtime. }
  apply dies_bind_keep; [apply keeps_setup_runtime | intros [[[comout comin_obs] anl_dir] diags]].
  apply dies_bind_keep; [| intros stage_cfg].
  { apply keeps_stage_observations; intros ->; simpl in Hv;
      repeat (destruct Hv as [Hv | Hv]; try discriminate Hv); done. }
  apply dies_bind_keep; [apply keeps_stage_backgrounds | intros _].
  destruct (decide (v = "SOCA_VARS")) as [-> | Hsoca].
  { apply dies_bind_now, dies_prepare_yamls. }
  apply dies_bind_keep; [apply keeps_prepare_yamls | intros soca_vars].
  apply dies_bind_keep; [| intros _].
  { apply keeps_bump_C; intros ->; simpl in Hv;
      repeat (destruct Hv as [Hv | Hv]; try discriminate Hv); done. }
  destruct (decide (v = "DOMAIN_STACK_SIZE")) as [-> | Hstack].
  - apply dies_bind_keep; [apply keeps_variational_yaml | intros window_begin].
    apply dies_bind_keep; [apply keeps_link_restart | intros _].
    apply dies_prepare_input_nml.
  - apply dies_bind_now, dies_variational_yaml. simpl in Hv |- *.
    destruct Hv as [<- | [<- | [<- | [<- | [<- | [<- | [<- | [<- | []]]]]]]]];
      try congruence; auto 10.
Qed.


(** ** The documents of the bump C loop *)

Lemma bumpC_documents_app (a b : list event) :
  bumpC_documents (a ++ b) = bumpC_documents a ++ bumpC_documents b.
Proof. unfold bumpC_documents. apply flat_map_app. Qed.

Section Calm.
Context {W : Type} (C : collaborators W).

Lemma calm_bind {A B} (m : M W A) (k : A -> M W B) :
  calm m -> (forall a, calm (k a)) -> calm (bind m k).
Proof.
  intros Hm Hk s.
  apply (bind_trace (fun tr => bumpC_documents tr = [])); [done | | apply Hm |].
  - intros a b Ha Hb. by rewrite bumpC_documents_app, Ha, Hb.
  - intros a s1. apply Hk.
Qed.

Lemma calm_ret {A} (a : A) : calm (@ret W A a).
Proof. by intros s. Qed.

Lemma calm_raise {A} e : calm (@raise W A e).
Proof. by intros s. Qed.

Lemma calm_logging_info msg : calm (@logging_info W msg).
Proof. by intros s. Qed.

Lemma calm_os_getenv k : calm (@os_getenv W k).
Proof. by intros s. Qed.

Lemma calm_environ_set k x : calm (@environ_set W k x).
Proof.
  intros s. unfold environ_set. destruct x as [| | | y | | | |]; try done.
  by destruct (Str.has_char zero y).
Qed.

(** A call that is not a request for a bump C configuration. *)
Lemma calm_call callee args :
  bumpC_documents [ECall callee args] = [] -> calm (call C callee args).
Proof.
  intros H s. unfold call.
  by destruct (call_ext C callee args (environ s) (world s)) as [r w].
Qed.

Lemma calm_getitem obj key : calm (getitem C obj key).
Proof. by apply calm_call. Qed.

Lemma calm_setitem obj key x : calm (setitem C obj key x).
Proof. apply calm_bind; [by apply calm_call | intros; apply calm_ret]. Qed.

Lemma calm_fspath x : calm (@fspath W x).
Proof. destruct x; try apply calm_raise. apply calm_ret. Qed.

Lemma calm_fspaths l : calm (@fspaths W l).
Proof.
  induction l as [|x l IH]; simpl; [apply calm_ret |].
  apply calm_bind; [apply calm_fspath | intros a].
  apply calm_bind; [apply IH | intros; apply calm_ret].
Qed.

Lemma calm_os_path_join a p : calm (@os_path_join W a p).
Proof.
  apply calm_bind; [apply calm_fspath | intros].
  apply calm_bind; [apply calm_fspaths | intros; apply calm_ret].
Qed.

Lemma calm_py_int x : calm (py_int C x).
Proof.
  destruct x as [| | | y | | | |]; try apply calm_raise. simpl.
  destruct (int_of_str C y); [apply calm_ret | apply calm_raise].
Qed.

Lemma calm_strptime x : calm (strptime C x).
Proof.
  destruct x as [| | | y | | | |]; try apply calm_raise. simpl.
  destruct (strptime_YmdH C y); [apply calm_ret | apply calm_raise].
Qed.

Lemma calm_half_hours n : calm (@half_hours W n).
Proof.
  unfold half_hours.
  destruct (Datetime.timedelta_in_range _); [apply calm_ret | apply calm_raise].
Qed.

Lemma calm_add_timedelta x d : calm (@add_timedelta W x d).
Proof. intros s. by rewrite add_timedelta_silent. Qed.

Lemma calm_add_vals a b : calm (@add_vals W a b).
Proof. destruct a, b; try apply calm_raise. apply calm_ret. Qed.

Lemma calm_get_soca_vars : calm (@get_soca_vars W).
Proof.
  apply calm_bind; [apply calm_os_getenv | intros x].
  destruct x; try apply calm_raise. apply calm_ret.
Qed.

Lemma calm_gen_bkg_list window_begin bkg_path file_type yaml_name :
  calm (gen_bkg_list C window_begin bkg_path file_type yaml_name).
Proof.
  intros s. apply (gen_bkg_list_trace C (fun tr => bumpC_documents tr = [])); try done.
  intros a b Ha Hb. by rewrite bumpC_documents_app, Ha, Hb.
Qed.

End Calm.

Ltac hush :=
  repeat first
    [ apply calm_ret | apply calm_raise | apply calm_logging_info
    | apply calm_os_getenv | apply calm_environ_set | apply calm_getitem
    | apply calm_setitem | apply calm_os_path_join | apply calm_py_int
    | apply calm_strptime | apply calm_half_hours | apply calm_add_timedelta
    | apply calm_add_vals | apply calm_get_soca_vars | apply calm_gen_bkg_list
    | (apply calm_call; reflexivity)
    | (apply calm_bind; [| intros ?]) ].

Section BumpC.
Context {W : Type} (C : collaborators W).

Lemma calm_get_gdas_home : calm (get_gdas_home (W := W)).
Proof. unfold get_gdas_home. hush. Qed.

Lemma calm_setup_runtime : calm (setup_runtime C).
Proof. unfold setup_runtime. hush. Qed.

Lemma calm_stage_observations gdas_home comin_obs diags :
  calm (stage_observations C gdas_home comin_obs diags).
Proof. unfold stage_observations. hush. Qed.

Lemma calm_stage_backgrounds stage_cfg : calm (stage_backgrounds C stage_cfg).
Proof. unfold stage_backgrounds. hush. Qed.

Lemma calm_prepare_yamls gdas_home anl_dir stage_cfg :
  calm (prepare_yamls C gdas_home anl_dir stage_cfg).
Proof. unfold prepare_yamls. hush. Qed.

Lemma calm_variational_yaml gdas_home anl_dir :
  calm (variational_yaml C gdas_home anl_dir).
Proof. unfold variational_yaml. hush. Qed.

Lemma calm_link_restart comout stage_cfg window_begin :
  calm (link_restart C comout stage_cfg window_begin).
Proof. unfold link_restart. hush. Qed.

Lemma calm_prepare_input_nml gdas_home stage_cfg window_begin :
  calm (prepare_input_nml C gdas_home stage_cfg window_begin).
Proof. unfold prepare_input_nml. hush. Qed.

(** The requests of the loop, however it ends and whatever [soca_vars] is. *)
Lemma bump_C_documents (soca_vars : list string) (gdas_home anl_dir : string)
      (s s' : state W) r tr :
  bump_C C soca_vars gdas_home anl_dir s = (r, s', tr) ->
  let docs := [bumpC_request gdas_home anl_dir "2d" "ssh";
               bumpC_request gdas_home anl_dir "3d" "tocn";
               bumpC_request gdas_home anl_dir "3d" "socn"] in
  bumpC_documents tr `prefix_of` docs /\ (r = inr tt -> bumpC_documents tr = docs).
Proof.
  unfold bump_C, vars, for_each, bumpC_body, bind, logging_info, call, environ_set, ret.
  simpl.
  repeat match goal with
         | |- context [call_ext C ?c ?a ?e ?w] =>
             let r := fresh "r" in let w' := fresh "w" in
             destruct (call_ext C c a e w) as [[? | r] w']; simpl
         end;
    intros [= <- <- <-]; simpl; (split; [| done]).
  all: unfold bumpC_request; simpl.
  all: try (by apply prefix_nil).
  all: try (by apply prefix_cons, prefix_nil).
  all: try (by do 2 apply prefix_cons; apply prefix_nil).
  all: done.
Qed.

Lemma fspaths_strs (l : list string) (s : state W) :
  fspaths (map VStr l) s = (inr l, s, []).
Proof.
  induction l as [|x l IH]; simpl; [done |].
  rewrite bind_ret_l. unfold bind. by rewrite IH.
Qed.

Lemma os_path_join_ok_inv a (l : list string) (s s1 : state W) r tr :
  os_path_join a (map VStr l) s = (inr r, s1, tr) ->
  exists a', a = VStr a' /\ r = Path.join a' l /\ s1 = s /\ tr = [].
Proof.
  unfold os_path_join. destruct a as [| | | a' | | | |]; try done.
  simpl fspath. rewrite bind_ret_l. unfold bind. rewrite fspaths_strs.
  intros [= <- <- <-]. by exists a'.
Qed.

Lemma os_getenv_ok_inv k (s s1 : state W) a tr :
  os_getenv k s = (inr a, s1, tr) ->
  a = match environ s !! k with Some x => VStr x | None => VNone end /\ s1 = s /\ tr = [].
Proof. by intros [= <- <- <-]. Qed.

Lemma get_gdas_home_ok_inv (s s1 : state W) gdas_home tr :
  get_gdas_home s = (inr gdas_home, s1, tr) ->
  exists h, environ s !! "HOMEgfs" = Some h
            /\ gdas_home = Path.join h ["sorc"; "gdas.cd"] /\ s1 = s.
Proof.
  unfold get_gdas_home. intros Hrun.
  apply bind_ok_inv in Hrun as (a & s0 & t0 & t1 & Ha & Hj & ->).
  apply os_getenv_ok_inv in Ha as (-> & -> & ->).
  apply (os_path_join_ok_inv _ ["sorc"; "gdas.cd"]) in Hj as (h & Hh & -> & -> & _).
  exists h. destruct (environ s !! "HOMEgfs"); by simplify_eq.
Qed.

Lemma call_ok_inv callee args (s s1 : state W) a tr :
  call C callee args s = (inr a, s1, tr) -> environ s1 = environ s.
Proof.
  unfold call. destruct (call_ext C callee args (environ s) (world s)) as [r w].
  by intros [= _ <- _].
Qed.

Lemma setup_runtime_ok_inv (s s1 : state W) comout comin_obs anl_dir diags tr :
  setup_runtime C s = (inr (comout, comin_obs, anl_dir, diags), s1, tr) ->
  exists c, environ s !! "COMOUT" = Some c /\ anl_dir = Path.join c ["analysis"]
            /\ environ s1 = environ s.
Proof.
  unfold setup_runtime. intros Hrun.
  apply bind_ok_inv in Hrun as (u0 & s0 & t0 & t0' & Hlog & Hrun & ->).
  unfold logging_info in Hlog. simplify_eq.
  apply bind_ok_inv in Hrun as (c0 & s2 & t2 & t2' & Hc0 & Hrun & ->).
  apply os_getenv_ok_inv in Hc0 as (-> & -> & ->).
  apply bind_ok_inv in Hrun as (o0 & s3 & t3 & t3' & Ho0 & Hrun & ->).
  apply os_getenv_ok_inv in Ho0 as (-> & -> & ->).
  apply bind_ok_inv in Hrun as (f0 & s4 & t4 & t4' & Hf0 & Hrun & ->).
  apply os_getenv_ok_inv in Hf0 as (-> & -> & ->).
  apply bind_ok_inv in Hrun as (anl & s5 & t5 & t5' & Hanl & Hrun & ->).
  apply (os_path_join_ok_inv _ ["analysis"]) in Hanl as (c & Hc & -> & -> & ->).
  apply bind_ok_inv in Hrun as (u1 & s6 & t6 & t6' & Hm1 & Hrun & ->).
  apply call_ok_inv in Hm1.
  apply bind_ok_inv in Hrun as (dg & s7 & t7 & t7' & Hdg & Hrun & ->).
  apply (os_path_join_ok_inv _ ["analysis"; "diags"]) in Hdg as (c1 & _ & -> & -> & ->).
  apply bind_ok_inv in Hrun as (u2 & s8 & t8 & t8' & Hm2 & Hrun & ->).
  apply call_ok_inv in Hm2.
  apply bind_ok_inv in Hrun as (dt & s9 & t9 & t9' & Hdt & Hrun & ->).
  apply (os_path_join_ok_inv _ ["analysis"; "Data"]) in Hdt as (c2 & _ & -> & -> & ->).
  apply bind_ok_inv in Hrun as (u3 & s10 & t10 & t10' & Hm3 & Hrun & ->).
  apply call_ok_inv in Hm3.
  unfold ret in Hrun. injection Hrun as <- _ <- _ <- _.
  exists c. split; [| split; [done | congruence]].
  match goal with |- ?e = Some c => destruct e; by simplify_eq end.
Qed.

End BumpC.

Section ScriptDocuments.
Context {W : Type} (C : collaborators W).

(** The bump C requests of a run of the script that reaches its end. *)
Lemma script_documents (s s1 : state W) tr :
  script C s = (inr tt, s1, tr) ->
  exists homegfs comout,
    environ s !! "HOMEgfs" = Some homegfs /\ environ s !! "COMOUT" = Some comout
    /\ bumpC_documents tr
       = [bumpC_request (Path.join homegfs ["sorc"; "gdas.cd"])
                        (Path.join comout ["analysis"]) "2d" "ssh";
          bumpC_request (Path.join homegfs ["sorc"; "gdas.cd"])
                        (Path.join comout ["analysis"]) "3d" "tocn";
          bumpC_request (Path.join homegfs ["sorc"; "gdas.cd"])
                        (Path.join comout ["analysis"]) "3d" "socn"].
Proof.
  unfold script. intros Hrun.
  apply bind_ok_inv in Hrun as (gdas_home & sa & ta & ta' & Ha & Hrun & ->).
  pose proof (calm_get_gdas_home s) as Hta. rewrite Ha in Hta. simpl in Hta.
  apply get_gdas_home_ok_inv in Ha as (h & Hh & -> & ->).
  apply bind_ok_inv in Hrun as ([[[comout comin_obs] anl_dir] diags] & sb & tb & tb' & Hb & Hrun & ->).
  pose proof (calm_setup_runtime C s) as Htb. rewrite Hb in Htb. simpl in Htb.
  apply setup_runtime_ok_inv in Hb as (c & Hc & -> & _).
  apply bind_ok_inv in Hrun as (stage_cfg & sc & tc & tc' & Hc' & Hrun & ->).
  pose proof (calm_stage_observations C (Path.join h ["sorc"; "gdas.cd"]) comin_obs diags sb)
    as Htc. rewrite Hc' in Htc. simpl in Htc.
  apply bind_ok_inv in Hrun as (u & sd & td & td' & Hd & Hrun & ->).
  pose proof (calm_stage_backgrounds C stage_cfg sc) as Htd. rewrite Hd in Htd. simpl in Htd.
  apply bind_ok_inv in Hrun as (soca_vars & se & te & te' & He & Hrun & ->).
  pose proof (calm_prepare_yamls C (Path.join h ["sorc"; "gdas.cd"])
                (Path.join c ["analysis"]) stage_cfg sd) as Hte.
  rewrite He in Hte. simpl in Hte.
  apply bind_ok_inv in Hrun as (u' & sf & tf & tf' & Hf & Hrun & ->). destruct u'.
  apply bump_C_documents in Hf as [_ Htf]. specialize (Htf eq_refl).
  apply bind_ok_inv in Hrun as (window_begin & sg & tg & tg' & Hg & Hrun & ->).
  pose proof (calm_variational_yaml C (Path.join h ["sorc"; "gdas.cd"])
                (Path.join c ["analysis"]) sf) as Htg.
  rewrite Hg in Htg. simpl in Htg.
  apply bind_ok_inv in Hrun as (u'' & sh & th & th' & Hh' & Hrun & ->).
  pose proof (calm_link_restart C comout stage_cfg window_begin sg) as Hth.
  rewrite Hh' in Hth. simpl in Hth.
  pose proof (calm_prepare_input_nml C (Path.join h ["sorc"; "gdas.cd"]) stage_cfg
                window_begin sh) as Hti.
  rewrite Hrun in Hti. simpl in Hti.
  exists h, c. split; [done |]. split; [done |].
  rewrite !bumpC_documents_app, Hta, Htb, Htc, Htd, Hte, Htf, Htg, Hth, Hti.
  by rewrite app_nil_r.
Qed.

(** A run that reaches its end had [SOCA_VARS] set. *)
Lemma script_ok_SOCA_VARS (s s1 : state W) tr :
  script C s = (inr tt, s1, tr) -> is_Some (environ s !! "SOCA_VARS").
Proof.
  intros Hrun. destruct (environ s !! "SOCA_VARS") as [x |] eqn:Hx; [eauto |].
  destruct (script_dies C "SOCA_VARS" ltac:(simpl; auto 10) s Hx) as (e & s' & tr' & He).
  congruence.
Qed.

End ScriptDocuments.

(** C9: two runs of the script that reach their end, in environments that
    agree on [HOMEgfs] and [COMOUT] and hold any two values of [SOCA_VARS]
    (and whatever else differs), request the same bump C configurations:
    those of the fixed names [ssh] (2d), [tocn] and [socn] (3d), and no
    other; the loop requests a prefix of these three when it raises. *)
Theorem bump_C_independent_of_SOCA_VARS
    {W W'} (C : collaborators W) (C' : collaborators W')
    (s s1 : state W) (s' s1' : state W') tr tr' :
  script C s = (inr tt, s1, tr) ->
  script C' s' = (inr tt, s1', tr') ->
  environ s !! "HOMEgfs" = environ s' !! "HOMEgfs" ->
  environ s !! "COMOUT" = environ s' !! "COMOUT" ->
  (exists x x', environ s !! "SOCA_VARS" = Some x /\ environ s' !! "SOCA_VARS" = Some x')
  /\ bumpC_documents tr = bumpC_documents tr'
  /\ (exists gdas_home anl_dir,
        bumpC_documents tr = [bumpC_request gdas_home anl_dir "2d" "ssh";
                              bumpC_request gdas_home anl_dir "3d" "tocn";
                              bumpC_request gdas_home anl_dir "3d" "socn"])
  /\ (forall soca_vars gdas_home anl_dir s2 r s3 t,
        bump_C C soca_vars gdas_home anl_dir s2 = (r, s3, t) ->
        bumpC_documents t `prefix_of` [bumpC_request gdas_home anl_dir "2d" "ssh";
                                       bumpC_request gdas_home anl_dir "3d" "tocn";
                                       bumpC_request gdas_home anl_dir "3d" "socn"]).
Proof.
  intros Hrun Hrun' Hhome Hcom.
  destruct (script_ok_SOCA_VARS C s s1 tr Hrun) as [x Hx].
  destruct (script_ok_SOCA_VARS C' s' s1' tr' Hrun') as [x' Hx'].
  apply script_documents in Hrun as (h & c & Hh & Hc & ->).
  apply script_documents in Hrun' as (h' & c' & Hh' & Hc' & ->).
  assert (h' = h) as -> by congruence. assert (c' = c) as -> by congruence.
  split; [by eauto |]. split; [done |]. split; [by eauto |].
  intros soca_vars gdas_home anl_dir s2 r s3 t Ht.
  by apply bump_C_documents in Ht as [Hp _].
Qed.

(** ** What the manifest depends on *)

Lemma dumps_job_events (cs : list string) : dumps (flat_map job_events cs) = [].
Proof. induction cs as [|c cs IH]; simpl; [done |]. exact IH. Qed.

Lemma dumps_app (a b : list event) : dumps (a ++ b) = dumps a ++ dumps b.
Proof. unfold dumps. apply flat_map_app. Qed.

(** X20: the manifest depends on the window, the directory and the set of
    files [glob] lists, not on the order of the listing or on anything else
    of the outside: two runs of [gen_bkg_list] that do not raise, against
    any two outsides that list the same files, have each dumped one
    document, and the same one. *)
Theorem manifest_depends_on_file_set
      {W W'} (C : collaborators W) (C' : collaborators W')
      (window_begin : pyval) (path file_type yaml_name : string)
      (s s1 : state W) (s' s1' : state W') tr tr' :
  glob_glob C (path +:+ "/*" +:+ file_type +:+ "*") (world s)
    ≡ₚ glob_glob C' (path +:+ "/*" +:+ file_type +:+ "*") (world s') ->
  gen_bkg_list C window_begin (VStr path) file_type yaml_name s = (inr tt, s1, tr) ->
  gen_bkg_list C' window_begin (VStr path) file_type yaml_name s' = (inr tt, s1', tr') ->
  dumps tr = dumps tr' /\ length (dumps tr) = 1%nat.
Proof.
  intros Hglob Hrun Hrun'.
  apply gen_bkg_list_ok_inv in Hrun as (T & p & -> & [= <-] & _ & -> & _).
  apply gen_bkg_list_ok_inv in Hrun' as (T' & p' & [= <-] & [= <-] & _ & -> & _).
  rewrite !dumps_app, !dumps_job_events. simpl.
  unfold files_of. by rewrite (sort_proper _ _ Hglob).
Qed.

(** ** The statements at concrete inputs *)

Lemma run_eta {W A} (x : (exn + A) * state W * list event) : x = (x.1.1, x.1.2, x.2).
Proof. by destruct x as [[? ?] ?]. Defined.

Lemma quiet_repaired listing status files : repaired (quiet listing status) files tt tt.
Proof.
  unfold repaired. induction (all_jobs files) as [|c cs IH]; [reflexivity | exact IH].
Defined.



Lemma manifest_depends_on_file_set_witness :
  glob_glob (quiet two_listed 0) (ges +:+ "/*" +:+ default_file_type +:+ "*") (world state0)
    ≡ₚ glob_glob (quiet (rev two_listed) 1) (ges +:+ "/*" +:+ default_file_type +:+ "*")
         (world state0)
  /\ dumps (gen_bkg_list (quiet two_listed 0) (VDatetime window_0328) (VStr ges)
                         default_file_type "bkg_list.yaml" state0).2
     = dumps (gen_bkg_list (quiet (rev two_listed) 1) (VDatetime window_0328) (VStr ges)
                           default_file_type "bkg_list.yaml" state0).2.
Proof.
  assert (Hglob : glob_glob (quiet two_listed 0) (ges +:+ "/*" +:+ default_file_type +:+ "*")
                            (world state0)
                  ≡ₚ glob_glob (quiet (rev two_listed) 1)
                       (ges +:+ "/*" +:+ default_file_type +:+ "*") (world state0))
    by apply perm_swap.
  split; [exact Hglob |].
  exact (proj1 (manifest_depends_on_file_set (quiet two_listed 0) (quiet (rev two_listed) 1)
                  (VDatetime window_0328) ges default_file_type "bkg_list.yaml"
                  state0 _ state0 _ _ _ Hglob (run_eta _) (run_eta _))).
Defined.


Lemma ocn_filename_replaces_extension_witness :
  extension_split "gdas.t00z.ocnf004.grb2" "gdas.t00z.ocnf004" ".grb2"
  /\ dict_get "ocn_filename"
              (bkg_dict window_0328 ges (in_dir ges "gdas.t00z.ocnf004.grb2"))
     = Some (VStr "gdas.t00z.ocnf004.nc").
Proof.
  assert (H : extension_split "gdas.t00z.ocnf004.grb2" "gdas.t00z.ocnf004" ".grb2").
  { split; [reflexivity |]. left. exists "grb2". repeat split; reflexivity. }
  split; [exact H |].
  exact (ocn_filename_replaces_extension window_0328 ges ges "gdas.t00z.ocnf004.grb2"
           "gdas.t00z.ocnf004" ".grb2" eq_refl H).
Defined.



Lemma bump_dim_classification_witness :
  (bumpC_body (quiet [] 0) "/home/gfs/sorc/gdas.cd" "/com/out/analysis" "ssh" state0).2
  = [ECall "ufsda.disk_utils.mkdir" [VStr "/com/out/analysis/bump2d_ssh"];
     ESetenv "CVAR" "ssh";
     ECall "ufsda.yamltools.genYAML"
           [VDict [("datadir", VStr "bump2d_ssh")];
            VStr "/com/out/analysis/soca_bump2d_C_ssh.yaml";
            VStr "/home/gfs/sorc/gdas.cd/parm/soca/berror/soca_bump_C_split.yaml"]]
  /\ (bumpC_body (quiet [] 0) "/home/gfs/sorc/gdas.cd" "/com/out/analysis" "uocn" state0).2
     = [ECall "ufsda.disk_utils.mkdir" [VStr "/com/out/analysis/bump3d_uocn"];
        ESetenv "CVAR" "uocn";
        ECall "ufsda.yamltools.genYAML"
              [VDict [("datadir", VStr "bump3d_uocn")];
               VStr "/com/out/analysis/soca_bump3d_C_uocn.yaml";
               VStr "/home/gfs/sorc/gdas.cd/parm/soca/berror/soca_bump_C_split.yaml"]].
Proof.
  split.
  - exact (proj1 (bump_dim_classification (quiet [] 0) "/home/gfs/sorc/gdas.cd"
                    "/com/out/analysis" "ssh" state0 _ _ (run_eta _))).
  - exact (proj1 (bump_dim_classification (quiet [] 0) "/home/gfs/sorc/gdas.cd"
                    "/com/out/analysis" "uocn" state0 _ _ (run_eta _))).
Defined.


Lemma bump_C_independent_witness :
  bumpC_documents (script permissive (mk_state cycle_env tt)).2
  = bumpC_documents
      (script permissive (mk_state (<[ "SOCA_VARS" := "ssh" ]> cycle_env) tt)).2.
Proof.
  assert (H1 : script permissive (mk_state cycle_env tt)
               = (inr tt, (script permissive (mk_state cycle_env tt)).1.2,
                  (script permissive (mk_state cycle_env tt)).2))
    by (vm_compute; reflexivity).
  assert (H2 : script permissive (mk_state (<[ "SOCA_VARS" := "ssh" ]> cycle_env) tt)
               = (inr tt,
                  (script permissive (mk_state (<[ "SOCA_VARS" := "ssh" ]> cycle_env) tt)).1.2,
                  (script permissive (mk_state (<[ "SOCA_VARS" := "ssh" ]> cycle_env) tt)).2))
    by (vm_compute; reflexivity).
  assert (H3 : environ (mk_state cycle_env tt) !! "HOMEgfs"
               = environ (mk_state (<[ "SOCA_VARS" := "ssh" ]> cycle_env) tt) !! "HOMEgfs")
    by (vm_compute; reflexivity).
  assert (H4 : environ (mk_state cycle_env tt) !! "COMOUT"
               = environ (mk_state (<[ "SOCA_VARS" := "ssh" ]> cycle_env) tt) !! "COMOUT")
    by (vm_compute; reflexivity).
  exact (proj1 (proj2 (bump_C_independent_of_SOCA_VARS permissive permissive
                         _ _ _ _ _ _ H1 H2 H3 H4))).
Defined.


(** ** The library functions at known values *)

Example basename_of_path :
  Path.basename "/com/ges/gdas.t00z.ocnf004.nc" = "gdas.t00z.ocnf004.nc".
Proof. reflexivity. Qed.

Example splitext_of_name :
  Path.splitext "gdas.t00z.ocnf004.nc" = ("gdas.t00z.ocnf004", ".nc").
Proof. reflexivity. Qed.

Example splitext_leading_dots : Path.splitext "..bashrc" = ("..bashrc", "").
Proof. reflexivity. Qed.

Example ocn_filename_without_nc :
  ocn_filename "/com/ges/gdas.t00z.ocnf004" = "gdas.t00z.nc".
Proof. reflexivity. Qed.

Example join_three : Path.join "/com" ["analysis"; "diags"] = "/com/analysis/diags".
Proof. reflexivity. Qed.

Example join_absolute : Path.join "/com/" ["analysis"; "/abs"; "x"] = "/abs/x".
Proof. reflexivity. Qed.

Example split_commas : Str.split ","%char "ssh,tocn,,socn" = ["ssh"; "tocn"; ""; "socn"].
Proof. reflexivity. Qed.

Example sort_names :
  sort ["gdas.t00z.ocnf006.nc"; "gdas.t00z.ocnf004.nc"; "gdas.t00z.ocnf005.nc"]
  = ["gdas.t00z.ocnf004.nc"; "gdas.t00z.ocnf005.nc"; "gdas.t00z.ocnf006.nc"].
Proof. vm_compute. reflexivity. Qed.

Example ordinal_round_trips :
  Datetime.ord2ymd (Datetime.ymd2ord 2022 3 28) = (2022, 3, 28)
  /\ Datetime.ord2ymd (Datetime.ymd2ord 2000 2 29) = (2000, 2, 29)
  /\ Datetime.ord2ymd (Datetime.ymd2ord 1900 3 1) = (1900, 3, 1)
  /\ Datetime.ord2ymd (Datetime.ymd2ord 2024 12 31) = (2024, 12, 31)
  /\ Datetime.ord2ymd 1 = (1, 1, 1)
  /\ Datetime.ord2ymd Datetime.MAXORDINAL = (9999, 12, 31)
  /\ Datetime.ymd2ord 9999 12 31 = Datetime.MAXORDINAL
  /\ Datetime.ymd2ord 2022 3 28 = 738242.
Proof. repeat split; reflexivity. Qed.

(** A year below 1000 is written without leading zeros. *)
Example strftime_of_year_999 :
  Datetime.strftime_iso (Datetime.of_fields 999 12 31 23 0 0) = "999-12-31T23:00:00Z"
  /\ Datetime.strftime_dashes (Datetime.of_fields 7 1 2 3 4 5) = "7-01-02-03-04-05"
  /\ Datetime.ymdhms (Datetime.of_fields 999 12 31 23 0 0) = [999; 12; 31; 23; 0; 0].
Proof. repeat split; vm_compute; reflexivity. Qed.

Example strftime_of_window :
  Datetime.strftime_iso (Datetime.of_fields 2022 3 28 1 0 0) = "2022-03-28T01:00:00Z"
  /\ Datetime.strftime_dashes (Datetime.of_fields 2022 12 31 23 59 58) = "2022-12-31-23-59-58"
  /\ Datetime.ymdhms (Datetime.of_fields 2022 3 28 3 0 0) = [2022; 3; 28; 3; 0; 0].
Proof. repeat split; reflexivity. Qed.

Example day_rolls_over :
  Datetime.strftime_iso <$> Datetime.add (Datetime.of_fields 2022 2 28 23 30 0) (Datetime.hours 1)
  = Some "2022-03-01T00:30:00Z".
Proof. reflexivity. Qed.

Example utf8_samples :
  Utf8.valid [104; 105] = true /\ Utf8.valid [195; 169] = true
  /\ Utf8.valid [226; 130; 172] = true /\ Utf8.valid [240; 159; 153; 130] = true
  /\ Utf8.valid [255] = false /\ Utf8.valid [192; 128] = false
  /\ Utf8.valid [237; 160; 128] = false /\ Utf8.valid [195] = false.
Proof. repeat split; reflexivity. Qed.

Example ch_job_text :
  ch_job "_FillValue" "Temp" "/com/ges/gdas.t00z.ocnf004.nc"
  = "ncatted -h -a _FillValue,Temp,o,d,9999.0 /com/ges/gdas.t00z.ocnf004.nc"
  /\ d_job "missing_value" "MLD" "/com/ges/gdas.t00z.ocnf004.nc"
     = "ncatted -h -a missing_value,MLD,d,d,1.0 /com/ges/gdas.t00z.ocnf004.nc".
Proof. split; reflexivity. Qed.

(** ** The calendar *)

Lemma days_before_year_split (a b c e : Z) :
  0 <= b <= 3 -> 0 <= c <= 24 -> 0 <= e <= 3 ->
  Datetime.days_before_year (400 * a + 100 * b + 4 * c + e + 1)
  = 146097 * a + 36524 * b + 1461 * c + 365 * e.
Proof.
  intros Hb Hc He. unfold Datetime.days_before_year.
  replace (400 * a + 100 * b + 4 * c + e + 1 - 1) with (400 * a + 100 * b + 4 * c + e) by lia.
  assert (H4 : (400 * a + 100 * b + 4 * c + e) / 4 = 100 * a + 25 * b + c).
  { symmetry. apply (Z.div_unique _ 4 _ e); lia. }
  assert (H100 : (400 * a + 100 * b + 4 * c + e) / 100 = 4 * a + b).
  { symmetry. apply (Z.div_unique _ 100 _ (4 * c + e)); lia. }
  assert (H400 : (400 * a + 100 * b + 4 * c + e) / 400 = a).
  { symmetry. apply (Z.div_unique _ 400 _ (100 * b + 4 * c + e)); lia. }
  rewrite H4, H100, H400. lia.
Qed.

Lemma is_leap_split (a b c e : Z) :
  0 <= b <= 3 -> 0 <= c <= 24 -> 0 <= e <= 3 ->
  Datetime.is_leap (400 * a + 100 * b + 4 * c + e + 1)
  = (e =? 3) && (negb (c =? 24) || (b =? 3)).
Proof.
  intros Hb Hc He. unfold Datetime.is_leap.
  assert (H4 : (400 * a + 100 * b + 4 * c + e + 1) mod 4 = (e + 1) mod 4).
  { replace (400 * a + 100 * b + 4 * c + e + 1) with ((e + 1) + (100 * a + 25 * b + c) * 4) by lia.
    apply Z.mod_add. lia. }
  assert (H100 : (400 * a + 100 * b + 4 * c + e + 1) mod 100 = (4 * c + e + 1) mod 100).
  { replace (400 * a + 100 * b + 4 * c + e + 1) with ((4 * c + e + 1) + (4 * a + b) * 100) by lia.
    apply Z.mod_add. lia. }
  assert (H400 : (400 * a + 100 * b + 4 * c + e + 1) mod 400 = (100 * b + 4 * c + e + 1) mod 400).
  { replace (400 * a + 100 * b + 4 * c + e + 1) with ((100 * b + 4 * c + e + 1) + a * 400) by lia.
    apply Z.mod_add. lia. }
  rewrite H4, H100, H400.
  destruct (Z.eqb_spec e 3) as [-> | He3].
  - replace ((3 + 1) mod 4) with 0 by reflexivity. simpl.
    destruct (Z.eqb_spec c 24) as [-> | Hc24].
    + replace ((4 * 24 + 3 + 1) mod 100) with 0 by reflexivity. simpl.
      destruct (Z.eqb_spec b 3) as [-> | Hb3]; [reflexivity |].
      assert (b = 0 \/ b = 1 \/ b = 2) as [-> | [-> | ->]] by lia; reflexivity.
    + simpl. rewrite Z.mod_small by lia.
      destruct (Z.eqb_spec (4 * c + 3 + 1) 0); [lia | reflexivity].
  - assert (e = 0 \/ e = 1 \/ e = 2) as [-> | [-> | ->]] by lia; reflexivity.
Qed.

Ltac eval_tables :=
  repeat match goal with
         | |- context [Datetime.table ?t ?k] =>
             let v := eval vm_compute in (Datetime.table t k) in
             change (Datetime.table t k) with v
         | |- context [(?a >? 2) && ?l] =>
             let v := eval vm_compute in ((a >? 2) && l) in
             change ((a >? 2) && l) with v
         | |- context [(?a =? 2) && ?l] =>
             let v := eval vm_compute in ((a =? 2) && l) in
             change ((a =? 2) && l) with v
         | H : context [Datetime.table ?t ?k] |- _ =>
             let v := eval vm_compute in (Datetime.table t k) in
             change (Datetime.table t k) with v in H
         | H : context [(?a >? 2) && ?l] |- _ =>
             let v := eval vm_compute in ((a >? 2) && l) in
             change ((a >? 2) && l) with v in H
         end.

(** The month and the day of the [r]-th day (from 0) of a year. *)
Lemma month_of_day (r : Z) (leap : bool) :
  0 <= r <= 364 ->
  let month := Z.shiftr (r + 50) 5 in
  let preceding :=
    Datetime.table Datetime.DAYS_BEFORE_MONTH month + (if (month >? 2) && leap then 1 else 0) in
  let md :=
    if preceding >? r then
      (month - 1,
       r - (preceding - (Datetime.table Datetime.DAYS_IN_MONTH (month - 1)
                         + (if (month - 1 =? 2) && leap then 1 else 0))) + 1)
    else (month, r - preceding + 1) in
  1 <= fst md <= 12
  /\ Datetime.table Datetime.DAYS_BEFORE_MONTH (fst md)
     + (if (fst md >? 2) && leap then 1 else 0) + snd md = r + 1
  /\ 1 <= snd md <= (if (fst md =? 2) && leap then 29
                     else Datetime.table Datetime.DAYS_IN_MONTH (fst md)).
Proof.
  intros Hr. rewrite Z.shiftr_div_pow2 by lia. change (2 ^ 5) with 32.
  pose proof (Z.div_mod (r + 50) 32 ltac:(lia)) as Hdm.
  pose proof (Z.mod_pos_bound (r + 50) 32 ltac:(lia)) as Hmod.
  set (m := (r + 50) / 32) in *. clearbody m.
  assert (m = 1 \/ m = 2 \/ m = 3 \/ m = 4 \/ m = 5 \/ m = 6 \/ m = 7 \/ m = 8
          \/ m = 9 \/ m = 10 \/ m = 11 \/ m = 12)
    as [-> | [-> | [-> | [-> | [-> | [-> | [-> | [-> | [-> | [-> | [-> | ->]]]]]]]]]]]
    by lia;
    destruct leap; cbv zeta;
    match goal with
    | |- context [?x >? r] => destruct (Z.gtb_spec x r)
    end;
    cbv beta iota delta [fst snd]; eval_tables; cbv iota in *; lia.
Qed.

(** Every ordinal is the ordinal of the date [_ord2ymd] gives for it. *)
Lemma ord2ymd_ymd2ord (n : Z) :
  1 <= n ->
  Datetime.ymd2ord (Datetime.ord2ymd n).1.1 (Datetime.ord2ymd n).1.2 (Datetime.ord2ymd n).2 = n
  /\ 1 <= (Datetime.ord2ymd n).1.2 <= 12
  /\ 1 <= (Datetime.ord2ymd n).2
     <= Datetime.days_in_month (Datetime.ord2ymd n).1.1 (Datetime.ord2ymd n).1.2.
Proof.
  intros Hn. unfold Datetime.ord2ymd.
  change Datetime.DI400Y with 146097. change Datetime.DI100Y with 36524.
  change Datetime.DI4Y with 1461. cbv zeta.
  pose proof (Z.div_mod (n - 1) 146097 ltac:(lia)) as E1.
  pose proof (Z.mod_pos_bound (n - 1) 146097 ltac:(lia)) as B1.
  set (a := (n - 1) / 146097) in *. set (r1 := (n - 1) mod 146097) in *.
  pose proof (Z.div_mod r1 36524 ltac:(lia)) as E2.
  pose proof (Z.mod_pos_bound r1 36524 ltac:(lia)) as B2.
  set (b := r1 / 36524) in *. set (r2 := r1 mod 36524) in *.
  pose proof (Z.div_mod r2 1461 ltac:(lia)) as E3.
  pose proof (Z.mod_pos_bound r2 1461 ltac:(lia)) as B3.
  set (c := r2 / 1461) in *. set (r3 := r2 mod 1461) in *.
  pose proof (Z.div_mod r3 365 ltac:(lia)) as E4.
  pose proof (Z.mod_pos_bound r3 365 ltac:(lia)) as B4.
  set (e := r3 / 365) in *. set (r4 := r3 mod 365) in *.
  clearbody a r1 b r2 c r3 e r4.
  assert (Hb : 0 <= b <= 4) by lia. assert (Hc : 0 <= c <= 24) by lia.
  assert (He : 0 <= e <= 4) by lia.
  unfold Datetime.ymd2ord, Datetime.days_before_month, Datetime.days_in_month.
  destruct (Z.eqb_spec e 4) as [-> | He4]; [| destruct (Z.eqb_spec b 4) as [-> | Hb4]];
    rewrite ?Bool.orb_true_l, ?Bool.orb_false_l; cbv beta iota delta [fst snd].
  - (* the last day of a leap year that is not the end of a century *)
    assert (Hb3 : b <= 3) by lia. assert (Hc23 : c <= 23) by lia.
    replace (a * 400 + 1 + b * 100 + c * 4 + 4 - 1)
      with (400 * a + 100 * b + 4 * c + 3 + 1) by lia.
    rewrite days_before_year_split, is_leap_split by lia.
    destruct (Z.eqb_spec c 24); [lia |]. eval_tables. cbv iota. lia.
  - (* the last day of a cycle of 400 years *)
    replace (a * 400 + 1 + 4 * 100 + c * 4 + e - 1)
      with (400 * a + 100 * 3 + 4 * 24 + 3 + 1) by lia.
    rewrite days_before_year_split, is_leap_split by lia.
    eval_tables. cbv iota. lia.
  - replace (a * 400 + 1 + b * 100 + c * 4 + e) with (400 * a + 100 * b + 4 * c + e + 1)
      by lia.
    pose proof (is_leap_split a b c e ltac:(lia) ltac:(lia) ltac:(lia)) as Hleap.
    pose proof (days_before_year_split a b c e ltac:(lia) ltac:(lia) ltac:(lia)) as Hdby.
    pose proof (month_of_day r4 ((e =? 3) && (negb (c =? 24) || (b =? 3))) ltac:(lia))
      as Hmd.
    cbv zeta in Hmd. rewrite <- Hleap in *.
    set (year := 400 * a + 100 * b + 4 * c + e + 1) in *.
    match type of Hmd with
    | context [if ?t then _ else _] =>
        match t with
        | _ >? r4 => destruct t
        end
    end; cbv beta iota delta [fst snd] in *; lia.
Qed.

(** * The whole run *)

(** ** Properties of traces that hold however a statement ends *)

Lemma actions_app (a b : list event) : actions (a ++ b) = actions a ++ actions b.
Proof. apply flat_map_app. Qed.

Lemma actions_job_events (cs : list string) : actions (flat_map job_events cs) = [].
Proof. induction cs as [|c cs IH]; simpl; [done |]. exact IH. Qed.

#[global] Instance inert_closed : Closed inert.
Proof.
  split; [done |]. unfold inert. intros a b Ha Hb. by rewrite actions_app, Ha, Hb.
Qed.

#[global] Instance spares_closed F : Closed (spares F).
Proof.
  split.
  - intros c _. simpl. apply not_elem_of_nil.
  - intros a b Ha Hb c Hc. rewrite actions_app, elem_of_app.
    intros [H | H]; [by apply (Ha c) | by apply (Hb c)].
Qed.

#[global] Instance only_logs_closed : Closed only_logs.
Proof.
  split.
  - intros e He. by apply elem_of_nil in He.
  - intros a b Ha Hb e [He | He]%elem_of_app; auto.
Qed.

#[global] Instance rounds_closed : Closed rounds.
Proof.
  split.
  - by exists [].
  - intros a b [ca ->] [cb ->]. exists (ca ++ cb). by rewrite flat_map_app.
Qed.

#[global] Instance dumpless_closed : Closed dumpless.
Proof.
  split; [done |]. unfold dumpless. intros a b Ha Hb. by rewrite dumps_app, Ha, Hb.
Qed.

Section Always.
Context {W : Type} (C : collaborators W) (P : list event -> Prop) `{!Closed P}.

Lemma always_bind {A B} (m : M W A) (k : A -> M W B) :
  always P m -> (forall a, always P (k a)) -> always P (bind m k).
Proof.
  intros Hm Hk s.
  apply bind_trace; [apply closed_nil | apply closed_app | apply Hm |].
  intros a s1. apply Hk.
Qed.

(** A statement that emits nothing. *)
Lemma always_mute {A} (m : M W A) : (forall s, snd (m s) = []) -> always P m.
Proof. intros H s. rewrite H. apply closed_nil. Qed.

Lemma always_ret {A} (a : A) : always P (@ret W A a).
Proof. by apply always_mute. Qed.

Lemma always_raise {A} e : always P (@raise W A e).
Proof. by apply always_mute. Qed.

Lemma always_os_getenv k : always P (@os_getenv W k).
Proof. by apply always_mute. Qed.

Lemma always_logging_info msg : P [ELog msg] -> always P (@logging_info W msg).
Proof. intros H s. exact H. Qed.

Lemma always_environ_set k x : (forall y, P [ESetenv k y]) -> always P (@environ_set W k x).
Proof.
  intros H s. unfold environ_set.
  destruct x as [| | | y | | | |]; try apply closed_nil.
  destruct (Str.has_char zero y); [apply closed_nil | apply H].
Qed.

Lemma always_call callee args : P [ECall callee args] -> always P (call C callee args).
Proof.
  intros H s. unfold call.
  by destruct (call_ext C callee args (environ s) (world s)) as [r w].
Qed.

Lemma always_getitem obj key :
  P [ECall "__getitem__" [obj; VStr key]] -> always P (getitem C obj key).
Proof. apply always_call. Qed.

Lemma always_setitem obj key x :
  P [ECall "__setitem__" [obj; VStr key; x]] -> always P (setitem C obj key x).
Proof.
  intros H. apply always_bind; [by apply always_call | intros; apply always_ret].
Qed.

Lemma always_fspath x : always P (@fspath W x).
Proof. apply always_mute. by destruct x. Qed.

Lemma always_fspaths l : always P (@fspaths W l).
Proof.
  induction l as [|x l IH]; simpl; [apply always_ret |].
  apply always_bind; [apply always_fspath | intros y].
  apply always_bind; [apply IH | intros; apply always_ret].
Qed.

Lemma always_os_path_join a p : always P (@os_path_join W a p).
Proof.
  apply always_bind; [apply always_fspath | intros x].
  apply always_bind; [apply always_fspaths | intros; apply always_ret].
Qed.

Lemma always_str_operand x : always P (@str_operand W x).
Proof. apply always_mute. by destruct x. Qed.

Lemma always_py_int x : always P (py_int C x).
Proof.
  apply always_mute. intros s. destruct x as [| | | y | | | |]; try done.
  simpl. by destruct (int_of_str C y).
Qed.

Lemma always_strptime x : always P (strptime C x).
Proof.
  apply always_mute. intros s. destruct x as [| | | y | | | |]; try done.
  simpl. by destruct (strptime_YmdH C y).
Qed.

Lemma always_half_hours n : always P (@half_hours W n).
Proof.
  apply always_mute. intros s. unfold half_hours.
  by destruct (Datetime.timedelta_in_range _).
Qed.

Lemma always_add_timedelta x d : always P (@add_timedelta W x d).
Proof. apply always_mute. intros s. apply add_timedelta_silent. Qed.

Lemma always_add_vals a b : always P (@add_vals W a b).
Proof. apply always_mute. intros s. by destruct a, b. Qed.

Lemma always_get_soca_vars : always P (@get_soca_vars W).
Proof.
  apply always_bind; [apply always_os_getenv | intros v].
  destruct v; first [apply always_ret | apply always_raise].
Qed.

Lemma always_for_each {A} (l : list A) (body : A -> M W unit) :
  (forall x, always P (body x)) -> always P (for_each l body).
Proof.
  intros Hbody. induction l as [|x l IH]; simpl; [apply always_ret |].
  apply always_bind; [apply Hbody | intros; apply IH].
Qed.

Lemma always_gen_bkg_list window_begin bkg_path file_type yaml_name :
  (forall c, P (job_events c)) -> (forall file doc, P [EDump file doc]) ->
  always P (gen_bkg_list C window_begin bkg_path file_type yaml_name).
Proof.
  intros Hjob Hdump s.
  apply gen_bkg_list_trace; [apply closed_nil | apply closed_app | done | done].
Qed.

(** A statement that always raises cuts off what follows it. *)
Lemma always_bind_doomed {A B} (m : M W A) (k : A -> M W B) :
  doomed m -> always P m -> always P (bind m k).
Proof.
  intros Hd Hm s. destruct (Hd s) as (e & s1 & t1 & He).
  rewrite (bind_inl _ _ _ _ _ _ He). specialize (Hm s). by rewrite He in Hm.
Qed.

End Always.

Ltac closed :=
  lazymatch goal with
  | |- Closed _ => apply _
  end.

(** Walks down a statement; [tac] settles what [P] asks of one event. *)
Ltac steady tac :=
  lazymatch goal with
  | |- always _ (bind _ _) =>
      apply always_bind; [closed | steady tac | intros ?; steady tac]
  | |- always _ (for_each _ _) =>
      apply always_for_each; [closed | intros ?; steady tac]
  | |- always _ (gen_bkg_list _ _ _ _ _) =>
      apply always_gen_bkg_list; [closed | intros ?; solve [tac] | intros ? ?; solve [tac]]
  | |- always _ (logging_info _) => apply always_logging_info; solve [tac]
  | |- always _ (environ_set _ _) =>
      apply always_environ_set; [closed | intros ?; solve [tac]]
  | |- always _ (getitem _ _ _) => apply always_getitem; solve [tac]
  | |- always _ (setitem _ _ _ _) => apply always_setitem; [closed | solve [tac]]
  | |- always _ (call _ _ _) => apply always_call; solve [tac]
  | |- always _ _ =>
      first
        [ apply always_ret | apply always_raise | apply always_os_getenv
        | apply always_os_path_join | apply always_py_int | apply always_strptime
        | apply always_half_hours | apply always_add_timedelta | apply always_add_vals
        | apply always_get_soca_vars | apply always_str_operand ];
      closed
  end.

(** ** The order of the actions *)

Section Performs.
Context {W : Type} (C : collaborators W).

Lemma performs_bind {A B} (m : M W A) (k : A -> M W B) l1 l2 :
  performs m l1 -> (forall a, performs (k a) l2) -> performs (bind m k) (l1 ++ l2).
Proof.
  intros Hm Hk s. unfold bind. destruct (Hm s) as [Hp He].
  destruct (m s) as [[[e | a] s1] t1]; simpl in *.
  - split; [by apply prefix_app_r | done].
  - specialize (He a eq_refl). destruct (Hk a s1) as [Hp2 He2].
    destruct (k a s1) as [[r s2] t2]; simpl in *.
    rewrite actions_app, He. split; [by apply prefix_app |].
    intros b Hb. by rewrite (He2 b Hb).
Qed.

Lemma performs_inert {A} (m : M W A) : always inert m -> performs m [].
Proof. intros H s. split; [rewrite (H s); apply prefix_nil | intros; apply H]. Qed.

Lemma performs_call callee args : performs (call C callee args) [Request callee].
Proof.
  intros s. unfold call.
  by destruct (call_ext C callee args (environ s) (world s)) as [r w].
Qed.

Lemma performs_getitem obj key : performs (getitem C obj key) [Request "__getitem__"].
Proof. apply performs_call. Qed.

Lemma performs_setitem obj key x : performs (setitem C obj key x) [Request "__setitem__"].
Proof.
  apply (performs_bind _ _ [Request "__setitem__"] []); [apply performs_call |].
  intros a. apply performs_inert, always_ret; apply _.
Qed.

Lemma performs_environ_set k x : performs (@environ_set W k x) [Export k].
Proof.
  intros s. unfold environ_set.
  destruct x as [| | | y | | | |]; try (split; [apply prefix_nil | done]).
  destruct (Str.has_char zero y); simpl; [split; [apply prefix_nil | done] | done].
Qed.

Lemma performs_for_each {A} (l : list A) (body : A -> M W unit) (g : A -> list action) :
  (forall x, performs (body x) (g x)) -> performs (for_each l body) (flat_map g l).
Proof.
  intros Hbody. induction l as [|x l IH]; simpl.
  - apply performs_inert, always_ret; apply _.
  - apply performs_bind; [apply Hbody | intros; apply IH].
Qed.

(** [gen_bkg_list] writes its document last, and only when nothing raised. *)
Lemma gen_bkg_list_dump window_begin bkg_path file_type yaml_name s r s' tr :
  gen_bkg_list C window_begin bkg_path file_type yaml_name s = (r, s', tr) ->
  exists cs, match r with
             | inl _ => tr = flat_map job_events cs
             | inr _ => exists doc, tr = flat_map job_events cs ++ [EDump yaml_name doc]
             end.
Proof.
  unfold gen_bkg_list.
  destruct bkg_path as [| | | path | | | |];
    try (intros [= <- _ <-]; by exists []).
  simpl str_operand. rewrite bind_ret_l. unfold bind. cbv beta iota.
  set (files := sort (glob_glob C (path +:+ "/*" +:+ file_type +:+ "*") (world s))).
  assert (Hrounds : always rounds (fix_diag C files)).
  { unfold fix_diag.
    apply always_for_each; [apply _ |]. intros v.
    apply always_for_each; [apply _ |]. intros att.
    apply always_bind; [apply _ | | intros _];
      (apply always_for_each; [apply _ |]; intros c s0; rewrite run_job_eq; by exists [c]). }
  specialize (Hrounds s).
  destruct (fix_diag C files s) as [[[e | u] s1] t1]; simpl in Hrounds;
    destruct Hrounds as [cs ->].
  { intros [= <- _ <-]. by exists cs. }
  pose proof (add_timedelta_silent window_begin (Datetime.hours 1) s1) as Hadd.
  destruct (add_timedelta window_begin (Datetime.hours 1) s1) as [[[e | d] s2] t2];
    simpl in Hadd; subst t2.
  { intros [= <- _ <-]. exists cs. by rewrite app_nil_r. }
  pose proof (bkg_loop_silent path files (d, []) s2) as Hloop.
  destruct (for_fold files (bkg_step path) (d, []) s2) as [[[e | acc] s3] t3];
    simpl in Hloop; subst t3.
  { intros [= <- _ <-]. exists cs. by rewrite !app_nil_r. }
  unfold open_dump.
  destruct (open_w C yaml_name (world s3)) as [[e |] w]; intros [= <- _ <-]; exists cs.
  - by rewrite !app_nil_r.
  - eauto.
Qed.

Lemma performs_gen_bkg_list window_begin bkg_path file_type yaml_name :
  performs (gen_bkg_list C window_begin bkg_path file_type yaml_name) [Dump yaml_name].
Proof.
  intros s.
  destruct (gen_bkg_list C window_begin bkg_path file_type yaml_name s)
    as [[r s1] t1] eqn:Hrun.
  apply gen_bkg_list_dump in Hrun as [cs Hcs]. simpl.
  destruct r as [e | []].
  - rewrite Hcs, actions_job_events. split; [apply prefix_nil | done].
  - destruct Hcs as [doc ->]. rewrite actions_app, actions_job_events. done.
Qed.

Lemma performs_eq {A} (m : M W A) l l' : performs m l -> l = l' -> performs m l'.
Proof. by intros H <-. Qed.

End Performs.

(** Walks down a statement and collects its actions. *)
Ltac perform :=
  lazymatch goal with
  | |- performs (bind _ _) _ => eapply performs_bind; [perform | intros ?; perform]
  | |- performs (getitem _ _ _) _ => apply performs_getitem
  | |- performs (setitem _ _ _ _) _ => apply performs_setitem
  | |- performs (call _ _ _) _ => apply performs_call
  | |- performs (environ_set _ _) _ => apply performs_environ_set
  | |- performs (gen_bkg_list _ _ _ _ _) _ => apply performs_gen_bkg_list
  | |- performs _ _ => apply performs_inert; steady ltac:(reflexivity)
  end.

Section Protocol.
Context {W : Type} (C : collaborators W).

Lemma performs_get_gdas_home : performs (get_gdas_home (W := W)) [].
Proof. apply performs_inert. unfold get_gdas_home. steady ltac:(reflexivity). Qed.

Lemma performs_setup_runtime : performs (setup_runtime C) setup_runtime_actions.
Proof. unfold setup_runtime. cbv zeta. eapply performs_eq; [perform | reflexivity]. Qed.

Lemma performs_stage_observations gdas_home comin_obs diags :
  performs (stage_observations C gdas_home comin_obs diags) stage_observations_actions.
Proof. unfold stage_observations. cbv zeta. eapply performs_eq; [perform | reflexivity]. Qed.

Lemma performs_stage_backgrounds stage_cfg :
  performs (stage_backgrounds C stage_cfg) stage_backgrounds_actions.
Proof. unfold stage_backgrounds. cbv zeta. eapply performs_eq; [perform | reflexivity]. Qed.

Lemma performs_prepare_yamls gdas_home anl_dir stage_cfg :
  performs (prepare_yamls C gdas_home anl_dir stage_cfg) prepare_yamls_actions.
Proof. unfold prepare_yamls. cbv zeta. eapply performs_eq; [perform | reflexivity]. Qed.

Lemma performs_bumpC_body gdas_home anl_dir v :
  performs (bumpC_body C gdas_home anl_dir v) bumpC_body_actions.
Proof. unfold bumpC_body. cbv zeta. eapply performs_eq; [perform | reflexivity]. Qed.

Lemma performs_bump_C soca_vars gdas_home anl_dir :
  performs (bump_C C soca_vars gdas_home anl_dir) bump_C_actions.
Proof.
  unfold bump_C.
  apply (performs_bind _ _ [] bump_C_actions).
  - apply performs_inert. steady ltac:(reflexivity).
  - intros _. apply performs_for_each. intros v. apply performs_bumpC_body.
Qed.

Lemma performs_variational_yaml gdas_home anl_dir :
  performs (variational_yaml C gdas_home anl_dir) variational_yaml_actions.
Proof. unfold variational_yaml. cbv zeta. eapply performs_eq; [perform | reflexivity]. Qed.

Lemma performs_link_restart comout stage_cfg window_begin :
  performs (link_restart C comout stage_cfg window_begin) link_restart_actions.
Proof. unfold link_restart. cbv zeta. eapply performs_eq; [perform | reflexivity]. Qed.

Lemma performs_prepare_input_nml gdas_home stage_cfg window_begin :
  performs (prepare_input_nml C gdas_home stage_cfg window_begin) prepare_input_nml_actions.
Proof. unfold prepare_input_nml. cbv zeta. eapply performs_eq; [perform | reflexivity]. Qed.

Lemma performs_script : performs (script C) script_actions.
Proof.
  unfold script. eapply performs_eq.
  { eapply performs_bind; [apply performs_get_gdas_home | intros gdas_home].
    eapply performs_bind; [apply performs_setup_runtime |].
    intros [[[comout comin_obs] anl_dir] diags].
    eapply performs_bind; [apply performs_stage_observations | intros stage_cfg].
    eapply performs_bind; [apply performs_stage_backgrounds | intros _].
    eapply performs_bind; [apply performs_prepare_yamls | intros soca_vars].
    eapply performs_bind; [apply performs_bump_C | intros _].
    eapply performs_bind; [apply performs_variational_yaml | intros window_begin].
    eapply performs_bind; [apply performs_link_restart | intros _].
    apply performs_prepare_input_nml. }
  reflexivity.
Qed.

End Protocol.

(** X1: every run of the script goes through one fixed sequence of requests
    to collaborators, assignments to [os.environ] and document writes: a run
    that raises has done a prefix of [script_actions], a run that reaches
    its end has done all of it, whatever the environment holds and the
    collaborators answer. *)
Theorem script_follows_one_sequence {W} (C : collaborators W) (s : state W) :
  actions (snd (script C s)) `prefix_of` script_actions
  /\ (fst (fst (script C s)) = inr tt -> actions (snd (script C s)) = script_actions).
Proof.
  destruct (performs_script C s) as [Hp He]. split; [done |]. apply He.
Qed.

(** ** What the run does to [os.environ] *)

Section Fixed.
Context {W : Type} (C : collaborators W).

Lemma fixed_bind {A B} (m : M W A) (k : A -> M W B) :
  fixed m -> (forall a, fixed (k a)) -> fixed (bind m k).
Proof.
  intros Hm Hk s. unfold bind. specialize (Hm s).
  destruct (m s) as [[[e | a] s1] t1]; simpl in *; [done |].
  specialize (Hk a s1). destruct (k a s1) as [[r s2] t2]. simpl in *. congruence.
Qed.

(** A statement that hands the state on. *)
Lemma fixed_same {A} (m : M W A) : (forall s, snd (fst (m s)) = s) -> fixed m.
Proof. intros H s. by rewrite H. Qed.

Lemma fixed_ret {A} (a : A) : fixed (@ret W A a).
Proof. by apply fixed_same. Qed.

Lemma fixed_raise {A} e : fixed (@raise W A e).
Proof. by apply fixed_same. Qed.

Lemma fixed_logging_info msg : fixed (@logging_info W msg).
Proof. by apply fixed_same. Qed.

Lemma fixed_os_getenv k : fixed (@os_getenv W k).
Proof. by apply fixed_same. Qed.

Lemma fixed_call callee args : fixed (call C callee args).
Proof.
  intros s. unfold call.
  by destruct (call_ext C callee args (environ s) (world s)) as [r w].
Qed.

Lemma fixed_getitem obj key : fixed (getitem C obj key).
Proof. apply fixed_call. Qed.

Lemma fixed_setitem obj key x : fixed (setitem C obj key x).
Proof. apply fixed_bind; [apply fixed_call | intros; apply fixed_ret]. Qed.

Lemma fixed_fspath x : fixed (@fspath W x).
Proof. apply fixed_same. by destruct x. Qed.

Lemma fixed_fspaths l : fixed (@fspaths W l).
Proof.
  induction l as [|x l IH]; simpl; [apply fixed_ret |].
  apply fixed_bind; [apply fixed_fspath | intros y].
  apply fixed_bind; [apply IH | intros; apply fixed_ret].
Qed.

Lemma fixed_os_path_join a p : fixed (@os_path_join W a p).
Proof.
  apply fixed_bind; [apply fixed_fspath | intros x].
  apply fixed_bind; [apply fixed_fspaths | intros; apply fixed_ret].
Qed.

Lemma fixed_str_operand x : fixed (@str_operand W x).
Proof. apply fixed_same. by destruct x. Qed.

Lemma fixed_py_int x : fixed (py_int C x).
Proof.
  apply fixed_same. intros s. destruct x as [| | | y | | | |]; try done.
  simpl. by destruct (int_of_str C y).
Qed.

Lemma fixed_strptime x : fixed (strptime C x).
Proof.
  apply fixed_same. intros s. destruct x as [| | | y | | | |]; try done.
  simpl. by destruct (strptime_YmdH C y).
Qed.

Lemma fixed_half_hours n : fixed (@half_hours W n).
Proof.
  apply fixed_same. intros s. unfold half_hours.
  by destruct (Datetime.timedelta_in_range _).
Qed.

Lemma fixed_add_timedelta x d : fixed (@add_timedelta W x d).
Proof.
  apply fixed_same. intros s. destruct x as [| | | | t | | |]; try done.
  simpl. by destruct (Datetime.add t d).
Qed.

Lemma fixed_add_vals a b : fixed (@add_vals W a b).
Proof. apply fixed_same. intros s. by destruct a, b. Qed.

Lemma fixed_get_soca_vars : fixed (@get_soca_vars W).
Proof.
  apply fixed_bind; [apply fixed_os_getenv | intros v].
  destruct v; first [apply fixed_ret | apply fixed_raise].
Qed.

Lemma fixed_for_each {A} (l : list A) (body : A -> M W unit) :
  (forall x, fixed (body x)) -> fixed (for_each l body).
Proof.
  intros Hbody. induction l as [|x l IH]; simpl; [apply fixed_ret |].
  apply fixed_bind; [apply Hbody | intros; apply IH].
Qed.

Lemma fixed_for_fold {A S} (l : list A) (body : S -> A -> M W S) acc :
  (forall a x, fixed (body a x)) -> fixed (for_fold l body acc).
Proof.
  intros Hbody. revert acc. induction l as [|x l IH]; intros acc; cbn [for_fold];
    [apply fixed_ret |].
  apply fixed_bind; [apply Hbody | intros; apply IH].
Qed.

Lemma fixed_run_job c : fixed (run_job C c).
Proof. intros s. by rewrite run_job_eq. Qed.

Lemma fixed_fix_diag files : fixed (fix_diag C files).
Proof.
  unfold fix_diag. apply fixed_for_each. intros v. apply fixed_for_each. intros att.
  apply fixed_bind; [| intros _]; apply fixed_for_each, fixed_run_job.
Qed.

(** [gen_bkg_list] does not assign to [os.environ], however it ends. *)
Lemma fixed_gen_bkg_list window_begin bkg_path file_type yaml_name :
  fixed (gen_bkg_list C window_begin bkg_path file_type yaml_name).
Proof.
  unfold gen_bkg_list.
  apply fixed_bind; [apply fixed_str_operand | intros path].
  apply fixed_bind; [by apply fixed_same | intros files].
  apply fixed_bind; [apply fixed_fix_diag | intros _].
  apply fixed_bind; [apply fixed_add_timedelta | intros d].
  apply fixed_bind; [| intros acc s; unfold open_dump;
                        by destruct (open_w C yaml_name (world s)) as [[e |] w]].
  apply fixed_for_fold. intros [t acc] bkg s. rewrite bkg_step_eq.
  by destruct (Datetime.add t (Datetime.hours 1)).
Qed.

Lemma untouched_fixed {A} v (m : M W A) : fixed m -> untouched v m.
Proof. intros H s. by rewrite H. Qed.

Lemma untouched_bind {A B} v (m : M W A) (k : A -> M W B) :
  untouched v m -> (forall a, untouched v (k a)) -> untouched v (bind m k).
Proof.
  intros Hm Hk s. unfold bind. specialize (Hm s).
  destruct (m s) as [[[e | a] s1] t1]; simpl in *; [done |].
  specialize (Hk a s1). destruct (k a s1) as [[r s2] t2]. simpl in *. congruence.
Qed.

Lemma untouched_environ_set v k x : k <> v -> untouched v (@environ_set W k x).
Proof.
  intros Hk s. unfold environ_set.
  destruct x as [| | | y | | | |]; try done.
  destruct (Str.has_char zero y); [done |]. simpl. by rewrite lookup_insert_ne.
Qed.

Lemma untouched_for_each {A} v (l : list A) (body : A -> M W unit) :
  (forall x, untouched v (body x)) -> untouched v (for_each l body).
Proof.
  intros Hbody. induction l as [|x l IH]; simpl; [apply untouched_fixed, fixed_ret |].
  apply untouched_bind; [apply Hbody | intros; apply IH].
Qed.

Lemma leaves_bind_later {A B} v x (m : M W A) (k : A -> M W B) :
  (forall a, leaves v x (k a)) -> leaves v x (bind m k).
Proof.
  intros Hk s b s2 t (a & s1 & t1 & t2 & H1 & H2 & ->)%bind_ok_inv.
  eapply Hk, H2.
Qed.

Lemma leaves_bind_now {A B} v x (m : M W A) (k : A -> M W B) :
  leaves v x m -> (forall a, untouched v (k a)) -> leaves v x (bind m k).
Proof.
  intros Hm Hk s b s2 t (a & s1 & t1 & t2 & H1 & H2 & ->)%bind_ok_inv.
  specialize (Hk a s1). rewrite H2 in Hk. simpl in Hk. rewrite Hk.
  eapply Hm, H1.
Qed.

Lemma leaves_environ_set v x : leaves v x (@environ_set W v (VStr x)).
Proof.
  intros s a s1 t. unfold environ_set.
  destruct (Str.has_char zero x); [done |].
  intros [= _ <- _]. simpl. apply lookup_insert_eq.
Qed.

End Fixed.

(** Settles a statement that does not assign to [os.environ]. *)
Ltac settle :=
  first
    [ apply fixed_ret | apply fixed_raise | apply fixed_logging_info
    | apply fixed_os_getenv | apply fixed_getitem | apply fixed_setitem
    | apply fixed_call | apply fixed_os_path_join | apply fixed_py_int
    | apply fixed_strptime | apply fixed_half_hours | apply fixed_add_timedelta
    | apply fixed_add_vals | apply fixed_get_soca_vars | apply fixed_gen_bkg_list ].

(** Walks down a statement that assigns to other variables only. *)
Ltac still :=
  lazymatch goal with
  | |- untouched _ (bind _ _) => apply untouched_bind; [still | intros ?; still]
  | |- untouched _ (environ_set _ _) => apply untouched_environ_set; congruence
  | |- untouched _ (for_each _ _) => apply untouched_for_each; intros ?; still
  | |- untouched _ _ => apply untouched_fixed; settle
  end.

Section Footprint.
Context {W : Type} (C : collaborators W).

Lemma untouched_get_gdas_home v : untouched v (get_gdas_home (W := W)).
Proof. unfold get_gdas_home. still. Qed.

Lemma untouched_setup_runtime v : untouched v (setup_runtime C).
Proof. unfold setup_runtime. still. Qed.

Lemma untouched_stage_observations v gdas_home comin_obs diags :
  v <> "OBS_DATE" -> v <> "OBS_DIR" -> v <> "OBS_PREFIX" -> v <> "DIAG_DIR" ->
  untouched v (stage_observations C gdas_home comin_obs diags).
Proof. intros H1 H2 H3 H4. unfold stage_observations. cbv zeta. still. Qed.

Lemma untouched_stage_backgrounds v stage_cfg :
  untouched v (stage_backgrounds C stage_cfg).
Proof. unfold stage_backgrounds. still. Qed.

Lemma untouched_prepare_yamls v gdas_home anl_dir stage_cfg :
  untouched v (prepare_yamls C gdas_home anl_dir stage_cfg).
Proof. unfold prepare_yamls. cbv zeta. still. Qed.

Lemma untouched_bump_C v soca_vars gdas_home anl_dir :
  v <> "CVAR" -> untouched v (bump_C C soca_vars gdas_home anl_dir).
Proof. intros Hv. unfold bump_C, bumpC_body. cbv zeta. still. Qed.

Lemma untouched_variational_yaml v gdas_home anl_dir :
  untouched v (variational_yaml C gdas_home anl_dir).
Proof. unfold variational_yaml. cbv zeta. still. Qed.

Lemma untouched_link_restart v comout stage_cfg window_begin :
  untouched v (link_restart C comout stage_cfg window_begin).
Proof. unfold link_restart. cbv zeta. still. Qed.

Lemma untouched_prepare_input_nml v gdas_home stage_cfg window_begin :
  untouched v (prepare_input_nml C gdas_home stage_cfg window_begin).
Proof. unfold prepare_input_nml. cbv zeta. still. Qed.

(** What follows the bump C loop. *)
Lemma untouched_after_bump_C v gdas_home anl_dir comout stage_cfg :
  untouched v (window_begin <- variational_yaml C gdas_home anl_dir ;
               link_restart C comout stage_cfg window_begin ;;
               prepare_input_nml C gdas_home stage_cfg window_begin).
Proof.
  apply untouched_bind; [apply untouched_variational_yaml | intros window_begin].
  apply untouched_bind; [apply untouched_link_restart | intros _].
  apply untouched_prepare_input_nml.
Qed.

Lemma untouched_script v :
  v ∉ ["OBS_DATE"; "OBS_DIR"; "OBS_PREFIX"; "DIAG_DIR"; "CVAR"] ->
  untouched v (script C).
Proof.
  rewrite !not_elem_of_cons. intros (H1 & H2 & H3 & H4 & H5 & _). unfold script.
  apply untouched_bind; [apply untouched_get_gdas_home | intros gdas_home].
  apply untouched_bind; [apply untouched_setup_runtime |].
  intros [[[comout comin_obs] anl_dir] diags].
  apply untouched_bind; [by apply untouched_stage_observations | intros stage_cfg].
  apply untouched_bind; [apply untouched_stage_backgrounds | intros _].
  apply untouched_bind; [apply untouched_prepare_yamls | intros soca_vars].
  apply untouched_bind; [by apply untouched_bump_C | intros _].
  apply untouched_after_bump_C.
Qed.

(** The loop leaves [CVAR] at the last of [vars]. *)
Lemma leaves_bump_C soca_vars gdas_home anl_dir :
  leaves "CVAR" "socn" (bump_C C soca_vars gdas_home anl_dir).
Proof.
  unfold bump_C, vars. cbn [for_each].
  do 3 (apply leaves_bind_later; intros _).
  apply leaves_bind_now; [| intros _; apply untouched_fixed, fixed_ret].
  unfold bumpC_body. cbv zeta.
  apply leaves_bind_later; intros _.
  apply leaves_bind_now; [apply leaves_environ_set | intros _; still].
Qed.

Lemma leaves_stage_observations gdas_home comin_obs diags :
  leaves "DIAG_DIR" diags (stage_observations C gdas_home comin_obs diags).
Proof.
  unfold stage_observations. cbv zeta.
  do 9 (apply leaves_bind_later; intros ?).
  apply leaves_bind_now; [apply leaves_environ_set | intros _; still].
Qed.

Lemma call_ok_trace callee args (s s1 : state W) a tr :
  call C callee args s = (inr a, s1, tr) -> tr = [ECall callee args].
Proof.
  unfold call. destruct (call_ext C callee args (environ s) (world s)) as [r w].
  by intros [= _ _ <-].
Qed.

(** What follows [setup_runtime] leaves [DIAG_DIR] at [diags]. *)
Lemma leaves_after_setup_runtime gdas_home comout comin_obs anl_dir diags :
  leaves "DIAG_DIR" diags
    (stage_cfg <- stage_observations C gdas_home comin_obs diags ;
     stage_backgrounds C stage_cfg ;;
     soca_vars <- prepare_yamls C gdas_home anl_dir stage_cfg ;
     bump_C C soca_vars gdas_home anl_dir ;;
     window_begin <- variational_yaml C gdas_home anl_dir ;
     link_restart C comout stage_cfg window_begin ;;
     prepare_input_nml C gdas_home stage_cfg window_begin).
Proof.
  apply leaves_bind_now; [apply leaves_stage_observations | intros stage_cfg].
  apply untouched_bind; [apply untouched_stage_backgrounds | intros _].
  apply untouched_bind; [apply untouched_prepare_yamls | intros soca_vars].
  apply untouched_bind; [by apply untouched_bump_C | intros _].
  apply untouched_after_bump_C.
Qed.

(** A completed [setup_runtime]: [COMOUT] is set and [diags] is under it. *)
Lemma setup_runtime_diags (s s1 : state W) comout comin_obs anl_dir diags tr :
  setup_runtime C s = (inr (comout, comin_obs, anl_dir, diags), s1, tr) ->
  exists c, environ s !! "COMOUT" = Some c /\ comout = VStr c
            /\ comin_obs = getenv_value (environ s) "COMIN_OBS"
            /\ anl_dir = Path.join c ["analysis"]
            /\ diags = Path.join c ["analysis"; "diags"]
            /\ tr = [ELog [VStr "---------------- Setup runtime environement"];
                     ECall "ufsda.mkdir" [VStr (Path.join c ["analysis"])];
                     ECall "ufsda.mkdir" [VStr (Path.join c ["analysis"; "diags"])];
                     ECall "ufsda.mkdir" [VStr (Path.join c ["analysis"; "Data"])]].
Proof.
  unfold setup_runtime. intros Hrun.
  apply bind_ok_inv in Hrun as (u0 & s0 & t0 & t0' & Hlog & Hrun & ->).
  unfold logging_info in Hlog. injection Hlog as _ <- <-.
  apply bind_ok_inv in Hrun as (c0 & s2 & t2 & t2' & Hc0 & Hrun & ->).
  apply os_getenv_ok_inv in Hc0 as (-> & -> & ->).
  apply bind_ok_inv in Hrun as (o0 & s3 & t3 & t3' & Ho0 & Hrun & ->).
  apply os_getenv_ok_inv in Ho0 as (-> & -> & ->).
  apply bind_ok_inv in Hrun as (f0 & s4 & t4 & t4' & Hf0 & Hrun & ->).
  apply os_getenv_ok_inv in Hf0 as (-> & -> & ->).
  apply bind_ok_inv in Hrun as (anl & s5 & t5 & t5' & Hanl & Hrun & ->).
  apply (os_path_join_ok_inv _ ["analysis"]) in Hanl as (c & Hc & -> & -> & ->).
  apply bind_ok_inv in Hrun as (u1 & s6 & t6 & t6' & Hm1 & Hrun & ->).
  apply call_ok_trace in Hm1 as ->.
  apply bind_ok_inv in Hrun as (dg & s7 & t7 & t7' & Hdg & Hrun & ->).
  apply (os_path_join_ok_inv _ ["analysis"; "diags"]) in Hdg as (c1 & Hc1 & -> & -> & ->).
  apply bind_ok_inv in Hrun as (u2 & s8 & t8 & t8' & Hm2 & Hrun & ->).
  apply call_ok_trace in Hm2 as ->.
  apply bind_ok_inv in Hrun as (dt & s9 & t9 & t9' & Hdt & Hrun & ->).
  apply (os_path_join_ok_inv _ ["analysis"; "Data"]) in Hdt as (c2 & Hc2 & -> & -> & ->).
  apply bind_ok_inv in Hrun as (u3 & s10 & t10 & t10' & Hm3 & Hrun & ->).
  apply call_ok_trace in Hm3 as ->.
  unfold ret in Hrun. injection Hrun as Hcomout <- <- <- _ <-.
  assert (c1 = c) as -> by congruence. assert (c2 = c) as -> by congruence.
  exists c. repeat split; try done; try congruence.
  destruct (environ s !! "COMOUT"); by simplify_eq.
Qed.

End Footprint.

(** X2: however the script ends, it has assigned to no variable of
    [os.environ] other than [OBS_DATE], [OBS_DIR], [OBS_PREFIX], [DIAG_DIR]
    and [CVAR]: every other variable holds what it held at the start (and
    one that was unset still is). *)
Theorem script_assigns_five_variables
    {W} (C : collaborators W) (v : string) (s : state W) :
  v ∉ ["OBS_DATE"; "OBS_DIR"; "OBS_PREFIX"; "DIAG_DIR"; "CVAR"] ->
  environ (snd (fst (script C s))) !! v = environ s !! v.
Proof. intros Hv. by apply untouched_script. Qed.

(** X3: after a run of the script that reaches its end, [CVAR] holds
    [socn], the last name of the bump C loop, and [DIAG_DIR] holds
    [COMOUT/analysis/diags]; this is the environment the generator of
    [var.yaml] and everything after the script sees. *)
Theorem script_final_environment {W} (C : collaborators W) (s s' : state W) tr :
  script C s = (inr tt, s', tr) ->
  environ s' !! "CVAR" = Some "socn"
  /\ exists comout, environ s !! "COMOUT" = Some comout
                    /\ environ s' !! "DIAG_DIR"
                       = Some (Path.join comout ["analysis"; "diags"]).
Proof.
  intros Hrun. split.
  - apply (fun Hl : leaves "CVAR" "socn" (script C) => Hl s tt s' tr Hrun).
    clear Hrun. unfold script.
    apply leaves_bind_later; intros gdas_home.
    apply leaves_bind_later; intros [[[comout comin_obs] anl_dir] diags].
    do 3 (apply leaves_bind_later; intros ?).
    apply leaves_bind_now; [apply leaves_bump_C | intros _].
    apply untouched_after_bump_C.
  - unfold script in Hrun.
    apply bind_ok_inv in Hrun as (gdas_home & sa & ta & ta' & Ha & Hrun & ->).
    apply get_gdas_home_ok_inv in Ha as (h & Hh & -> & ->).
    apply bind_ok_inv in Hrun
      as ([[[comout comin_obs] anl_dir] diags] & sb & tb & tb' & Hb & Hrun & ->).
    apply setup_runtime_diags in Hb as (c & Hc & -> & _ & -> & -> & _).
    exists c. split; [done |].
    eapply leaves_after_setup_runtime, Hrun.
Qed.

(** ** Where a missing variable stops the run *)


Section Guarded.
Context {W : Type} (C : collaborators W) (P : list event -> Prop) `{!Closed P}.
Context (v : string) (Q : pyval -> Prop).

(** A statement that keeps [v] hands a condition on [v] on to what
    follows it. *)
Lemma guarded_bind {A B} (m : M W A) (k : A -> M W B) :
  untouched v m -> always P m -> (forall a, guarded v Q P (k a)) ->
  guarded v Q P (bind m k).
Proof.
  intros Hu Hm Hk s HQ. unfold bind. specialize (Hu s). specialize (Hm s).
  destruct (m s) as [[[e | a] s1] t1]; simpl in *; [done |].
  specialize (Hk a s1). unfold getenv_value in *. rewrite Hu in Hk.
  specialize (Hk HQ). destruct (k a s1) as [[r s2] t2]. simpl in *.
  by apply closed_app.
Qed.

Lemma guarded_getenv {B} (k : pyval -> M W B) :
  (forall a, Q a -> always P (k a)) -> guarded v Q P (bind (os_getenv v) k).
Proof.
  intros Hk s HQ.
  assert (Hg : os_getenv v s = (inr (getenv_value (environ s) v), s, [])) by done.
  rewrite (bind_inr _ _ _ _ _ _ Hg). simpl. by apply Hk.
Qed.

End Guarded.

Lemma doomed_py_int {W} (C : collaborators W) (a : pyval) :
  not_an_int C a -> doomed (py_int C a).
Proof.
  intros Ha s. destruct a as [| | | x | | | |]; try done; simpl in *.
  - by exists TypeError, s, [].
  - rewrite Ha. by exists ValueError, s, [].
Qed.

(** Settles that one event spares the collaborators [F]. *)
Ltac spare :=
  intros ? ?; unfold job_events; simpl;
  first
    [ apply not_elem_of_nil
    | apply not_elem_of_cons; split; [| apply not_elem_of_nil];
      first
        [ discriminate
        | intros [= ->];
          match goal with
          | Hc : _ ∈ _ |- _ =>
              repeat (apply elem_of_cons in Hc as [Hc | Hc]; [discriminate Hc |]);
              by apply elem_of_nil in Hc
          end ] ].

Section StackSize.
Context {W : Type} (C : collaborators W).

Lemma prepare_input_nml_spares gdas_home stage_cfg window_begin :
  guarded "DOMAIN_STACK_SIZE" (not_an_int C) (spares namelist_requests)
          (prepare_input_nml C gdas_home stage_cfg window_begin).
Proof.
  unfold prepare_input_nml. cbv zeta.
  do 5 (apply guarded_bind; [apply _ | still | solve [steady ltac:(spare)] | intros ?]).
  apply guarded_getenv. intros size Hsize.
  do 4 (apply always_bind; [apply _ | solve [steady ltac:(spare)] | intros ?]).
  apply always_bind_doomed; [by apply doomed_py_int | steady ltac:(spare)].
Qed.

Lemma script_spares :
  guarded "DOMAIN_STACK_SIZE" (not_an_int C) (spares namelist_requests) (script C).
Proof.
  unfold script.
  apply guarded_bind;
    [apply _ | apply untouched_get_gdas_home
    | unfold get_gdas_home; solve [steady ltac:(spare)] | intros gdas_home].
  apply guarded_bind;
    [apply _ | apply untouched_setup_runtime
    | unfold setup_runtime; solve [steady ltac:(spare)] |].
  intros [[[comout comin_obs] anl_dir] diags].
  apply guarded_bind;
    [apply _ | by apply untouched_stage_observations
    | unfold stage_observations; cbv zeta; solve [steady ltac:(spare)] | intros stage_cfg].
  apply guarded_bind;
    [apply _ | apply untouched_stage_backgrounds
    | unfold stage_backgrounds; solve [steady ltac:(spare)] | intros _].
  apply guarded_bind;
    [apply _ | apply untouched_prepare_yamls
    | unfold prepare_yamls; cbv zeta; solve [steady ltac:(spare)] | intros soca_vars].
  apply guarded_bind;
    [apply _ | by apply untouched_bump_C
    | unfold bump_C, bumpC_body; cbv zeta; solve [steady ltac:(spare)] | intros _].
  apply guarded_bind;
    [apply _ | apply untouched_variational_yaml
    | unfold variational_yaml; cbv zeta; solve [steady ltac:(spare)] | intros window_begin].
  apply guarded_bind;
    [apply _ | apply untouched_link_restart
    | unfold link_restart; cbv zeta; solve [steady ltac:(spare)] | intros _].
  apply prepare_input_nml_spares.
Qed.

End StackSize.

(** X5: [int(domain_stack_size)] is evaluated before the old namelist is
    removed: when [DOMAIN_STACK_SIZE] is unset, or holds a text [int] does
    not read, the script raises and has requested neither
    [ufsda.disk_utils.removefile] nor the write of [mom_input.nml],
    whatever else happened before. *)
Theorem stack_size_checked_before_removal {W} (C : collaborators W) (s : state W) :
  not_an_int C (getenv_value (environ s) "DOMAIN_STACK_SIZE") ->
  (exists e s' tr, script C s = (inl e, s', tr))
  /\ (Request "ufsda.disk_utils.removefile" ∉ actions (snd (script C s)))
  /\ (Request "f90nml.Namelist.write" ∉ actions (snd (script C s))).
Proof.
  intros H. pose proof (script_spares C s H) as Hs.
  assert (Hrm : Request "ufsda.disk_utils.removefile" ∉ actions (snd (script C s))).
  { apply Hs. apply elem_of_cons. by left. }
  split; [| split; [done |]].
  - destruct (performs_script C s) as [_ He].
    destruct (script C s) as [[[e | []] s'] tr]; [eauto |].
    exfalso. simpl in *. apply Hrm. rewrite (He tt eq_refl).
    unfold script_actions. rewrite !elem_of_app. do 7 right.
    unfold prepare_input_nml_actions. rewrite !elem_of_cons. auto 15.
  - apply Hs. apply elem_of_cons. right. apply elem_of_cons. by left.
Qed.

(** ** More on [gen_bkg_list] *)



(** X7: [window_begin] is looked at only after the repair: with [None], a
    [bool], an [int], a [str] (the default [' '] of the signature is one),
    a [list] or a [dict] for it, and a repair that goes through,
    [gen_bkg_list] raises [TypeError], and by then it has run every repair
    command on every matched file; no manifest is written. *)
Theorem window_checked_after_repair
    {W} (C : collaborators W) (window_begin : pyval)
    (path file_type yaml_name : string) (s : state W) (w1 : W) :
  repaired C (files_of C path file_type s) (world s) w1 ->
  plain_value window_begin ->
  gen_bkg_list C window_begin (VStr path) file_type yaml_name s
  = (inl TypeError, mk_state (environ s) w1,
     flat_map job_events (all_jobs (files_of C path file_type s))).
Proof.
  intros Hrep Hw. rewrite gen_bkg_list_unfold.
  rewrite <- (app_nil_r (flat_map _ _)).
  eapply bind_inr_inl; [by apply fix_diag_repaired |].
  by destruct window_begin.
Qed.


Lemma length_all_jobs (files : list string) :
  length (all_jobs files) = (20 * length files)%nat.
Proof.
  unfold all_jobs, repair_vars, repair_atts. simpl.
  rewrite !length_app, !length_map. simpl. lia.
Qed.

Lemma length_flat_map_twice (cs : list string) :
  length (flat_map twice cs) = (2 * length cs)%nat.
Proof. induction cs as [|c cs IH]; simpl; lia. Qed.

Lemma filter_log_job_events (cs : list string) :
  List.filter is_log (flat_map job_events cs) = map (fun c => ELog [VStr c]) cs.
Proof. induction cs as [|c cs IH]; simpl; [done |]. by rewrite IH. Qed.

(** X9: a run of [gen_bkg_list] that does not raise has launched forty
    shell commands for every matched file (the twenty commands of the job
    lists, each through [os.system] and through [subprocess.run]) and
    logged twenty records for it. *)
Theorem gen_bkg_list_forty_commands_a_file
    {W} (C : collaborators W) (window_begin bkg_path : pyval)
    (file_type yaml_name : string) (s s' : state W) (tr : list event) :
  gen_bkg_list C window_begin bkg_path file_type yaml_name s = (inr tt, s', tr) ->
  exists path,
    bkg_path = VStr path
    /\ length (List.filter is_shell tr)
       = (40 * length (files_of C path file_type s))%nat
    /\ length (List.filter is_log tr)
       = (20 * length (files_of C path file_type s))%nat.
Proof.
  intros (T & path & _ & -> & _ & -> & _)%gen_bkg_list_ok_inv.
  exists path. split; [done |].
  rewrite !List.filter_app, filter_job_events, filter_log_job_events. simpl.
  rewrite !length_app, length_flat_map_twice, length_map, length_all_jobs. simpl. lia.
Qed.

(** ** The job loops, however they end *)

Section Jobs.
Context {W : Type} (C : collaborators W).

Lemma runs_jobs_seq (m m' : M W unit) l1 l2 :
  runs_jobs C m l1 -> runs_jobs C m' l2 -> runs_jobs C (m ;; m') (l1 ++ l2).
Proof.
  intros Hm Hm' s. unfold bind. destruct (Hm s) as (cs1 & Ht1 & H1).
  destruct (m s) as [[[e | []] s1] t1]; simpl in *.
  - destruct H1 as [[? _] | [He Hp]]; [done |].
    exists cs1. split; [done |]. right. split; [done |]. by apply prefix_app_r.
  - destruct H1 as [(_ & -> & Hall1) | [? _]]; [| done].
    destruct (Hm' s1) as (cs2 & Ht2 & H2).
    destruct (m' s1) as [[r s2] t2]; simpl in *.
    exists (l1 ++ cs2). split; [by rewrite flat_map_app, Ht1, Ht2 |].
    destruct H2 as [(-> & -> & Hall2) | [-> Hp]].
    + left. split; [done |]. split; [done |]. by apply Forall_app.
    + right. split; [done |]. by apply prefix_app.
Qed.

Lemma runs_jobs_run_job c : runs_jobs C (run_job C c) [c].
Proof.
  intros s. exists [c]. rewrite run_job_eq. simpl.
  split; [done |].
  destruct (Utf8.valid _) eqn:Hvalid; [left | right]; split; try done.
  split; [done |]. apply Forall_singleton. by eexists.
Qed.

Lemma runs_jobs_nil : runs_jobs C (ret tt) [].
Proof. intros s. exists []. split; [done |]. left. simpl. auto. Qed.

Lemma runs_jobs_pass jobs : runs_jobs C (for_each jobs (run_job C)) jobs.
Proof.
  induction jobs as [|c jobs IH]; simpl; [apply runs_jobs_nil |].
  apply (runs_jobs_seq _ _ [c] jobs); [apply runs_jobs_run_job | apply IH].
Qed.

Lemma runs_jobs_for_each {A} (l : list A) (body : A -> M W unit) (g : A -> list string) :
  (forall x, runs_jobs C (body x) (g x)) ->
  runs_jobs C (for_each l body) (flat_map g l).
Proof.
  intros Hbody. induction l as [|x l IH]; simpl; [apply runs_jobs_nil |].
  apply runs_jobs_seq; [apply Hbody | apply IH].
Qed.

Lemma runs_jobs_fix_diag files : runs_jobs C (fix_diag C files) (all_jobs files).
Proof.
  unfold fix_diag, all_jobs.
  apply runs_jobs_for_each. intros v. apply runs_jobs_for_each. intros att.
  apply runs_jobs_seq; apply runs_jobs_pass.
Qed.

End Jobs.

(** X10: one output that is not UTF-8 stops everything: when the output of
    one of the repair commands never decodes, [gen_bkg_list] raises
    [UnicodeDecodeError]; the commands it has run are a prefix of the
    repair commands, each of them run through both [os.system] and
    [subprocess.run], and no manifest is written, whatever [window_begin]
    is. *)
Theorem undecodable_output_stops_the_run
    {W} (C : collaborators W) (window_begin : pyval)
    (path file_type yaml_name : string) (s : state W) (c : string) :
  c ∈ all_jobs (files_of C path file_type s) ->
  (forall w, Utf8.valid (snd (fst (subprocess_run C c w))) = false) ->
  exists s' cs,
    gen_bkg_list C window_begin (VStr path) file_type yaml_name s
    = (inl UnicodeDecodeError, s', flat_map job_events cs)
    /\ cs `prefix_of` all_jobs (files_of C path file_type s)
    /\ environ s' = environ s.
Proof.
  intros Hc Hbad. unfold gen_bkg_list. simpl str_operand. rewrite bind_ret_l.
  unfold bind at 1. cbv beta iota. fold (files_of C path file_type s).
  pose proof (fixed_fix_diag C (files_of C path file_type s) s) as Henv.
  destruct (runs_jobs_fix_diag C (files_of C path file_type s) s) as (cs & Ht & H).
  unfold bind at 1.
  destruct (fix_diag C (files_of C path file_type s) s) as [[r s1] t1]; simpl in *.
  destruct H as [(_ & _ & Hall) | [-> Hp]].
  - exfalso. rewrite Forall_forall in Hall. destruct (Hall c Hc) as [w Hw].
    by rewrite Hbad in Hw.
  - exists s1, cs. by rewrite Ht.
Qed.

(** ** The name of the ocean file *)

Lemma basename_split (p : string) :
  exists dir, p = dir +:+ Path.basename p
              /\ Str.has_char "/" (Path.basename p) = false
              /\ (dir = "" \/ exists d, dir = d +:+ "/").
Proof.
  destruct (rfind_from_split Path.sep p 0 (-1) ltac:(lia))
    as [[Hno Hr] | (a & b & -> & Hb & Hr)].
  - exists "". unfold Path.basename, Str.rfind. rewrite Hr. simpl.
    repeat split; [done | by left].
  - change (a +:+ String Path.sep b) with (a +:+ "/" +:+ b).
    rewrite basename_in_dir by done. exists (a +:+ "/").
    rewrite append_assoc. repeat split; [done |]. right. by exists a.
Qed.

Lemma splitext_split (b : string) :
  Str.has_char Path.sep b = false ->
  b = fst (Path.splitext b) +:+ snd (Path.splitext b)
  /\ (snd (Path.splitext b) = ""
      \/ exists e, snd (Path.splitext b) = "." +:+ e /\ Str.has_char "." e = false).
Proof.
  intros Hb. unfold Path.splitext. rewrite (rfind_absent Path.sep b Hb).
  unfold Str.rfind.
  destruct (rfind_from_split Path.extsep b 0 (-1) ltac:(lia))
    as [[_ ->] | (a & e & Hab & He & ->)].
  { simpl. rewrite append_nil_r. split; [done | by left]. }
  pose proof (len_nonneg a).
  destruct (Z.gtb_spec (0 + Str.len a) (-1)); [| lia].
  destruct (Path.has_non_dot _); simpl.
  - unfold Str.slice_from, Str.slice_to.
    replace (0 + Str.len a) with (Str.len a) by lia.
    rewrite take_drop. split; [done |]. right. exists e. split; [| done].
    rewrite Hab. by rewrite drop_app_len.
  - rewrite append_nil_r. split; [done | by left].
Qed.

(** X11: whatever path [glob] gives, the [ocn_filename] of its record is a
    plain file name ending in [.nc]: the path is [dir + root + ext] with
    [dir] empty or ending in [/], no [/] in [root + ext], and [ext] empty
    or a dot followed by no further dot; [ocn_filename] is [root + '.nc']
    and holds no [/]. *)
Theorem ocn_filename_is_a_plain_name (bkg : string) :
  exists dir root ext,
    bkg = dir +:+ root +:+ ext
    /\ ocn_filename bkg = root +:+ ".nc"
    /\ Str.has_char "/" (ocn_filename bkg) = false
    /\ Str.has_char "/" (root +:+ ext) = false
    /\ (dir = "" \/ exists d, dir = d +:+ "/")
    /\ (ext = "" \/ exists e, ext = "." +:+ e /\ Str.has_char "." e = false).
Proof.
  destruct (basename_split bkg) as (dir & Hbkg & Hb & Hdir).
  destruct (splitext_split (Path.basename bkg) Hb) as [Hsplit Hext].
  exists dir, (fst (Path.splitext (Path.basename bkg))),
         (snd (Path.splitext (Path.basename bkg))).
  rewrite <- Hsplit. repeat split; try done.
  unfold ocn_filename. rewrite has_char_app.
  rewrite Hsplit, has_char_app in Hb. apply orb_false_iff in Hb as [-> _]. done.
Qed.

(** ** The variational configuration *)

Section Variational.
Context {W : Type} (C : collaborators W).

Lemma getenv_VStr (env : gmap string string) k x :
  match env !! k with Some v => VStr v | None => VNone end = VStr x -> env !! k = Some x.
Proof. destruct (env !! k); by intros [= ->]. Qed.

Lemma py_int_ok_inv v (s s1 : state W) n tr :
  py_int C v s = (inr n, s1, tr) ->
  exists x, v = VStr x /\ int_of_str C x = Some n /\ s1 = s /\ tr = [].
Proof.
  destruct v as [| | | x | | | |]; try done. simpl.
  destruct (int_of_str C x) as [m |] eqn:Hx; [| done].
  intros [= <- <- <-]. by exists x.
Qed.

Lemma half_hours_ok_inv n (s s1 : state W) d tr :
  half_hours n s = (inr d, s1, tr) ->
  d = n * (Datetime.US_PER_HOUR / 2) /\ s1 = s /\ tr = [].
Proof.
  unfold half_hours. destruct (Datetime.timedelta_in_range _); [| done].
  by intros [= <- <- <-].
Qed.

Lemma strptime_ok_inv v (s s1 : state W) t tr :
  strptime C v s = (inr t, s1, tr) ->
  exists x, v = VStr x /\ strptime_YmdH C x = Some t /\ s1 = s /\ tr = [].
Proof.
  destruct v as [| | | x | | | |]; try done. simpl.
  destruct (strptime_YmdH C x) as [m |] eqn:Hx; [| done].
  intros [= <- <- <-]. by exists x.
Qed.

Lemma add_timedelta_ok_inv t d (s s1 : state W) t' tr :
  add_timedelta (VDatetime t) d s = (inr t', s1, tr) ->
  Datetime.micros t' = Datetime.micros t + d /\ s1 = s /\ tr = [].
Proof.
  simpl. destruct (Datetime.add t d) as [u |] eqn:Hadd; [| done].
  intros [= <- <- <-]. by apply add_Some in Hadd as [_ ->].
Qed.

Lemma add_vals_ok_inv a b (s s1 : state W) r tr :
  add_vals a b s = (inr r, s1, tr) ->
  exists x y, a = VStr x /\ b = VStr y /\ r = x +:+ y /\ s1 = s /\ tr = [].
Proof.
  destruct a as [| | | x | | | |], b as [| | | y | | | |]; try done.
  intros [= <- <- <-]. by exists x, y.
Qed.

(** A completed [variational_yaml]: what it read and what it did. *)
Lemma variational_yaml_ok_inv gdas_home anl_dir (s s' : state W) window_begin tr :
  variational_yaml C gdas_home anl_dir s = (inr window_begin, s', tr) ->
  exists af n cd t ges pdy cyc,
    environ s !! "assim_freq" = Some af /\ int_of_str C af = Some n
    /\ environ s !! "CDATE" = Some cd /\ strptime_YmdH C cd = Some t
    /\ Datetime.micros window_begin
       = Datetime.micros t - n * (Datetime.US_PER_HOUR / 2)
    /\ environ s !! "COMIN_GES" = Some ges
    /\ environ s !! "PDY" = Some pdy /\ environ s !! "cyc" = Some cyc
    /\ tr = flat_map job_events (all_jobs (files_of C ges default_file_type s))
            ++ [EDump "bkg_list.yaml"
                      (manifest ges window_begin (files_of C ges default_file_type s));
                ELog [var_config gdas_home (pdy +:+ cyc)
                                 (getenv_value (environ s) "SOCA_NINNER")];
                ECall "ufsda.yamltools.genYAML"
                      [var_config gdas_home (pdy +:+ cyc)
                                  (getenv_value (environ s) "SOCA_NINNER");
                       VStr (Path.join anl_dir ["var.yaml"]);
                       VStr (Path.join gdas_home
                               ["parm"; "soca"; "variational"; "3dvarfgat.yaml"])]].
Proof.
  unfold variational_yaml. cbv zeta. intros Hrun.
  apply bind_ok_inv in Hrun as (a1 & s1 & t1 & t1' & H1 & Hrun & ->).
  apply os_getenv_ok_inv in H1 as (-> & -> & ->).
  apply bind_ok_inv in Hrun as (n & s2 & t2 & t2' & H2 & Hrun & ->).
  apply py_int_ok_inv in H2 as (af & Haf & Hn & -> & ->). apply getenv_VStr in Haf.
  apply bind_ok_inv in Hrun as (d & s3 & t3 & t3' & H3 & Hrun & ->).
  apply half_hours_ok_inv in H3 as (-> & -> & ->).
  apply bind_ok_inv in Hrun as (a4 & s4 & t4 & t4' & H4 & Hrun & ->).
  apply os_getenv_ok_inv in H4 as (-> & -> & ->).
  apply bind_ok_inv in Hrun as (t & s5 & t5 & t5' & H5 & Hrun & ->).
  apply strptime_ok_inv in H5 as (cd & Hcd & Ht & -> & ->). apply getenv_VStr in Hcd.
  apply bind_ok_inv in Hrun as (wb & s6 & t6 & t6' & H6 & Hrun & ->).
  apply add_timedelta_ok_inv in H6 as (Hwb & -> & ->).
  apply bind_ok_inv in Hrun as (a7 & s7 & t7 & t7' & H7 & Hrun & ->).
  apply os_getenv_ok_inv in H7 as (-> & -> & ->).
  apply bind_ok_inv in Hrun as ([] & s8 & t8 & t8' & H8 & Hrun & ->).
  apply gen_bkg_list_ok_inv in H8 as (T & ges & [= <-] & Hges & Henv & -> & _).
  apply getenv_VStr in Hges.
  apply bind_ok_inv in Hrun as (a9 & s9 & t9 & t9' & H9 & Hrun & ->).
  apply os_getenv_ok_inv in H9 as (-> & -> & ->).
  apply bind_ok_inv in Hrun as (a10 & s10 & t10 & t10' & H10 & Hrun & ->).
  apply os_getenv_ok_inv in H10 as (-> & -> & ->).
  apply bind_ok_inv in Hrun as (a11 & s11 & t11 & t11' & H11 & Hrun & ->).
  apply os_getenv_ok_inv in H11 as (-> & -> & ->).
  apply bind_ok_inv in Hrun as (od & s12 & t12 & t12' & H12 & Hrun & ->).
  apply add_vals_ok_inv in H12 as (pdy & cyc & Hpdy & Hcyc & -> & -> & ->).
  apply getenv_VStr in Hpdy. apply getenv_VStr in Hcyc. rewrite Henv in Hpdy, Hcyc.
  apply bind_ok_inv in Hrun as ([] & s13 & t13 & t13' & H13 & Hrun & ->).
  unfold logging_info in H13. injection H13 as <- <-.
  apply bind_ok_inv in Hrun as (a14 & s14 & t14 & t14' & H14 & Hrun & ->).
  apply call_ok_trace in H14 as ->.
  unfold ret in Hrun. injection Hrun as <- _ <-.
  exists af, n, cd, t, ges, pdy, cyc.
  repeat (split; [first [done | lia] |]).
  rewrite Henv. simpl. rewrite <- !app_assoc. simpl. done.
Qed.

End Variational.

(** X12: a completed "generate yaml for soca_var" block has written the
    manifest of the files of [COMIN_GES] to [bkg_list.yaml], the file the
    overlay names under [BKG_LIST], for the window it returns; then it has
    logged the overlay and requested [var.yaml] with it.  The overlay
    holds [PDY + cyc] under [OBS_DATE] and what [os.getenv('SOCA_NINNER')]
    gave, [None] included, under [NINNER]. *)
Theorem variational_yaml_request
    {W} (C : collaborators W) (gdas_home anl_dir : string)
    (s s' : state W) (window_begin : Datetime.datetime) (tr : list event) :
  variational_yaml C gdas_home anl_dir s = (inr window_begin, s', tr) ->
  exists ges pdy cyc,
    environ s !! "COMIN_GES" = Some ges
    /\ environ s !! "PDY" = Some pdy /\ environ s !! "cyc" = Some cyc
    /\ tr = flat_map job_events (all_jobs (files_of C ges default_file_type s))
            ++ [EDump "bkg_list.yaml"
                      (manifest ges window_begin (files_of C ges default_file_type s));
                ELog [var_config gdas_home (pdy +:+ cyc)
                                 (getenv_value (environ s) "SOCA_NINNER")];
                ECall "ufsda.yamltools.genYAML"
                      [var_config gdas_home (pdy +:+ cyc)
                                  (getenv_value (environ s) "SOCA_NINNER");
                       VStr (Path.join anl_dir ["var.yaml"]);
                       VStr (Path.join gdas_home
                               ["parm"; "soca"; "variational"; "3dvarfgat.yaml"])]].
Proof.
  intros (af & n & cd & t & ges & pdy & cyc & _ & _ & _ & _ & _ & Hges & Hpdy & Hcyc & Htr)
         %variational_yaml_ok_inv.
  by exists ges, pdy, cyc.
Qed.

(** X13: the window the block returns begins half of [assim_freq] hours
    before the cycle date: with [n = int(assim_freq)] and [t] the date
    [CDATE] reads as, twice the time from [window_begin] to [t] is [n]
    hours. *)
Theorem window_begins_half_a_period_before_cycle
    {W} (C : collaborators W) (gdas_home anl_dir : string)
    (s s' : state W) (window_begin : Datetime.datetime) (tr : list event) :
  variational_yaml C gdas_home anl_dir s = (inr window_begin, s', tr) ->
  exists af n cd t,
    environ s !! "assim_freq" = Some af /\ int_of_str C af = Some n
    /\ environ s !! "CDATE" = Some cd /\ strptime_YmdH C cd = Some t
    /\ 2 * (Datetime.micros t - Datetime.micros window_begin)
       = n * Datetime.US_PER_HOUR.
Proof.
  intros (af & n & cd & t & ges & pdy & cyc & Haf & Hn & Hcd & Ht & Hwb & _)
         %variational_yaml_ok_inv.
  exists af, n, cd, t. repeat (split; [done |]).
  rewrite Hwb. change (Datetime.US_PER_HOUR / 2) with 1800000000.
  change Datetime.US_PER_HOUR with 3600000000. lia.
Qed.

(** ** The one document of the script *)

Section OneDocument.
Context {W : Type} (C : collaborators W).

Lemma always_ok {A} P (m : M W A) s a s1 t :
  always P m -> m s = (inr a, s1, t) -> P t.
Proof. intros H Hm. specialize (H s). by rewrite Hm in H. Qed.

Lemma untouched_ok {A} v (m : M W A) s a s1 t :
  untouched v m -> m s = (inr a, s1, t) -> environ s1 !! v = environ s !! v.
Proof. intros H Hm. specialize (H s). by rewrite Hm in H. Qed.

Lemma dumpless_get_gdas_home : always dumpless (get_gdas_home (W := W)).
Proof. unfold get_gdas_home. steady ltac:(reflexivity). Qed.

Lemma dumpless_setup_runtime : always dumpless (setup_runtime C).
Proof. unfold setup_runtime. steady ltac:(reflexivity). Qed.

Lemma dumpless_stage_observations gdas_home comin_obs diags :
  always dumpless (stage_observations C gdas_home comin_obs diags).
Proof. unfold stage_observations. cbv zeta. steady ltac:(reflexivity). Qed.

Lemma dumpless_stage_backgrounds stage_cfg :
  always dumpless (stage_backgrounds C stage_cfg).
Proof. unfold stage_backgrounds. steady ltac:(reflexivity). Qed.

Lemma dumpless_prepare_yamls gdas_home anl_dir stage_cfg :
  always dumpless (prepare_yamls C gdas_home anl_dir stage_cfg).
Proof. unfold prepare_yamls. cbv zeta. steady ltac:(reflexivity). Qed.

Lemma dumpless_bump_C soca_vars gdas_home anl_dir :
  always dumpless (bump_C C soca_vars gdas_home anl_dir).
Proof. unfold bump_C, bumpC_body. cbv zeta. steady ltac:(reflexivity). Qed.

Lemma dumpless_link_restart comout stage_cfg window_begin :
  always dumpless (link_restart C comout stage_cfg window_begin).
Proof. unfold link_restart. cbv zeta. steady ltac:(reflexivity). Qed.

Lemma dumpless_prepare_input_nml gdas_home stage_cfg window_begin :
  always dumpless (prepare_input_nml C gdas_home stage_cfg window_begin).
Proof. unfold prepare_input_nml. cbv zeta. steady ltac:(reflexivity). Qed.

(** The run of the script up to the variational block keeps a variable
    the script does not assign and writes no document. *)
Lemma script_ok_inv (s s' : state W) tr :
  script C s = (inr tt, s', tr) ->
  exists gdas_home anl_dir s6 s7 window_begin pre tv post,
    variational_yaml C gdas_home anl_dir s6 = (inr window_begin, s7, tv)
    /\ tr = pre ++ tv ++ post
    /\ dumps pre = [] /\ dumps post = []
    /\ forall v, v ∉ ["OBS_DATE"; "OBS_DIR"; "OBS_PREFIX"; "DIAG_DIR"; "CVAR"] ->
                 environ s6 !! v = environ s !! v.
Proof.
  unfold script. intros Hrun.
  apply bind_ok_inv in Hrun as (gdas_home & s1 & t1 & t1' & H1 & Hrun & ->).
  apply bind_ok_inv in Hrun
    as ([[[comout comin_obs] anl_dir] diags] & s2 & t2 & t2' & H2 & Hrun & ->).
  apply bind_ok_inv in Hrun as (stage_cfg & s3 & t3 & t3' & H3 & Hrun & ->).
  apply bind_ok_inv in Hrun as ([] & s4 & t4 & t4' & H4 & Hrun & ->).
  apply bind_ok_inv in Hrun as (soca_vars & s5 & t5 & t5' & H5 & Hrun & ->).
  apply bind_ok_inv in Hrun as ([] & s6 & t6 & t6' & H6 & Hrun & ->).
  apply bind_ok_inv in Hrun as (window_begin & s7 & t7 & t7' & H7 & Hrun & ->).
  apply bind_ok_inv in Hrun as ([] & s8 & t8 & t8' & H8 & Hrun & ->).
  exists gdas_home, anl_dir, s6, s7, window_begin,
         (t1 ++ t2 ++ t3 ++ t4 ++ t5 ++ t6), t7, (t8 ++ t8').
  split; [exact H7 |]. split; [by rewrite <- !app_assoc |].
  pose proof (always_ok _ _ _ _ _ _ dumpless_get_gdas_home H1) as D1.
  pose proof (always_ok _ _ _ _ _ _ dumpless_setup_runtime H2) as D2.
  pose proof (always_ok _ _ _ _ _ _ (dumpless_stage_observations _ _ _) H3) as D3.
  pose proof (always_ok _ _ _ _ _ _ (dumpless_stage_backgrounds _) H4) as D4.
  pose proof (always_ok _ _ _ _ _ _ (dumpless_prepare_yamls _ _ _) H5) as D5.
  pose proof (always_ok _ _ _ _ _ _ (dumpless_bump_C _ _ _) H6) as D6.
  pose proof (always_ok _ _ _ _ _ _ (dumpless_link_restart _ _ _) H8) as D8.
  pose proof (always_ok _ _ _ _ _ _ (dumpless_prepare_input_nml _ _ _) Hrun) as D9.
  unfold dumpless in *.
  split; [by rewrite !dumps_app, D1, D2, D3, D4, D5, D6 |].
  split; [by rewrite !dumps_app, D8, D9 |].
  intros v Hv. rewrite !not_elem_of_cons in Hv. destruct Hv as (V1 & V2 & V3 & V4 & V5 & _).
  rewrite (untouched_ok v _ _ _ _ _ (untouched_bump_C C v _ _ _ V5) H6).
  rewrite (untouched_ok v _ _ _ _ _ (untouched_prepare_yamls C v _ _ _) H5).
  rewrite (untouched_ok v _ _ _ _ _ (untouched_stage_backgrounds C v _) H4).
  rewrite (untouched_ok v _ _ _ _ _ (untouched_stage_observations C v _ _ _ V1 V2 V3 V4) H3).
  rewrite (untouched_ok v _ _ _ _ _ (untouched_setup_runtime C v) H2).
  apply (untouched_ok v _ _ _ _ _ (untouched_get_gdas_home v) H1).
Qed.

End OneDocument.

(** X14: in a run of the script that reaches its end, the script's own
    [yaml.dump] has written exactly one document, [bkg_list.yaml]: the
    manifest of the files [glob] found under the [COMIN_GES] of the initial
    environment, for the window that begins half of [assim_freq] hours
    before the date of [CDATE], both as the initial environment holds
    them.  The files the collaborators write (the configurations of
    [genYAML], [mom_input.nml]) are their requests in the trace, not
    documents of the script. *)
Theorem script_dumps_one_manifest
    {W} (C : collaborators W) (s s' : state W) (tr : list event) :
  script C s = (inr tt, s', tr) ->
  exists ges af n cd t w,
    environ s !! "COMIN_GES" = Some ges
    /\ environ s !! "assim_freq" = Some af /\ int_of_str C af = Some n
    /\ environ s !! "CDATE" = Some cd /\ strptime_YmdH C cd = Some t
    /\ dumps tr
       = [("bkg_list.yaml",
           manifest ges
             (Datetime.mk_datetime
                (Datetime.micros t - n * (Datetime.US_PER_HOUR / 2)))
             (sort (glob_glob C (ges +:+ "/*" +:+ default_file_type +:+ "*") w)))].
Proof.
  intros (gdas_home & anl_dir & s6 & s7 & window_begin & pre & tv & post
          & Hv & -> & Hpre & Hpost & Henv)%script_ok_inv.
  apply variational_yaml_ok_inv in Hv
    as (af & n & cd & t & ges & pdy & cyc & Haf & Hn & Hcd & Ht & Hwb & Hges & _ & _ & ->).
  exists ges, af, n, cd, t, (world s6).
  rewrite <- (Henv "COMIN_GES"), <- (Henv "assim_freq"), <- (Henv "CDATE")
    by (rewrite !not_elem_of_cons; repeat split; (discriminate || apply not_elem_of_nil)).
  repeat (split; [done |]).
  rewrite !dumps_app, Hpre, Hpost, dumps_job_events. simpl.
  destruct window_begin as [m]. simpl in Hwb. by subst m.
Qed.

(** ** The directories of the run *)

Lemma endswith_app (c : ascii) (a b : string) :
  b <> "" -> Str.endswith c (a +:+ b) = Str.endswith c b.
Proof.
  intros Hb. induction a as [|x a IH]; sapp; [done |].
  simpl. rewrite IH. destruct (a +:+ b) eqn:Hab; [| done].
  destruct a, b; try done.
Qed.

(** X15: [gdas_home] for any text in [HOMEgfs]: the two names are joined
    with one [/] each, and no [/] is added after a [HOMEgfs] that ends in
    one; an empty [HOMEgfs] is accepted and gives the relative path
    [sorc/gdas.cd]. *)
Theorem gdas_home_of_HOMEgfs {W} (s : state W) (h : string) :
  environ s !! "HOMEgfs" = Some h ->
  get_gdas_home s
  = (inr (if (String.eqb h "" || Str.endswith "/" h)%bool
          then h +:+ "sorc/gdas.cd" else h +:+ "/sorc/gdas.cd"), s, []).
Proof.
  intros Hh. unfold get_gdas_home, bind, os_getenv. rewrite Hh. simpl.
  do 2 f_equal. unfold Path.join. cbn [fold_left].
  assert (Hstep : forall p b, Str.startswith Path.sep b = false -> b <> "" ->
            Path.join_step p b
            = (if (String.eqb p "" || Str.endswith Path.sep p)%bool
               then p +:+ b else p +:+ "/" +:+ b)
            /\ Str.endswith Path.sep (Path.join_step p b) = Str.endswith Path.sep b
            /\ String.eqb (Path.join_step p b) "" = false).
  { intros p b Hs Hb. unfold Path.join_step. rewrite Hs.
    destruct (String.eqb p "" || Str.endswith Path.sep p)%bool.
    - split; [done |]. split; [by apply endswith_app |].
      apply String.eqb_neq. by destruct p, b.
    - split; [done |]. rewrite <- append_assoc. split; [by apply endswith_app |].
      apply String.eqb_neq. by destruct p. }
  destruct (Hstep h "sorc" eq_refl ltac:(done)) as (H1 & H1e & H1n).
  destruct (Hstep (Path.join_step h "sorc") "gdas.cd" eq_refl ltac:(done)) as (H2 & _ & _).
  rewrite H2, H1e, H1n, H1. simpl.
  change Path.sep with "/"%char.
  destruct (String.eqb h "" || Str.endswith "/" h)%bool; by rewrite !append_assoc.
Qed.

(** X16: a completed "create directories" block had [COMOUT] set and has
    requested three directories and nothing else: [COMOUT/analysis], and
    [diags] and [Data] inside it; the [diags] directory it hands on is
    the second one. *)
Theorem setup_runtime_directories
    {W} (C : collaborators W) (s s1 : state W)
    (comout comin_obs : pyval) (anl_dir diags : string) (tr : list event) :
  setup_runtime C s = (inr (comout, comin_obs, anl_dir, diags), s1, tr) ->
  exists c,
    environ s !! "COMOUT" = Some c
    /\ anl_dir = Path.join c ["analysis"]
    /\ diags = Path.join anl_dir ["diags"]
    /\ List.filter (fun e => negb (is_log e)) tr
       = [ECall "ufsda.mkdir" [VStr anl_dir];
          ECall "ufsda.mkdir" [VStr (Path.join anl_dir ["diags"])];
          ECall "ufsda.mkdir" [VStr (Path.join anl_dir ["Data"])]].
Proof.
  intros (c & Hc & -> & _ & -> & -> & ->)%setup_runtime_diags.
  exists c. repeat split; done.
Qed.

(** ** What the observation block exports *)

Section Exports.
Context {W : Type} (C : collaborators W).

Lemma environ_set_ok_inv k v (s s1 : state W) tr :
  environ_set k v s = (inr tt, s1, tr) ->
  exists x, v = VStr x /\ Str.has_char Ascii.zero x = false
            /\ environ s1 = <[k := x]> (environ s) /\ tr = [ESetenv k x].
Proof.
  unfold environ_set. destruct v as [| | | x | | | |]; try done.
  destruct (Str.has_char zero x) eqn:Hx; [done |].
  intros [= <- <-]. by exists x.
Qed.

Lemma call_ok_both callee args (s s1 : state W) a tr :
  call C callee args s = (inr a, s1, tr) ->
  environ s1 = environ s /\ tr = [ECall callee args].
Proof.
  intros H. split; [by eapply call_ok_inv | by eapply call_ok_trace].
Qed.

End Exports.

(** X17: a completed "fetch observations" block has exported, in this
    order, [OBS_DATE], [OBS_DIR] and [OBS_PREFIX] as the object of
    [get_env_config] answered them, each a [str], and
    [DIAG_DIR] as [diags], all of it before it asked [ufsda.parse_config]
    for the staging template of [gdas_home]; it has changed nothing else
    in [os.environ]. *)
Theorem stage_observations_exports
    {W} (C : collaborators W) (gdas_home : string) (comin_obs : pyval) (diags : string)
    (s s' : state W) (stage_cfg : pyval) (tr : list event) :
  stage_observations C gdas_home comin_obs diags s = (inr stage_cfg, s', tr) ->
  exists envconfig obs_date obs_dir obs_prefix,
    tr = [ELog [VStr "---------------- Stage observations"];
          ECall "ufsda.r2d2.setup" [VStr "r2d2_config.yaml"; comin_obs];
          ECall "ufsda.misc_utils.get_env_config" [VStr "notatm"];
          ECall "__getitem__" [envconfig; VStr "OBS_DATE"];
          ESetenv "OBS_DATE" obs_date;
          ECall "__getitem__" [envconfig; VStr "OBS_DIR"];
          ESetenv "OBS_DIR" obs_dir;
          ECall "__getitem__" [envconfig; VStr "OBS_PREFIX"];
          ESetenv "OBS_PREFIX" obs_prefix;
          ESetenv "DIAG_DIR" diags;
          ECall "ufsda.parse_config"
                [VStr (Path.join gdas_home ["parm"; "templates"; "stage.yaml"]);
                 VBool true];
          ECall "ufsda.stage.obs" [stage_cfg]]
    /\ environ s'
       = <[ "DIAG_DIR" := diags ]>
           (<[ "OBS_PREFIX" := obs_prefix ]>
              (<[ "OBS_DIR" := obs_dir ]>
                 (<[ "OBS_DATE" := obs_date ]> (environ s)))).
Proof.
  unfold stage_observations. cbv zeta. intros Hrun.
  apply bind_ok_inv in Hrun as ([] & s0 & t0 & t0' & H0 & Hrun & ->).
  unfold logging_info in H0. injection H0 as <- <-.
  apply bind_ok_inv in Hrun as (a1 & s1 & t1 & t1' & H1 & Hrun & ->).
  apply call_ok_both in H1 as [E1 ->].
  apply bind_ok_inv in Hrun as (envconfig & s2 & t2 & t2' & H2 & Hrun & ->).
  apply call_ok_both in H2 as [E2 ->].
  apply bind_ok_inv in Hrun as (v3 & s3 & t3 & t3' & H3 & Hrun & ->).
  apply call_ok_both in H3 as [E3 ->].
  apply bind_ok_inv in Hrun as ([] & s4 & t4 & t4' & H4 & Hrun & ->).
  apply environ_set_ok_inv in H4 as (obs_date & -> & _ & E4 & ->).
  apply bind_ok_inv in Hrun as (v5 & s5 & t5 & t5' & H5 & Hrun & ->).
  apply call_ok_both in H5 as [E5 ->].
  apply bind_ok_inv in Hrun as ([] & s6 & t6 & t6' & H6 & Hrun & ->).
  apply environ_set_ok_inv in H6 as (obs_dir & -> & _ & E6 & ->).
  apply bind_ok_inv in Hrun as (v7 & s7 & t7 & t7' & H7 & Hrun & ->).
  apply call_ok_both in H7 as [E7 ->].
  apply bind_ok_inv in Hrun as ([] & s8 & t8 & t8' & H8 & Hrun & ->).
  apply environ_set_ok_inv in H8 as (obs_prefix & -> & _ & E8 & ->).
  apply bind_ok_inv in Hrun as ([] & s9 & t9 & t9' & H9 & Hrun & ->).
  apply environ_set_ok_inv in H9 as (diags' & [= <-] & _ & E9 & ->).
  apply bind_ok_inv in Hrun as (cfg & s10 & t10 & t10' & H10 & Hrun & ->).
  apply call_ok_both in H10 as [E10 ->].
  apply bind_ok_inv in Hrun as (v11 & s11 & t11 & t11' & H11 & Hrun & ->).
  apply call_ok_both in H11 as [E11 ->].
  unfold ret in Hrun. injection Hrun as <- <- <-.
  exists envconfig, obs_date, obs_dir, obs_prefix. split; [done |].
  rewrite E11, E10, E9, E8, E7, E6, E5, E4, E3, E2, E1. done.
Qed.

(** ** The shell commands of the run *)

Lemma shell_commands_app (a b : list event) :
  shell_commands (a ++ b) = shell_commands a ++ shell_commands b.
Proof. apply flat_map_app. Qed.

Lemma shell_commands_job_events (cs : list string) (c : string) :
  c ∈ shell_commands (flat_map job_events cs) -> c ∈ cs.
Proof.
  induction cs as [|x cs IH]; simpl; [done |].
  rewrite !elem_of_cons. intros [-> | [-> | H]]; auto.
Qed.

#[global] Instance confined_closed {W} (C : collaborators W) a : Closed (confined C a).
Proof.
  split.
  - intros c Hc. by apply elem_of_nil in Hc.
  - intros x y Hx Hy c. rewrite shell_commands_app, elem_of_app. intros [H | H]; auto.
Qed.

Lemma all_jobs_inv (files : list string) (c : string) :
  c ∈ all_jobs files ->
  exists att v bkg,
    att ∈ repair_atts /\ v ∈ repair_vars /\ bkg ∈ files
    /\ (c = ch_job att v bkg \/ c = d_job att v bkg).
Proof.
  unfold all_jobs. rewrite list_elem_of_In, in_flat_map.
  intros (v & Hv & Hc). apply in_flat_map in Hc as (att & Hatt & Hc).
  apply in_app_iff in Hc as [Hc | Hc]; apply in_map_iff in Hc as (bkg & <- & Hb);
    exists att, v, bkg; rewrite !list_elem_of_In; auto.
Qed.

Section Confined.
Context {W : Type} (C : collaborators W).

(** The shell commands of [gen_bkg_list], however it ends. *)
Lemma confined_gen_bkg_list window_begin bkg_path yaml_name :
  always (confined C bkg_path)
         (gen_bkg_list C window_begin bkg_path default_file_type yaml_name).
Proof.
  intros s. destruct bkg_path as [| | | ges | | | |];
    try (intros c Hc; by apply elem_of_nil in Hc).
  rewrite gen_bkg_list_unfold. unfold bind at 1.
  destruct (runs_jobs_fix_diag C (files_of C ges default_file_type s) s) as (cs & Ht & H).
  assert (Hcs : forall c, c ∈ cs -> repair_command_of C ges c).
  { intros c Hc.
    assert (Hall : c ∈ all_jobs (files_of C ges default_file_type s)).
    { destruct H as [(_ & -> & _) | [_ [k ->]]]; [done |].
      apply elem_of_app. by left. }
    apply all_jobs_inv in Hall as (att & v & bkg & Hatt & Hv & Hb & Hc').
    unfold files_of in Hb. rewrite sort_perm in Hb.
    by exists att, v, bkg, (world s). }
  destruct (fix_diag C (files_of C ges default_file_type s) s) as [[r s1] t1];
    simpl in Ht. subst t1.
  assert (Hfix : confined C (VStr ges) (flat_map job_events cs)).
  { intros c Hc%shell_commands_job_events. eauto. }
  destruct r as [e | u]; [exact Hfix |].
  assert (Hrest : confined C (VStr ges)
            (snd ((bkg_date <- add_timedelta window_begin (Datetime.hours 1) ;
                   acc <- for_fold (files_of C ges default_file_type s) (bkg_step ges)
                                   (bkg_date, []) ;
                   open_dump C yaml_name (VDict [("states", VList (snd acc))]))
                    s1))).
  { apply bind_trace; [apply closed_nil | apply closed_app | |].
    - rewrite add_timedelta_silent. apply closed_nil.
    - intros d s2. apply bind_trace; [apply closed_nil | apply closed_app | |].
      + rewrite bkg_loop_silent. apply closed_nil.
      + intros acc s3 c Hc. unfold open_dump in Hc.
        destruct (open_w C yaml_name (world s3)) as [[e |] w];
          by apply elem_of_nil in Hc. }
  destruct (bind (add_timedelta _ _) _ s1) as [[r2 s2] t2]. simpl in *.
  by apply closed_app.
Qed.

Lemma guarded_bind_guarded {A B} P `{!Closed P} v Q (m : M W A) (k : A -> M W B) :
  guarded v Q P m -> (forall a, always P (k a)) -> guarded v Q P (bind m k).
Proof.
  intros Hm Hk s HQ. unfold bind. specialize (Hm s HQ).
  destruct (m s) as [[[e | a] s1] t1]; simpl in *; [done |].
  specialize (Hk a s1). destruct (k a s1) as [[r s2] t2]. simpl in *.
  by apply closed_app.
Qed.

End Confined.

(** Settles that an event other than a shell command is [confined]. *)
Ltac shellfree :=
  let H := fresh in
  intros ? H; by apply elem_of_nil in H.

Section ShellCommands.
Context {W : Type} (C : collaborators W) (a0 : pyval).

Lemma confined_variational_yaml gdas_home anl_dir :
  guarded "COMIN_GES" (fun a => a = a0) (confined C a0)
          (variational_yaml C gdas_home anl_dir).
Proof.
  unfold variational_yaml. cbv zeta.
  do 6 (apply guarded_bind; [apply _ | still | solve [steady ltac:(shellfree)] | intros ?]).
  apply guarded_getenv. intros comin_ges ->.
  apply always_bind; [apply _ | apply confined_gen_bkg_list | intros _].
  steady ltac:(shellfree).
Qed.

Lemma confined_script :
  guarded "COMIN_GES" (fun a => a = a0) (confined C a0) (script C).
Proof.
  unfold script.
  apply guarded_bind;
    [apply _ | apply untouched_get_gdas_home
    | unfold get_gdas_home; solve [steady ltac:(shellfree)] | intros gdas_home].
  apply guarded_bind;
    [apply _ | apply untouched_setup_runtime
    | unfold setup_runtime; solve [steady ltac:(shellfree)] |].
  intros [[[comout comin_obs] anl_dir] diags].
  apply guarded_bind;
    [apply _ | by apply untouched_stage_observations
    | unfold stage_observations; cbv zeta; solve [steady ltac:(shellfree)]
    | intros stage_cfg].
  apply guarded_bind;
    [apply _ | apply untouched_stage_backgrounds
    | unfold stage_backgrounds; solve [steady ltac:(shellfree)] | intros _].
  apply guarded_bind;
    [apply _ | apply untouched_prepare_yamls
    | unfold prepare_yamls; cbv zeta; solve [steady ltac:(shellfree)] | intros soca_vars].
  apply guarded_bind;
    [apply _ | by apply untouched_bump_C
    | unfold bump_C, bumpC_body; cbv zeta; solve [steady ltac:(shellfree)] | intros _].
  apply guarded_bind_guarded;
    [apply _ | apply confined_variational_yaml | intros window_begin].
  apply always_bind; [apply _ | | intros _].
  - unfold link_restart. cbv zeta. steady ltac:(shellfree).
  - unfold prepare_input_nml. cbv zeta. steady ltac:(shellfree).
Qed.

End ShellCommands.

(** X18: the script runs no shell command of its own making: however a run
    ends, every command it has passed to [os.system] or [subprocess.run]
    is one of the two [ncatted] commands of [gen_bkg_list] for a variable
    and an attribute of its lists and a file that [glob] gave under the
    [COMIN_GES] of the initial environment; with [COMIN_GES] unset it runs
    none. *)
Theorem script_runs_repair_commands_only
    {W} (C : collaborators W) (s : state W) (c : string) :
  c ∈ shell_commands (snd (script C s)) ->
  exists ges, environ s !! "COMIN_GES" = Some ges /\ repair_command_of C ges c.
Proof.
  intros Hc.
  destruct (confined_script C (getenv_value (environ s) "COMIN_GES") s eq_refl c Hc)
    as (ges & Hges & Hjob).
  exists ges. split; [| done].
  unfold getenv_value in Hges. by destruct (environ s !! "COMIN_GES"); simplify_eq.
Qed.

(** ** The properties of the whole run at concrete inputs *)

Lemma cycle_run_completes :
  script permissive cycle_state
  = (inr tt, (script permissive cycle_state).1.2, (script permissive cycle_state).2).
Proof. vm_compute. reflexivity. Defined.

Lemma script_assigns_five_variables_witness :
  ("PDY" ∉ ["OBS_DATE"; "OBS_DIR"; "OBS_PREFIX"; "DIAG_DIR"; "CVAR"])
  /\ environ (script permissive cycle_state).1.2 !! "PDY" = environ cycle_state !! "PDY".
Proof.
  assert (H : "PDY" ∉ ["OBS_DATE"; "OBS_DIR"; "OBS_PREFIX"; "DIAG_DIR"; "CVAR"]).
  { rewrite !not_elem_of_cons. repeat split; (discriminate || apply not_elem_of_nil). }
  split; [exact H |].
  exact (script_assigns_five_variables permissive "PDY" cycle_state H).
Defined.

Lemma script_final_environment_witness :
  environ (script permissive cycle_state).1.2 !! "CVAR" = Some "socn"
  /\ exists comout,
      environ cycle_state !! "COMOUT" = Some comout
      /\ environ (script permissive cycle_state).1.2 !! "DIAG_DIR"
         = Some (Path.join comout ["analysis"; "diags"]).
Proof.
  exact (script_final_environment permissive cycle_state _ _ cycle_run_completes).
Defined.


Lemma stack_size_checked_before_removal_witness :
  not_an_int permissive
    (getenv_value (<[ "DOMAIN_STACK_SIZE" := "lots" ]> cycle_env) "DOMAIN_STACK_SIZE")
  /\ (Request "ufsda.disk_utils.removefile"
      ∉ actions (script permissive
                   (mk_state (<[ "DOMAIN_STACK_SIZE" := "lots" ]> cycle_env) tt)).2).
Proof.
  assert (H : not_an_int permissive
                (getenv_value (<[ "DOMAIN_STACK_SIZE" := "lots" ]> cycle_env)
                              "DOMAIN_STACK_SIZE"))
    by (vm_compute; reflexivity).
  split; [exact H |].
  exact (proj1 (proj2 (stack_size_checked_before_removal permissive
                         (mk_state (<[ "DOMAIN_STACK_SIZE" := "lots" ]> cycle_env) tt) H))).
Defined.

Lemma window_checked_after_repair_witness :
  plain_value (VStr " ")
  /\ gen_bkg_list (quiet two_listed 0) (VStr " ") (VStr ges) default_file_type "bkg.yaml"
                  state0
     = (inl TypeError, state0,
        flat_map job_events
          (all_jobs (files_of (quiet two_listed 0) ges default_file_type state0))).
Proof.
  split; [exact I |].
  exact (window_checked_after_repair (quiet two_listed 0) (VStr " ") ges
           default_file_type "bkg.yaml" state0 tt (quiet_repaired _ _ _) I).
Defined.




Lemma two_files_run_completes :
  gen_bkg_list (quiet two_listed 0) (VDatetime window_0328) (VStr ges)
               default_file_type "bkg_list.yaml" state0
  = (inr tt,
     (gen_bkg_list (quiet two_listed 0) (VDatetime window_0328) (VStr ges)
                   default_file_type "bkg_list.yaml" state0).1.2,
     (gen_bkg_list (quiet two_listed 0) (VDatetime window_0328) (VStr ges)
                   default_file_type "bkg_list.yaml" state0).2).
Proof. vm_compute. reflexivity. Defined.

Lemma gen_bkg_list_forty_commands_a_file_witness :
  exists path,
    VStr ges = VStr path
    /\ length (List.filter is_shell
                 (gen_bkg_list (quiet two_listed 0) (VDatetime window_0328) (VStr ges)
                               default_file_type "bkg_list.yaml" state0).2)
       = (40 * length (files_of (quiet two_listed 0) path default_file_type state0))%nat
    /\ length (List.filter is_log
                 (gen_bkg_list (quiet two_listed 0) (VDatetime window_0328) (VStr ges)
                               default_file_type "bkg_list.yaml" state0).2)
       = (20 * length (files_of (quiet two_listed 0) path default_file_type state0))%nat.
Proof.
  exact (gen_bkg_list_forty_commands_a_file (quiet two_listed 0) (VDatetime window_0328)
           (VStr ges) default_file_type "bkg_list.yaml" state0 _ _
           two_files_run_completes).
Defined.

Lemma undecodable_output_stops_the_run_witness :
  exists s' cs,
    gen_bkg_list (garbled two_listed) (VDatetime window_0328) (VStr ges)
                 default_file_type "bkg_list.yaml" state0
    = (inl UnicodeDecodeError, s', flat_map job_events cs)
    /\ cs `prefix_of` all_jobs (files_of (garbled two_listed) ges default_file_type state0)
    /\ environ s' = environ state0.
Proof.
  apply (undecodable_output_stops_the_run (garbled two_listed) (VDatetime window_0328)
           ges default_file_type "bkg_list.yaml" state0
           (ch_job "_FillValue" "Temp" (in_dir ges "gdas.t00z.ocnf004.nc"))).
  - apply list_elem_of_In. vm_compute. left. reflexivity.
  - intros w. reflexivity.
Defined.

Lemma cycle_variational_completes :
  variational_yaml permissive cycle_gdas_home cycle_anl_dir cycle_state
  = (inr (Datetime.of_fields 2022 3 28 3 0 0),
     (variational_yaml permissive cycle_gdas_home cycle_anl_dir cycle_state).1.2,
     (variational_yaml permissive cycle_gdas_home cycle_anl_dir cycle_state).2).
Proof. vm_compute. reflexivity. Defined.

Lemma stocked_variational_completes :
  variational_yaml stocked cycle_gdas_home cycle_anl_dir cycle_state
  = (inr (Datetime.of_fields 2022 3 28 3 0 0),
     (variational_yaml stocked cycle_gdas_home cycle_anl_dir cycle_state).1.2,
     (variational_yaml stocked cycle_gdas_home cycle_anl_dir cycle_state).2).
Proof. vm_compute. reflexivity. Defined.

Lemma variational_yaml_request_witness :
  exists ges' pdy cyc,
    environ cycle_state !! "COMIN_GES" = Some ges'
    /\ environ cycle_state !! "PDY" = Some pdy /\ environ cycle_state !! "cyc" = Some cyc
    /\ (variational_yaml stocked cycle_gdas_home cycle_anl_dir cycle_state).2
       = flat_map job_events
           (all_jobs (files_of stocked ges' default_file_type cycle_state))
         ++ [EDump "bkg_list.yaml"
                   (manifest ges' (Datetime.of_fields 2022 3 28 3 0 0)
                             (files_of stocked ges' default_file_type cycle_state));
             ELog [var_config cycle_gdas_home (pdy +:+ cyc)
                              (getenv_value (environ cycle_state) "SOCA_NINNER")];
             ECall "ufsda.yamltools.genYAML"
                   [var_config cycle_gdas_home (pdy +:+ cyc)
                               (getenv_value (environ cycle_state) "SOCA_NINNER");
                    VStr (Path.join cycle_anl_dir ["var.yaml"]);
                    VStr (Path.join cycle_gdas_home
                            ["parm"; "soca"; "variational"; "3dvarfgat.yaml"])]].
Proof.
  exact (variational_yaml_request stocked cycle_gdas_home cycle_anl_dir cycle_state
           _ _ _ stocked_variational_completes).
Defined.

Lemma window_begins_half_a_period_before_cycle_witness :
  exists af n cd t,
    environ cycle_state !! "assim_freq" = Some af /\ int_of_str permissive af = Some n
    /\ environ cycle_state !! "CDATE" = Some cd /\ strptime_YmdH permissive cd = Some t
    /\ 2 * (Datetime.micros t - Datetime.micros (Datetime.of_fields 2022 3 28 3 0 0))
       = n * Datetime.US_PER_HOUR.
Proof.
  exact (window_begins_half_a_period_before_cycle permissive cycle_gdas_home
           cycle_anl_dir cycle_state _ _ _ cycle_variational_completes).
Defined.

Lemma stocked_run_completes :
  script stocked cycle_state
  = (inr tt, (script stocked cycle_state).1.2, (script stocked cycle_state).2).
Proof. vm_compute. reflexivity. Defined.

Lemma script_dumps_one_manifest_witness :
  exists ges' af n cd t w,
    environ cycle_state !! "COMIN_GES" = Some ges'
    /\ environ cycle_state !! "assim_freq" = Some af /\ int_of_str stocked af = Some n
    /\ environ cycle_state !! "CDATE" = Some cd /\ strptime_YmdH stocked cd = Some t
    /\ dumps (script stocked cycle_state).2
       = [("bkg_list.yaml",
           manifest ges'
             (Datetime.mk_datetime
                (Datetime.micros t - n * (Datetime.US_PER_HOUR / 2)))
             (sort (glob_glob stocked (ges' +:+ "/*" +:+ default_file_type +:+ "*") w)))].
Proof.
  exact (script_dumps_one_manifest stocked cycle_state _ _ stocked_run_completes).
Defined.

Lemma gdas_home_of_HOMEgfs_witness :
  environ (mk_state (<[ "HOMEgfs" := "" ]> cycle_env) tt) !! "HOMEgfs" = Some ""
  /\ get_gdas_home (mk_state (<[ "HOMEgfs" := "" ]> cycle_env) tt)
     = (inr "sorc/gdas.cd", mk_state (<[ "HOMEgfs" := "" ]> cycle_env) tt, []).
Proof.
  assert (H : environ (mk_state (<[ "HOMEgfs" := "" ]> cycle_env) tt) !! "HOMEgfs"
              = Some "") by (vm_compute; reflexivity).
  split; [exact H |].
  exact (gdas_home_of_HOMEgfs (mk_state (<[ "HOMEgfs" := "" ]> cycle_env) tt) "" H).
Defined.

Lemma cycle_setup_completes :
  setup_runtime permissive cycle_state
  = (inr (VStr "/com/out", VNone, cycle_anl_dir, "/com/out/analysis/diags"),
     (setup_runtime permissive cycle_state).1.2, (setup_runtime permissive cycle_state).2).
Proof. vm_compute. reflexivity. Defined.

Lemma setup_runtime_directories_witness :
  exists c,
    environ cycle_state !! "COMOUT" = Some c
    /\ cycle_anl_dir = Path.join c ["analysis"]
    /\ "/com/out/analysis/diags" = Path.join cycle_anl_dir ["diags"]
    /\ List.filter (fun e => negb (is_log e)) (setup_runtime permissive cycle_state).2
       = [ECall "ufsda.mkdir" [VStr cycle_anl_dir];
          ECall "ufsda.mkdir" [VStr (Path.join cycle_anl_dir ["diags"])];
          ECall "ufsda.mkdir" [VStr (Path.join cycle_anl_dir ["Data"])]].
Proof.
  exact (setup_runtime_directories permissive cycle_state _ _ _ _ _ _
           cycle_setup_completes).
Defined.

Lemma script_follows_one_sequence_witness :
  fst (fst (script permissive cycle_state)) = inr tt
  /\ actions (script permissive cycle_state).2 = script_actions.
Proof.
  assert (H : fst (fst (script permissive cycle_state)) = inr tt)
    by (vm_compute; reflexivity).
  split; [exact H |].
  exact (proj2 (script_follows_one_sequence permissive cycle_state) H).
Defined.

Lemma cycle_stage_observations_completes :
  stage_observations permissive cycle_gdas_home VNone "/com/out/analysis/diags" cycle_state
  = (inr (VObj 0),
     (stage_observations permissive cycle_gdas_home VNone "/com/out/analysis/diags"
                         cycle_state).1.2,
     (stage_observations permissive cycle_gdas_home VNone "/com/out/analysis/diags"
                         cycle_state).2).
Proof. vm_compute. reflexivity. Defined.

Lemma stage_observations_exports_witness :
  exists envconfig obs_date obs_dir obs_prefix,
    (stage_observations permissive cycle_gdas_home VNone "/com/out/analysis/diags"
                        cycle_state).2
    = [ELog [VStr "---------------- Stage observations"];
       ECall "ufsda.r2d2.setup" [VStr "r2d2_config.yaml"; VNone];
       ECall "ufsda.misc_utils.get_env_config" [VStr "notatm"];
       ECall "__getitem__" [envconfig; VStr "OBS_DATE"];
       ESetenv "OBS_DATE" obs_date;
       ECall "__getitem__" [envconfig; VStr "OBS_DIR"];
       ESetenv "OBS_DIR" obs_dir;
       ECall "__getitem__" [envconfig; VStr "OBS_PREFIX"];
       ESetenv "OBS_PREFIX" obs_prefix;
       ESetenv "DIAG_DIR" "/com/out/analysis/diags";
       ECall "ufsda.parse_config"
             [VStr (Path.join cycle_gdas_home ["parm"; "templates"; "stage.yaml"]);
              VBool true];
       ECall "ufsda.stage.obs" [VObj 0]]
    /\ environ (stage_observations permissive cycle_gdas_home VNone
                                   "/com/out/analysis/diags" cycle_state).1.2
       = <[ "DIAG_DIR" := "/com/out/analysis/diags" ]>
           (<[ "OBS_PREFIX" := obs_prefix ]>
              (<[ "OBS_DIR" := obs_dir ]>
                 (<[ "OBS_DATE" := obs_date ]> (environ cycle_state)))).
Proof.
  exact (stage_observations_exports permissive cycle_gdas_home VNone
           "/com/out/analysis/diags" cycle_state _ _ _ cycle_stage_observations_completes).
Defined.

Lemma script_runs_repair_commands_only_witness :
  ch_job "_FillValue" "Temp" (in_dir ges "gdas.t00z.ocnf004.nc")
    ∈ shell_commands (script (stocked) cycle_state).2
  /\ exists ges',
      environ cycle_state !! "COMIN_GES" = Some ges'
      /\ repair_command_of (stocked) ges'
                           (ch_job "_FillValue" "Temp" (in_dir ges "gdas.t00z.ocnf004.nc")).
Proof.
  assert (H : ch_job "_FillValue" "Temp" (in_dir ges "gdas.t00z.ocnf004.nc")
                ∈ shell_commands (script (stocked) cycle_state).2).
  { apply list_elem_of_In. vm_compute. left. reflexivity. }
  split; [exact H |].
  exact (script_runs_repair_commands_only (stocked) cycle_state _ H).
Defined.
